(** * disaster-tracker: the effect algebra, the pipelines, the event
      reconciler, the hazard correlator and the channel registry

    A shallow embedding of [app/pipeline.py], [app/model.py], [app/db.py],
    [app/calendar_events.py], [app/disaster_events.py] and [app/watcher.py].

    Conventions.
    - A Python call either returns a value or raises: [outcome A].
    - Code that talks to a store threads the store explicitly: [M St A].
    - [Result] and [Option] are the classes [Ok]/[Err] and
      [Something]/[Nothing] of [app/pipeline.py]; Rocq's own [option] is kept
      for Python's [Optional] (a value or [None]). *)

From Stdlib Require Import ZArith Ascii Floats.PrimFloat.
From stdpp Require Import gmap strings list fin_maps.

Set Default Proof Using "Type".
Set Warnings "-register-all".
Open Scope Z_scope.

(* ===================================================================== *)
(** * Exceptions *)
(* ===================================================================== *)

(** The exception classes the repository names, with the classes they
    derive from. *)
Inductive exn_class : Type :=
  | BaseException | KeyboardInterrupt | CancelledError
  | Exception
  | TypeError | ValueError | AttributeError | OverflowError | IOError
  | LookupError | KeyError | IndexError
  | ValidationError | PydanticSerializationError
  | UnwrapError
  | PyMongoError | DuplicateKeyError | BulkWriteError
  | RedisError | DataError
  | HttpError.

#[global] Instance exn_class_eq_dec : EqDecision exn_class.
Proof. solve_decision. Defined.

(** The direct base class; [BaseException] is the root. *)
Definition base (c : exn_class) : option exn_class :=
  match c with
  | BaseException => None
  | KeyboardInterrupt | CancelledError | Exception => Some BaseException
  | TypeError | ValueError | AttributeError | IOError | LookupError
  | UnwrapError | PyMongoError | RedisError | HttpError => Some Exception
  | OverflowError => Some Exception
  | KeyError | IndexError => Some LookupError
  | ValidationError | PydanticSerializationError => Some ValueError
  | DuplicateKeyError | BulkWriteError => Some PyMongoError
  | DataError => Some RedisError
  end.

Fixpoint climb (n : nat) (c : exn_class) : list exn_class :=
  c :: match n with
       | O => []
       | S n' => match base c with Some b => climb n' b | None => [] end
       end.

(** The method resolution order of a class: itself, then its bases up to
    the root (the hierarchy is four levels deep). *)
Definition mro (c : exn_class) : list exn_class := climb 4 c.

Definition issubclass (c d : exn_class) : bool := bool_decide (d ∈ mro c).

(** A raised exception object, and what an [Err] holds.

    [UnwrapErr e] is the [UnwrapError] built by [Err.unwrap]: it keeps the
    [Err] it was called on, whose error is [e].

    [Err] is [Generic[E]]: its error is an exception object ([Caught]), as
    every [Err] of the repository holds, or any other object ([Object]).
    [Err.unwrap] builds its message from the [repr] of the error and chains
    the error with [raise ... from], which accepts an exception or [None]
    and answers anything else with a [TypeError]; [refusal] is what the
    statement raises on an object instead of the [UnwrapError], if it does
    ([None]: the object is accepted as the cause). *)
Inductive exn : Type :=
  | Exn (cls : exn_class) (detail : string)
  | UnwrapErr (inner : held)
with held : Type :=
  | Caught (e : exn)
  | Object (repr : string) (refusal : option exn).

Coercion Caught : exn >-> held.

Definition class_of (e : exn) : exn_class :=
  match e with
  | Exn c _ => c
  | UnwrapErr _ => UnwrapError
  end.

Definition isinstance (e : exn) (c : exn_class) : bool :=
  issubclass (class_of e) c.

(** [except (c1, ..., cn)]: the clause catches [e] when it is an instance of
    one of the listed classes. *)
Definition except_matches (classes : list exn_class) (e : exn) : bool :=
  existsb (isinstance e) classes.

(* ===================================================================== *)
(** * Outcomes of calls, and calls that thread a store *)
(* ===================================================================== *)

Inductive outcome (A : Type) : Type :=
  | Returns (a : A)
  | Raises (e : exn).
Arguments Returns {A} a.
Arguments Raises {A} e.

(** A computation over a store [St].  A raise keeps the store as it was at
    the raise: nothing is rolled back. *)
Definition M (St A : Type) : Type := St → outcome A * St.

Definition ret {St A} (a : A) : M St A := λ s, (Returns a, s).
Definition raise {St A} (e : exn) : M St A := λ s, (Raises e, s).
Definition bind {St A B} (m : M St A) (k : A → M St B) : M St B :=
  λ s, match m s with
       | (Returns a, s') => k a s'
       | (Raises e, s') => (Raises e, s')
       end.

#[global] Instance M_ret {St} : MRet (M St) := λ A, ret.
#[global] Instance M_bind {St} : MBind (M St) := λ A B k m, bind m k.

(* ===================================================================== *)
(** * Effect algebra ([app/pipeline.py]) *)
(* ===================================================================== *)

(** [Something(value)] / [Nothing()]. *)
Inductive Option (T : Type) : Type :=
  | Something (value : T)
  | Nothing.
Arguments Something {T} value.
Arguments Nothing {T}.

(** [Ok(value)] / [Err(error)]. *)
Inductive Result (T : Type) : Type :=
  | Ok (value : T)
  | Err (error : held).
Arguments Ok {T} value.
Arguments Err {T} error.

Module Option.
Definition is_something {T} (o : Option T) : bool :=
  match o with Something _ => true | Nothing => false end.
Definition is_nothing {T} (o : Option T) : bool :=
  match o with Something _ => false | Nothing => true end.
(** [something()]: the value, or [None]. *)
Definition something {T} (o : Option T) : option T :=
  match o with Something v => Some v | Nothing => None end.
Definition then_ {T U} (o : Option T) (func : T → Option U) : Option U :=
  match o with Something v => func v | Nothing => Nothing end.
End Option.

Module Result.
Definition is_ok {T} (r : Result T) : bool :=
  match r with Ok _ => true | Err _ => false end.
Definition is_err {T} (r : Result T) : bool :=
  match r with Ok _ => false | Err _ => true end.
(** [ok()]: the value, or [None]. *)
Definition ok {T} (r : Result T) : option T :=
  match r with Ok v => Some v | Err _ => None end.
(** What [Err(error).unwrap()] raises: the [UnwrapError] chained from the
    error, or what the chaining raises when it refuses the error. *)
Definition raised_by_unwrap (error : held) : exn :=
  match error with
  | Object _ (Some refused) => refused
  | _ => UnwrapErr error
  end.
(** [unwrap()]: [Ok] gives its value, [Err] raises. *)
Definition unwrap {T} (r : Result T) : outcome T :=
  match r with
  | Ok v => Returns v
  | Err e => Raises (raised_by_unwrap e)
  end.
Definition unwrap_or {T} (r : Result T) (other : T) : T :=
  match r with Ok v => v | Err _ => other end.
Definition then_ {T U} (r : Result T) (func : T → Result U) : Result U :=
  match r with Ok v => func v | Err e => Err e end.
(** [then_async]: the continuation runs against the store. *)
Definition then_async {St T U} (r : Result T) (func : T → M St (Result U))
  : M St (Result U) :=
  match r with Ok v => func v | Err e => ret (Err e) end.
End Result.

(** ** Lifting raises into [Result] *)

(** [exceptions or Exception]: an empty tuple is falsy, so a decorator
    given no classes catches [Exception]. *)
Definition or_Exception (exceptions : list exn_class) : list exn_class :=
  match exceptions with
  | [] => [Exception]
  | _ :: _ => exceptions
  end.

(** The wrapper that [as_result] builds around [func], given what the call
    of [func] did.
    The first clause is [except exceptions or Exception], the second
    [except UnwrapError]. *)
Definition as_result {R} (exceptions : list exn_class) (call : outcome R)
  : outcome (Result R) :=
  match call with
  | Returns v => Returns (Ok v)
  | Raises e =>
      if except_matches (or_Exception exceptions) e then Returns (Err e)
      else if except_matches [UnwrapError] e then Returns (Err e)
      else Raises e
  end.

(** The wrapper that [as_async_result] builds: the awaited call runs against
    the store; there is one clause only. *)
Definition as_async_result {St R} (exceptions : list exn_class) (func : M St R)
  : M St (Result R) :=
  λ s, match func s with
       | (Returns v, s') => (Returns (Ok v), s')
       | (Raises e, s') =>
           if except_matches (or_Exception exceptions) e
           then (Returns (Err e), s')
           else (Raises e, s')
       end.

Definition call_as_result {R} (exceptions : list exn_class) (func : outcome R)
  : outcome (Result R) :=
  as_result exceptions func.

(** ** Truth values

    [bool(x)] as the classes of the repository define it.  [Something],
    [Nothing], [Ok] and [Err] declare neither [__bool__] nor [__len__], so
    their instances are all true; so are pydantic models.  [None] is false. *)
Class PyBool (T : Type) : Type := py_bool : T → bool.

#[global] Instance PyBool_bool : PyBool bool := λ b, b.
#[global] Instance PyBool_Z : PyBool Z := λ z, negb (z =? 0).
#[global] Instance PyBool_string : PyBool string :=
  λ s, match s with EmptyString => false | _ => true end.
#[global] Instance PyBool_list {T} : PyBool (list T) :=
  λ l, match l with [] => false | _ :: _ => true end.
#[global] Instance PyBool_optional {T} `{PyBool T} : PyBool (option T) :=
  λ o, match o with None => false | Some v => py_bool v end.
#[global] Instance PyBool_Option {T} : PyBool (Option T) := λ _, true.
#[global] Instance PyBool_Result {T} : PyBool (Result T) := λ _, true.

(* ===================================================================== *)
(** * Iterators and pipelines ([app/pipeline.py]) *)
(* ===================================================================== *)

(** ** Collections: [list], [tuple], [set] *)

(** The class handed to [collect_as] / [unwrap_as].  A [set] needs its
    elements to compare. *)
Inductive CollectionType (T : Type) : Type :=
  | list_
  | tuple_
  | set_ (eq_dec : EqDecision T).
Arguments list_ {T}.
Arguments tuple_ {T}.
Arguments set_ {T} eq_dec.

Inductive Collection (T : Type) : Type :=
  | PyList (items : list T)
  | PyTuple (items : list T)
  | PySet (items : list T).
Arguments PyList {T} items.
Arguments PyTuple {T} items.
Arguments PySet {T} items.

(** [class_(items)]; a set keeps one copy of each element. *)
Definition build {T} (class_ : CollectionType T) (items : list T) : Collection T :=
  match class_ with
  | list_ => PyList items
  | tuple_ => PyTuple items
  | set_ eq_dec => PySet (@remove_dups T eq_dec items)
  end.

Definition elements_of {T} (c : Collection T) : list T :=
  match c with PyList l | PyTuple l | PySet l => l end.

Definition len {T} (c : Collection T) : Z := Z.of_nat (length (elements_of c)).

#[global] Instance PyBool_Collection {T} : PyBool (Collection T) :=
  λ c, py_bool (elements_of c).

(** [if collection and len(collection): return Something(collection)],
    else [return Nothing()]. *)
Definition Something_if_any {T} (collection : Collection T)
  : Option (Collection T) :=
  if py_bool collection && py_bool (len collection)
  then Something collection
  else Nothing.

(** ** Python iterators

    A list iterator is an object with state: the items it has not yet
    yielded.  It lives in a heap cell, so that every object holding a
    reference to it sees it advance.  A [map] or [filter] object holds a
    reference to the iterator under it and a function, and no items of its
    own: it is the cell of the list iterator at the bottom together with the
    stages stacked on it ([None]: the stage drops the item). *)
Module Iter.

Definition heap (S : Type) : Type := list (list S).

Record iterator (S T : Type) : Type := {
  cell : nat;
  through : S → option T
}.
Arguments cell {S T} _.
Arguments through {S T} _ _.

Section ops.
Context {S : Type}.

(** [iter(a_list)]: a fresh list iterator. *)
Definition iter (iterable : list S) : M (heap S) (iterator S S) :=
  λ h, (Returns {| cell := length h; through := Some |}, h ++ [iterable]).

(** [map(func, it)]. *)
Definition map_ {T U} (func : T → U) (it : iterator S T) : iterator S U :=
  {| cell := cell it; through := λ x, func <$> through it x |}.

(** [filter(func, it)]: keeps the items on which [func] is true. *)
Definition filter_ {T} (func : T → bool) (it : iterator S T) : iterator S T :=
  {| cell := cell it;
     through := λ x, y ← through it x; if func y then Some y else None |}.

Definition remaining (c : nat) (h : heap S) : list S := default [] (h !! c).

(** The first item that gets through the stages, and what is left
    behind it. *)
Fixpoint advance {T} (stages : S → option T) (l : list S) : option T * list S :=
  match l with
  | [] => (None, [])
  | x :: rest =>
      match stages x with
      | Some y => (Some y, rest)
      | None => advance stages rest
      end
  end.

(** [next(it, None)]. *)
Definition next {T} (it : iterator S T) : M (heap S) (option T) :=
  λ h, let (y, rest) := advance (through it) (remaining (cell it) h) in
       (Returns y, <[cell it := rest]> h).

(** Running the iterator to its end, as [list(it)], [tuple(it)],
    [set(it)] and a [for] loop do. *)
Definition exhaust {T} (it : iterator S T) : M (heap S) (list T) :=
  λ h, (Returns (omap (through it) (remaining (cell it) h)),
        <[cell it := []]> h).
End ops.

End Iter.

(** ** The lazy pipeline *)
Module Pipeline.
Import Iter.

Record t (S T : Type) : Type := mk { _iterator : iterator S T }.
Arguments mk {S T} _.
Arguments _iterator {S T} _.

Section ops.
Context {S : Type}.

(** [Pipeline(a_list)]: [__init__] takes [iter(iterable)]. *)
Definition new (iterable : list S) : M (heap S) (t S S) :=
  it ← iter iterable; mret (mk it).

(** [__iter__] *)
Definition __iter__ {T} (self : t S T) : iterator S T := _iterator self.

(** [Pipeline(map(func, self._iterator))]; the [iter] of a [map] or
    [filter] object is the object itself. *)
Definition map {T U} (func : T → U) (self : t S T) : t S U :=
  mk (map_ func (_iterator self)).

Definition filter {T U} `{PyBool U} (func : T → U) (self : t S T) : t S T :=
  mk (filter_ (λ x, py_bool (func x)) (_iterator self)).

(** [Pipeline(filter(bool, map(func, self._iterator)))]. *)
Definition filter_map {T U} `{PyBool U} (func : T → U) (self : t S T) : t S U :=
  mk (filter_ py_bool (map_ func (_iterator self))).

Definition collect_as {T} (class_ : CollectionType T) (self : t S T)
  : M (heap S) (Option (Collection T)) :=
  items ← exhaust (_iterator self);
  mret (Something_if_any (build class_ items)).

(** [[x for x in pipeline]]: the elements an iteration produces. *)
Definition iterate {T} (self : t S T) : M (heap S) (list T) :=
  exhaust (__iter__ self).
End ops.

End Pipeline.

(** ** Async generators and the async pipeline

    The source of an async pipeline is a generator that suspends between
    items.  [pending] starts it and answers the items it has yet to yield,
    [leave] records which of them were not pulled. *)
Class AsyncSource (St G S : Type) : Type := {
  pending : G → M St (list S);
  leave : G → list S → St → St
}.

(** [to_async(iterable)] over a list iterator. *)
#[global] Instance heap_source {S} : AsyncSource (Iter.heap S) nat S := {
  pending c := λ h, (Returns (Iter.remaining c h), h);
  leave c rest := λ h, <[c := rest]> h
}.

Definition outcome_map {A B} (f : A → B) (o : outcome A) : outcome B :=
  match o with Returns a => Returns (f a) | Raises e => Raises e end.

Module AsyncPipeline.

(** An async generator: the source at the bottom and the stages of the
    [gen()] closures wrapped around it, which hold no items. *)
Record agen (G S T : Type) : Type := {
  source : G;
  through : S → option T
}.
Arguments source {G S T} _.
Arguments through {G S T} _ _.

Record t (G S T : Type) : Type := mk { _generator : agen G S T }.
Arguments mk {G S T} _.
Arguments _generator {G S T} _.

Section ops.
Context {St G S : Type} `{AsyncSource St G S}.

(** [AsyncPipeline(generator)] *)
Definition new (generator : G) : t G S S :=
  mk {| source := generator; through := Some |}.

Definition map {T U} (func : T → U) (self : t G S T) : t G S U :=
  mk {| source := source (_generator self);
        through := λ x, func <$> through (_generator self) x |}.

(** [if sync(item): yield item] *)
Definition filter {T U} `{PyBool U} (func : T → U) (self : t G S T) : t G S T :=
  mk {| source := source (_generator self);
        through := λ x, y ← through (_generator self) x;
                        if py_bool (func y) then Some y else None |}.

(** [if new := sync(item): yield new] *)
Definition filter_map {T U} `{PyBool U} (func : T → U) (self : t G S T)
  : t G S U :=
  mk {| source := source (_generator self);
        through := λ x, y ← through (_generator self) x;
                        let new := func y in
                        if py_bool new then Some new else None |}.

(** [[item async for item in self._generator]]: the elements the pipeline
    produces when it is driven to its end. *)
Definition drain {T} (self : t G S T) : M St (list T) :=
  bind (pending (source (_generator self))) (λ items st,
    (Returns (omap (through (_generator self)) items),
     leave (source (_generator self)) [] st)).

Definition collect_as {T} (class_ : CollectionType T) (self : t G S T)
  : M St (Option (Collection T)) :=
  items ← drain self;
  mret (Something_if_any (build class_ items)).

(** [[item.unwrap() async for item in self._generator]]: items are
    pulled one at a time; the first [unwrap] that raises ends the
    comprehension, and the items behind it stay with the source. *)
Fixpoint unwrap_each {T} (stages : S → option (Result T)) (l : list S)
  : outcome (list T) * list S :=
  match l with
  | [] => (Returns [], [])
  | x :: rest =>
      match stages x with
      | None => unwrap_each stages rest
      | Some item =>
          match Result.unwrap item with
          | Raises e => (Raises e, rest)
          | Returns v =>
              let (o, left) := unwrap_each stages rest in
              (outcome_map (cons v) o, left)
          end
      end
  end.

(** [unwrap_as], under its decorator [as_async_result(UnwrapError)]. *)
Definition unwrap_as {T} (class_ : CollectionType T) (self : t G S (Result T))
  : M St (Result (Collection T)) :=
  as_async_result [UnwrapError]
    (bind (pending (source (_generator self))) (λ items st,
       let (o, left) := unwrap_each (through (_generator self)) items in
       (outcome_map (build class_) o,
        leave (source (_generator self)) left st))).
End ops.

End AsyncPipeline.

(* ===================================================================== *)
(** * Stored values and the document collection ([pymongo] / [motor]) *)
(* ===================================================================== *)

(** The values the application hands to the driver and gets back from it:
    model dumps hold strings, booleans, floats, naive datetimes (their
    microseconds since the epoch), tuples (stored as arrays) and nested
    models (stored as sub-documents).  An [ObjectId] is what the store gives
    a document that brings no [_id]. *)
Inductive bson : Type :=
  | BNull
  | BObjectId (n : nat)
  | BBool (b : bool)
  | BStr (s : string)
  | BDouble (x : float)
  | BDate (t : Z)
  | BArray (items : list bson)
  | BDocument (fields : gmap string bson).

(** A Python [dict] with string keys, a MongoDB document. *)
Abbreviation doc := (gmap string bson).

Module Mongo.

(** Equality of scalar values as a query [{field: value}] tests it. *)
Definition bson_eqb (a b : bson) : bool :=
  match a, b with
  | BNull, BNull => true
  | BObjectId x, BObjectId y => Nat.eqb x y
  | BBool x, BBool y => Bool.eqb x y
  | BStr x, BStr y => String.eqb x y
  | BDouble x, BDouble y => PrimFloat.eqb x y
  | BDate x, BDate y => x =? y
  | _, _ => false
  end.

(** Order within one kind; values of different kinds never compare. *)
Definition bson_leb (a b : bson) : bool :=
  match a, b with
  | BDouble x, BDouble y => PrimFloat.leb x y
  | BDate x, BDate y => x <=? y
  | BStr x, BStr y => bool_decide (String.leb x y = true)
  | _, _ => false
  end.

(** What a filter asks of one field: [{field: v}] or
    [{field: {"$gte": lo, "$lte": hi}}]. *)
Inductive cond : Type :=
  | Equals (v : bson)
  | Between (gte lte : bson).

Definition query : Type := list (string * cond).

Definition satisfies (c : cond) (field : option bson) : bool :=
  match field, c with
  | Some v, Equals w => bson_eqb v w
  | Some v, Between lo hi => bson_leb lo v && bson_leb v hi
  | None, _ => false
  end.

Definition matches (q : query) (d : doc) : bool :=
  forallb (λ kc, satisfies (snd kc) (d !! fst kc)) q.

(** ** What the driver sends

    BSON keeps a datetime as the milliseconds since the epoch: whatever a
    [datetime] holds below the millisecond is dropped (towards the past)
    when the driver encodes it, in a document that is written and in the
    values of a filter alike.  The other kinds go as they are. *)
Definition millis (t : Z) : Z := t / 1000 * 1000.

Fixpoint to_bson (v : bson) : bson :=
  match v with
  | BDate t => BDate (millis t)
  | BArray items => BArray (to_bson <$> items)
  | BDocument fields => BDocument (to_bson <$> fields)
  | _ => v
  end.

Definition sent (d : doc) : doc := to_bson <$> d.

Definition sent_cond (c : cond) : cond :=
  match c with
  | Equals v => Equals (to_bson v)
  | Between lo hi => Between (to_bson lo) (to_bson hi)
  end.

Definition sent_query (q : query) : query :=
  (λ kc, (fst kc, sent_cond (snd kc))) <$> q.

(** The documents a filter selects, once the driver has sent it. *)
Definition selects (q : query) (d : doc) : bool := matches (sent_query q) d.

(** A key that the server reads as the name of a field and as nothing
    else: it is not empty and has no dot (which makes a key of [$set] a
    path), no leading dollar (an operator) and no NUL (which BSON cannot
    encode).  The model reads every key as such a name; what the server and
    the driver do with the other keys is not modelled. *)
Fixpoint has_char (c : Ascii.ascii) (k : string) : bool :=
  match k with
  | EmptyString => false
  | String c' rest => Ascii.eqb c c' || has_char c rest
  end.

Definition field_name (k : string) : bool :=
  match k with
  | EmptyString => false
  | String c _ =>
      negb (Ascii.eqb c "$"%char) && negb (has_char "."%char k)
      && negb (has_char Ascii.zero k)
  end.

(** A value whose documents, at every depth, have field names for keys. *)
Fixpoint plain (v : bson) : bool :=
  match v with
  | BArray items => forallb plain items
  | BDocument fields =>
      map_fold (λ k inside acc, field_name k && inside && acc) true
               (plain <$> fields)
  | _ => true
  end.

(** A collection: its documents in insertion order, and a script of the
    round trips to come ([true]: the server cannot be reached, the driver
    raises a [PyMongoError] and nothing is written).  An exhausted script
    means a healthy server. *)
Record collection : Type := Store {
  documents : list doc;
  outages : list bool
}.

Definition round_trip {A} (op : list doc → outcome A * list doc)
  : M collection A :=
  λ c, match outages c with
       | true :: later =>
           (Raises (Exn PyMongoError "server unreachable"),
            Store (documents c) later)
       | false :: later =>
           let (r, ds) := op (documents c) in (r, Store ds later)
       | [] =>
           let (r, ds) := op (documents c) in (r, Store ds [])
       end.

(** [find_one(filter)]: the first matching document, or [None]. *)
Definition find_one (q : query) : M collection (option doc) :=
  round_trip (λ ds,
    (Returns (head (filter (λ d, matches (sent_query q) d = true) ds)), ds)).

(** The first document that matches is replaced by [f] of it. *)
Fixpoint replace_first (q : query) (f : doc → doc) (ds : list doc)
  : option (list doc) :=
  match ds with
  | [] => None
  | d :: rest =>
      if matches q d then Some (f d :: rest)
      else cons d <$> replace_first q f rest
  end.

(** The equality conditions of a filter, as the fields an upsert starts
    its new document from. *)
Definition seed (q : query) : doc :=
  foldr (λ kc acc, match snd kc with
                   | Equals v => <[fst kc := v]> acc
                   | Between _ _ => acc
                   end) ∅ q.

(** An [ObjectId] that no document of the collection has. *)
Definition oid_of (d : doc) : nat :=
  match d !! "_id" with Some (BObjectId n) => n | _ => O end.

Definition fresh_oid (ds : list doc) : bson :=
  BObjectId (S (foldr (λ d, Nat.max (oid_of d)) O ds)).

(** A document that brings no [_id] is given a fresh [ObjectId]. *)
Definition with_id (ds : list doc) (d : doc) : doc :=
  match d !! "_id" with
  | Some _ => d
  | None => <["_id" := fresh_oid ds]> d
  end.

(** [update_one(filter, {"$set": fields}, upsert=True).matched_count].
    The filter and the fields arrive as the driver encodes them. *)
Definition update_one_set_upsert (q : query) (fields : doc) : M collection Z :=
  round_trip (λ ds,
    match replace_first (sent_query q) (λ d, sent fields ∪ d) ds with
    | Some ds' => (Returns 1, ds')
    | None => (Returns 0, ds ++ [with_id ds (sent fields ∪ seed (sent_query q))])
    end).

Definition has_id (v : bson) (d : doc) : bool :=
  match d !! "_id" with Some w => bson_eqb w v | None => false end.

(** Appending one document, unless its [_id] is taken. *)
Definition append (d : doc) (ds : list doc) : option (list doc) :=
  match d !! "_id" with
  | Some v => if existsb (has_id v) ds then None else Some (ds ++ [d])
  | None => Some (ds ++ [with_id ds d])
  end.

(** [insert_one(document).acknowledged]: the document is stored as the
    driver encodes it. *)
Definition insert_one (d : doc) : M collection bool :=
  round_trip (λ ds,
    match append (sent d) ds with
    | Some ds' => (Returns true, ds')
    | None => (Raises (Exn DuplicateKeyError "E11000"), ds)
    end).

(** What iterating the argument of [insert_many] yields: a [dict], or
    something that is no document, such as the [(name, value)] tuples a
    pydantic model iterates as. *)
Inductive pyitem : Type :=
  | ItemDict (d : doc)
  | ItemPair (name : string) (value : bson).

Definition as_document (i : pyitem) : option doc :=
  match i with ItemDict d => Some d | ItemPair _ _ => None end.

(** An ordered bulk insert: it stops at the first document it cannot
    append and keeps those before it. *)
Fixpoint append_all (new : list doc) (ds : list doc) : outcome bool * list doc :=
  match new with
  | [] => (Returns true, ds)
  | d :: later =>
      match append d ds with
      | Some ds' => append_all later ds'
      | None => (Raises (Exn BulkWriteError "E11000"), ds)
      end
  end.

(** [insert_many(documents).acknowledged].  The driver checks its argument
    before it sends anything: an empty argument, or an item that is no
    document, is a [TypeError]. *)
Definition insert_many (documents : list pyitem) : M collection bool :=
  match documents with
  | [] => raise (Exn TypeError "documents must be a non-empty list")
  | _ :: _ =>
      match mapM as_document documents with
      | Some new => round_trip (append_all (sent <$> new))
      | None => raise (Exn TypeError "document must be an instance of dict")
      end
  end.

(** [delete_one(filter).acknowledged]. *)
Fixpoint remove_first (q : query) (ds : list doc) : list doc :=
  match ds with
  | [] => []
  | d :: rest => if matches q d then rest else d :: remove_first q rest
  end.

Definition delete_one (q : query) : M collection bool :=
  round_trip (λ ds, (Returns true, remove_first (sent_query q) ds)).

(** Draining the cursor of [find(filter)]. *)
Definition find (q : query) : M collection (list doc) :=
  round_trip (λ ds, (Returns (filter (λ d, selects q d = true) ds), ds)).

(** One request of a bulk write:
    [UpdateOne(filter, {"$set": fields}, upsert=True)]. *)
Record UpdateOne : Type := {
  update_filter : query;
  update_set : doc
}.

(** The counts of the reply to a bulk write that the model keeps. *)
Record BulkWriteResult : Type := {
  nMatched : Z;
  nUpserted : Z
}.

(** The requests are applied in order, each as [update_one] applies it,
    filter and fields as the driver encodes them. *)
Fixpoint apply_updates (requests : list UpdateOne) (ds : list doc)
         (so_far : BulkWriteResult) : BulkWriteResult * list doc :=
  match requests with
  | [] => (so_far, ds)
  | request :: later =>
      match replace_first (sent_query (update_filter request))
                          (λ d, sent (update_set request) ∪ d) ds with
      | Some ds' =>
          apply_updates later ds'
            {| nMatched := nMatched so_far + 1; nUpserted := nUpserted so_far |}
      | None =>
          apply_updates later
            (ds ++ [with_id ds (sent (update_set request)
                                ∪ seed (sent_query (update_filter request)))])
            {| nMatched := nMatched so_far; nUpserted := nUpserted so_far + 1 |}
      end
  end.

(** [bulk_write(requests).bulk_api_result]; the driver refuses an empty
    list of requests before it sends anything. *)
Definition bulk_write (requests : list UpdateOne) : M collection BulkWriteResult :=
  match requests with
  | [] => raise (Exn PyMongoError "No operations to execute")
  | _ :: _ =>
      round_trip (λ ds,
        let (reply, ds') :=
          apply_updates requests ds {| nMatched := 0; nUpserted := 0 |} in
        (Returns reply, ds'))
  end.

End Mongo.

Definition lift {St A} (o : outcome A) : M St A := λ s, (o, s).

(* ===================================================================== *)
(** * Models ([app/model.py]) *)
(* ===================================================================== *)

(** What a subclass of [ResultModel] brings: pydantic's validation of a
    [dict] ([None] when it raises [ValidationError]) and its dump to one (by
    alias, leaving out the excluded fields). *)
Class ResultModel (T : Type) : Type := {
  model_validate : doc → option T;
  model_dump : list string → T → doc
}.

Definition validated {T} (o : option T) : outcome T :=
  match o with
  | Some m => Returns m
  | None => Raises (Exn ValidationError "validation error")
  end.

(** [{**obj, "_id": obj["id"]} if "id" in obj else obj]. *)
Definition adjusted (obj : doc) : doc :=
  match obj !! "id" with
  | Some v => <["_id" := v]> obj
  | None => obj
  end.

(** [ResultModel.from_] on a [dict] (the JSON branch is not modelled), under
    its decorator [as_result(ValidationError, TypeError, ValueError)]: a
    failed validation comes back as an [Err]. *)
Definition from_ {T} `{ResultModel T} (obj : doc) : Result T :=
  match model_validate (adjusted obj) with
  | Some m => Ok m
  | None => Err (Exn ValidationError "validation error")
  end.

(** [ResultModel.to_(dict, exclude=...)] under its decorator: dumping these
    models does not raise. *)
Definition to_dict {T} `{ResultModel T} (exclude : list string) (m : T)
  : Result doc :=
  Ok (model_dump exclude m).

(** Reading the fields of a document during validation.  Validation is
    modelled on the kinds the application itself writes; pydantic's lax
    conversions from other kinds are not, and a field of another kind is
    treated as invalid. *)
Definition get_str (d : doc) (k : string) : option string :=
  match d !! k with Some (BStr s) => Some s | _ => None end.
Definition get_bool (d : doc) (k : string) : option bool :=
  match d !! k with Some (BBool b) => Some b | _ => None end.
Definition get_double (d : doc) (k : string) : option float :=
  match d !! k with Some (BDouble x) => Some x | _ => None end.
Definition get_date (d : doc) (k : string) : option Z :=
  match d !! k with Some (BDate t) => Some t | _ => None end.
(** A field with a default: absent is fine, present must be of the kind. *)
Definition get_bool_or (default : bool) (d : doc) (k : string) : option bool :=
  match d !! k with
  | None => Some default
  | Some (BBool b) => Some b
  | Some _ => None
  end.
Definition get_str_or (default : string) (d : doc) (k : string) : option string :=
  match d !! k with
  | None => Some default
  | Some (BStr s) => Some s
  | Some _ => None
  end.

Definition without (exclude : list string) (d : doc) : doc :=
  foldr delete d exclude.

(** The key a field is dumped under: [id] is declared with the alias
    [_id] in the models that have one. *)
Definition alias (field : string) : string :=
  if String.eqb field "id" then "_id" else field.

(* ===================================================================== *)
(** * Calendar events ([app/calendar_events.py]) *)
(* ===================================================================== *)

Module CalendarEvent.

(** [id] is declared with a default of [None]; every event that reaches
    the tracker was built with one ([from_api] reads [obj['id']], a stored
    document has its [_id]), so the model keeps a string.  [tracked]
    defaults to [False]. *)
Record t : Type := mk {
  id : string;
  summary : string;
  location : string;
  coordinates : float * float;
  creator : string;
  start : Z;
  end_ : Z;
  link : string;
  tracked : bool
}.

Definition validate (d : doc) : option t :=
  i ← get_str d "_id";
  su ← get_str d "summary";
  lo ← get_str d "location";
  co ← match d !! "coordinates" with
       | Some (BArray [BDouble lat; BDouble lon]) => Some (lat, lon)
       | _ => None
       end;
  cr ← get_str d "creator";
  st ← get_date d "start";
  en ← get_date d "end";
  li ← get_str d "link";
  tr ← get_bool_or false d "tracked";
  Some (mk i su lo co cr st en li tr).

(** [model_dump(by_alias=True)]: the key of [id] is its alias [_id]. *)
Definition dump (e : t) : doc :=
  <["_id" := BStr (id e)]>
  (<["summary" := BStr (summary e)]>
  (<["location" := BStr (location e)]>
  (<["coordinates" := BArray [BDouble (fst (coordinates e));
                              BDouble (snd (coordinates e))]]>
  (<["creator" := BStr (creator e)]>
  (<["start" := BDate (start e)]>
  (<["end" := BDate (end_ e)]>
  (<["link" := BStr (link e)]>
  (<["tracked" := BBool (tracked e)]> ∅)))))))).

(** [update(tracked=b)]: [copy(update=...)] copies without validating, so
    the wrapper always answers [Ok]. *)
Definition update_tracked (e : t) (b : bool) : Result t :=
  Ok (mk (id e) (summary e) (location e) (coordinates e) (creator e)
         (start e) (end_ e) (link e) b).

End CalendarEvent.

#[global] Instance CalendarEvent_model : ResultModel CalendarEvent.t := {
  model_validate := CalendarEvent.validate;
  model_dump exclude e :=
    without (alias <$> exclude) (CalendarEvent.dump e)
}.
#[global] Instance PyBool_CalendarEvent : PyBool CalendarEvent.t := λ _, true.

(** What Python hands to [EventStorage.insert]: the method tells a [dict]
    from another iterable from anything else.  A pydantic model is no
    [dict]; it is iterable, and yields its [(name, value)] pairs. *)
Inductive pyobj : Type :=
  | ObjDict (d : doc)
  | ObjList (items : list Mongo.pyitem)
  | ObjModel (fields : list (string * bson))
  | ObjNone.

(** A calendar event as a Python object: the pairs it iterates as are keyed
    by field name. *)
Definition CalendarEvent_object (e : CalendarEvent.t) : pyobj :=
  ObjModel [("id", BStr (CalendarEvent.id e));
            ("summary", BStr (CalendarEvent.summary e));
            ("location", BStr (CalendarEvent.location e));
            ("coordinates", BArray [BDouble (fst (CalendarEvent.coordinates e));
                                    BDouble (snd (CalendarEvent.coordinates e))]);
            ("creator", BStr (CalendarEvent.creator e));
            ("start", BDate (CalendarEvent.start e));
            ("end", BDate (CalendarEvent.end_ e));
            ("link", BStr (CalendarEvent.link e));
            ("tracked", BBool (CalendarEvent.tracked e))].

(** A pipeline that a function builds and drives for itself lives on a heap
    of its own. *)
Definition on_own_heap {S A} (m : M (Iter.heap S) A) : outcome A := fst (m []).

(** What a list of calls did: the first raise, or the values when none
    raised. *)
Fixpoint all_returned {A} (items : list (outcome A)) : outcome (list A) :=
  match items with
  | [] => Returns []
  | Raises e :: _ => Raises e
  | Returns a :: later =>
      match all_returned later with
      | Returns rest => Returns (a :: rest)
      | Raises e => Raises e
      end
  end.

(* ===================================================================== *)
(** * Event storage ([app/db.py]) *)
(* ===================================================================== *)

Module EventStorage.
Import Mongo.

(** The async generator that [find( **by)] returns: an object with a state
    of its own, kept in a cell. *)
Record FindGen : Type := { by_ : query; cell : nat }.

(** What the methods run against: the collection, and the generators that
    [find] has made.  A generator has not run when it is made ([None]); once
    it is started it holds the documents it has yet to yield, none when it
    has ended. *)
Record session : Type := Session {
  db : collection;
  generators : list (option (list doc))
}.

(** A generator that a method makes and drives for itself dies with the
    call: the method runs with generators of its own. *)
Definition with_own_generators {A} (m : M session A) : M collection A :=
  λ c, let (r, s) := m (Session c []) in (r, db s).

Definition insert (var : pyobj) : M collection (Result bool) :=
  as_async_result [PyMongoError; AttributeError]
    (match var with
     | ObjDict d => insert_one d
     | ObjList items => insert_many items
     | ObjModel fields => insert_many (uncurry ItemPair <$> fields)
     | ObjNone => raise (Exn TypeError "Incompatible `body` for EventStorage")
     end).

Definition delete (_id : bson) : M collection (Result bool) :=
  as_async_result [PyMongoError; AttributeError]
    (delete_one [("_id", Equals _id)]).

(** [fields] is what [**fields] collects: the keywords of the call other
    than [_id] and [self], which the parameters of these names take. *)
Definition update_by_id (_id : bson) (fields : doc) : M collection (Result Z) :=
  as_async_result [PyMongoError; AttributeError]
    (update_one_set_upsert [("_id", Equals _id)] fields).

Definition get_by_id (_id : bson) : M collection (Result (Option doc)) :=
  as_async_result [PyMongoError; AttributeError]
    (found ← find_one [("_id", Equals _id)];
     match found with
     | Some d => mret (Something d)
     | None => mret Nothing
     end).

(** [find] is an async generator function under the synchronous
    [as_result]: calling it builds the generator and runs none of its
    body, so the wrapper always answers [Ok]. *)
Definition find (by_ : query) : M session (Result FindGen) :=
  λ s, (as_result [PyMongoError; AttributeError]
          (Returns {| by_ := by_; cell := length (generators s) |}),
        Session (db s) (generators s ++ [None])).

(** [update_by_id( **kwargs)] on the bound method: a keyword [self] meets
    the receiver, [_id] is bound from the keywords, the other keywords are
    the fields. *)
Definition update_by_id_kwargs (kwargs : doc) : M collection (Result Z) :=
  match kwargs !! "self" with
  | Some _ => raise (Exn TypeError "got multiple values for argument 'self'")
  | None =>
      match kwargs !! "_id" with
      | Some _id => update_by_id _id (base.delete "_id" kwargs)
      | None =>
          raise (Exn TypeError "missing 1 required positional argument: '_id'")
      end
  end.

(** [UpdateOne({"_id": obj["_id"]}, {"$set": obj}, upsert=True)];
    [obj["_id"]] raises [KeyError] when the key is missing. *)
Definition update_for (obj : doc) : outcome UpdateOne :=
  match obj !! "_id" with
  | Some _id => Returns {| update_filter := [("_id", Equals _id)];
                           update_set := obj |}
  | None => Raises (Exn KeyError "_id")
  end.

(** [update_many]: the requests are built by a pipeline over [objs] and
    collected into a list; the collection raises what the first failing
    [obj["_id"]] raises, before anything is sent.  An empty [objs] collects
    to [Nothing], and the method answers an empty [dict] ([None] here). *)
Definition update_many (objs : list doc)
  : M collection (Result (option BulkWriteResult)) :=
  as_async_result [PyMongoError; AttributeError]
    (match on_own_heap (pl ← Pipeline.new objs;
                        Pipeline.collect_as list_ (Pipeline.map update_for pl)) with
     | Returns (Something ops) =>
         requests ← lift (all_returned (elements_of ops));
         reply ← bulk_write requests;
         mret (Some reply)
     | Returns Nothing => mret None
     | Raises e => raise e
     end).

End EventStorage.

#[global] Instance PyBool_doc : PyBool doc := λ d, bool_decide (d ≠ ∅).

(** The generator of [EventStorage.find].  When it is started its body
    drains the cursor and yields the documents that are true ([if doc: yield
    doc]); a raise of the query ends it.  A generator that was started yields
    what it has left, so one that has ended yields nothing. *)
#[global] Instance find_source
  : AsyncSource EventStorage.session EventStorage.FindGen doc := {
  pending g := λ s,
    match EventStorage.generators s !! EventStorage.cell g with
    | Some None =>
        match Mongo.find (EventStorage.by_ g) (EventStorage.db s) with
        | (Returns found, c) =>
            (Returns (List.filter py_bool found),
             EventStorage.Session c
               (<[EventStorage.cell g := Some (List.filter py_bool found)]>
                  (EventStorage.generators s)))
        | (Raises e, c) =>
            (Raises e,
             EventStorage.Session c
               (<[EventStorage.cell g := Some []]> (EventStorage.generators s)))
        end
    | Some (Some rest) => (Returns rest, s)
    | None => (Returns [], s)
    end;
  leave g rest := λ s,
    EventStorage.Session (EventStorage.db s)
      (<[EventStorage.cell g := Some rest]> (EventStorage.generators s))
}.

(* ===================================================================== *)
(** * Naive datetimes *)
(* ===================================================================== *)

(** A [datetime] is its number of microseconds since 1970-01-01T00:00:00;
    the class ranges over the years 1 to 9999. *)
Module Datetime.
Definition day : Z := 86400000000.
Definition min : Z := -62135596800000000.
Definition max : Z := 253402300799999999.

(** [datetime.combine(dt, time.max)]: the date of [dt], at
    23:59:59.999999. *)
Definition combine_time_max (dt : Z) : Z := dt / day * day + (day - 1).

(** [dt + relativedelta(days=n)]; leaving the range of the class is an
    [OverflowError]. *)
Definition plus_days (dt n : Z) : outcome Z :=
  let r := dt + n * day in
  if (min <=? r) && (r <=? max) then Returns r
  else Raises (Exn OverflowError "date value out of range").
End Datetime.

(* ===================================================================== *)
(** * The event reconciler ([CalendarTracker]) *)
(* ===================================================================== *)

Module CalendarTracker.
Import Mongo.

Definition create_event (event : CalendarEvent.t) : M collection (Result bool) :=
  EventStorage.insert (CalendarEvent_object event).

(** [update_by_id( **event.to_(dict).ok())]. *)
Definition create_or_update_event (event : CalendarEvent.t)
  : M collection (Result Z) :=
  match Result.ok (to_dict [] event) with
  | Some kwargs => EventStorage.update_by_id_kwargs kwargs
  | None => raise (Exn TypeError "argument after ** must be a mapping")
  end.

Definition delete_event (event_id : string) : M collection (Result bool) :=
  EventStorage.delete (BStr event_id).

Definition get_event (event_id : string)
  : M collection (Result (Option CalendarEvent.t)) :=
  found ← EventStorage.get_by_id (BStr event_id);
  match found with
  | Ok (Something event_raw) =>
      match from_ event_raw with
      | Ok event => mret (Ok (Something event))
      | Err e => mret (Err e)
      end
  | Ok Nothing => mret (Ok Nothing)
  | Err e => mret (Err e)
  end.


Definition sync_event (updated : CalendarEvent.t)
  : M collection (Result CalendarEvent.t) :=
  found ← get_event (CalendarEvent.id updated);
  match found with
  | Ok (Something event) =>
      match Result.ok (CalendarEvent.update_tracked
                         updated (CalendarEvent.tracked event)) with
      | Some ready =>
          saved ← create_or_update_event ready;
          match saved with
          | Ok _ => mret (Ok ready)
          | Err e => mret (Err e)
          end
      | None => raise (Exn AttributeError "'NoneType' object has no attribute 'to_'")
      end
  | Ok Nothing =>
      saved ← create_event updated;
      match saved with
      | Ok _ => mret (Ok updated)
      | Err e => mret (Err e)
      end
  | Err e => mret (Err e)
  end.

Definition parse_event (document : doc) : option CalendarEvent.t :=
  Result.ok (from_ document).

Definition list_all_events (tracked : bool)
  : M EventStorage.session
      (Result (AsyncPipeline.t EventStorage.FindGen doc
                               (option CalendarEvent.t))) :=
  found ← EventStorage.find [("tracked", Equals (BBool tracked))];
  mret (Result.then_ found (λ gen,
          Ok (AsyncPipeline.filter_map parse_event (AsyncPipeline.new gen)))).

(** [utcnow] is what [datetime.utcnow()] reads off the clock. *)
Definition list_events_scheduled_in (utcnow : Z) (days : Z) (tracked : bool)
  : M EventStorage.session
      (Result (AsyncPipeline.t EventStorage.FindGen doc
                               (option CalendarEvent.t))) :=
  match call_as_result [Exception]
          (Returns (Datetime.combine_time_max utcnow)) with
  | Returns (Ok today) =>
      upper ← lift (Datetime.plus_days today days);
      found ← EventStorage.find
                [("start", Between (BDate today) (BDate upper));
                 ("tracked", Equals (BBool tracked))];
      match found with
      | Ok gen =>
          mret (Ok (AsyncPipeline.filter_map parse_event
                                             (AsyncPipeline.new gen)))
      | Err e => mret (Err e)
      end
  | Returns (Err e) => mret (Err e)
  | Raises e => raise e
  end.

End CalendarTracker.

(* ===================================================================== *)
(** * Hazards ([app/disaster_events.py]) *)
(* ===================================================================== *)

Module DisasterCategory.
Record t : Type := mk {
  id : string;
  title : string;
  description : string
}.

Definition validate (d : doc) : option t :=
  i ← get_str d "_id";
  ti ← get_str d "title";
  de ← get_str d "description";
  Some (mk i ti de).

Definition dump (c : t) : doc :=
  <["_id" := BStr (id c)]>
  (<["title" := BStr (title c)]>
  (<["description" := BStr (description c)]> ∅)).
End DisasterCategory.

Module DisasterEvent.

(** [categories] is declared [tuple[DisasterCategory]]: for pydantic this
    is the tuple with exactly one position (the tuple of any length is
    written [tuple[DisasterCategory, ...]]). *)
Record t : Type := mk {
  id : string;
  name : string;
  description : string;
  link : string;
  categories : list DisasterCategory.t;
  active : bool;
  lat : float;
  lon : float;
  most_recent_date : Z;
  magnitude : string
}.

Definition validate (d : doc) : option t :=
  i ← get_str d "_id";
  na ← get_str d "name";
  de ← get_str_or "" d "description";
  li ← get_str d "link";
  ca ← match d !! "categories" with
       | Some (BArray [BDocument c]) => DisasterCategory.validate c
       | _ => None
       end;
  ac ← get_bool d "active";
  la ← get_double d "lat";
  lo ← get_double d "lon";
  da ← get_date d "most_recent_date";
  ma ← get_str d "magnitude";
  Some (mk i na de li [ca] ac la lo da ma).

Definition dump (e : t) : doc :=
  <["_id" := BStr (id e)]>
  (<["name" := BStr (name e)]>
  (<["description" := BStr (description e)]>
  (<["link" := BStr (link e)]>
  (<["categories" := BArray ((λ c, BDocument (DisasterCategory.dump c))
                               <$> categories e)]>
  (<["active" := BBool (active e)]>
  (<["lat" := BDouble (lat e)]>
  (<["lon" := BDouble (lon e)]>
  (<["most_recent_date" := BDate (most_recent_date e)]>
  (<["magnitude" := BStr (magnitude e)]> ∅))))))))).

End DisasterEvent.

#[global] Instance DisasterEvent_model : ResultModel DisasterEvent.t := {
  model_validate := DisasterEvent.validate;
  model_dump exclude e :=
    without (alias <$> exclude) (DisasterEvent.dump e)
}.
#[global] Instance PyBool_DisasterEvent : PyBool DisasterEvent.t := λ _, true.

Module DisasterAlert.

(** [disasters] is declared [tuple[DisasterEvent]], the tuple with exactly
    one position; [dangerous] defaults to [True]. *)
Record t : Type := mk {
  recipient : string;
  event : CalendarEvent.t;
  disasters : list DisasterEvent.t;
  dangerous : bool
}.

(** [DisasterAlert(recipient=..., event=..., disasters=...)]: creating the
    model validates the arguments against the declared types. *)
Definition new (recipient : string) (event : CalendarEvent.t)
           (disasters : list DisasterEvent.t) : outcome t :=
  match disasters with
  | [_] => Returns (mk recipient event disasters true)
  | _ => Raises (Exn ValidationError "disasters: wrong tuple length")
  end.

End DisasterAlert.

(** [utils.calc_destination_point_by (point, d, bearing)] is floating-point
    trigonometry on the sphere; what a call does is taken as given, the
    raise included: [math.sin] and [math.cos] raise [ValueError] on an
    infinite latitude and [math.asin] outside its domain, and pydantic lets
    an infinite coordinate into a model. *)
Class Geodesy : Type :=
  calc_destination_point_by
    : float * float → float → float → outcome (float * float).

Module DisasterTracker.
Import Mongo.

Definition _DISASTER_DISTANCE_THRESHOLD_KM : float := 500%float.

Definition parse_disaster (obj : doc) : option DisasterEvent.t :=
  Result.ok (from_ obj).

Section tracker.
Context `{Geodesy}.

(** The two corners, north-east first, and the filter built on them. *)
Definition bounding_box (point : float * float) : outcome query :=
  match calc_destination_point_by
          point _DISASTER_DISTANCE_THRESHOLD_KM 45%float with
  | Raises e => Raises e
  | Returns northeast =>
      match calc_destination_point_by
              point _DISASTER_DISTANCE_THRESHOLD_KM 225%float with
      | Raises e => Raises e
      | Returns southwest =>
          let '(max_lat, max_lon) := northeast in
          let '(min_lat, min_lon) := southwest in
          Returns [("lat", Between (BDouble min_lat) (BDouble max_lat));
                   ("lon", Between (BDouble min_lon) (BDouble max_lon));
                   ("active", Equals (BBool true))]
      end
  end.

(** A raise of the corners leaves the method before the storage is asked;
    the generator of [find] is the method's own. *)
Definition scan_active_disasters (point : float * float)
  : M collection (Option (Collection (option DisasterEvent.t))) :=
  match bounding_box point with
  | Raises e => raise e
  | Returns box =>
      EventStorage.with_own_generators
        (found ← EventStorage.find box;
         match found with
         | Ok disaster_gen =>
             AsyncPipeline.collect_as tuple_
               (AsyncPipeline.filter_map parse_disaster
                                         (AsyncPipeline.new disaster_gen))
         | Err _ => mret Nothing
         end)
  end.

(** The items of the tuple are the models that [filter_map] let
    through, none of them [None]. *)
Definition models {T} (c : Collection (option T)) : list T :=
  omap id (elements_of c).

Definition check_calendar_event (event : CalendarEvent.t)
  : M collection (Option DisasterAlert.t) :=
  found ← scan_active_disasters (CalendarEvent.coordinates event);
  match found with
  | Something disasters =>
      alert ← lift (DisasterAlert.new (CalendarEvent.creator event) event
                                      (models disasters));
      mret (Something alert)
  | Nothing => mret Nothing
  end.
End tracker.

(** [save_many]: the dumps of the hazards, collected into a list, go to
    [update_many]; with no hazard the method answers [Ok] of an empty
    [dict]. *)
Definition save_many (disasters : list DisasterEvent.t)
  : M collection (Result (option BulkWriteResult)) :=
  match on_own_heap
          (pl ← Pipeline.new disasters;
           Pipeline.collect_as list_
             (Pipeline.filter_map (λ d, Result.ok (to_dict [] d)) pl)) with
  | Returns (Something disaster_list) =>
      EventStorage.update_many (models disaster_list)
  | Returns Nothing => mret (Ok None)
  | Raises e => raise e
  end.

End DisasterTracker.

(* ===================================================================== *)
(** * The key-value store ([aioredis]) and [QuickStorage] ([app/db.py]) *)
(* ===================================================================== *)

Module Redis.

(** What a key holds.  The client decodes responses, so values are
    strings. *)
Inductive entry : Type :=
  | RString (value : string)
  | RHash (mapping : gmap string string).

(** The keys, and a script of the round trips to come ([true]: the
    command fails with a [RedisError]). *)
Record server : Type := Server {
  keys : gmap string entry;
  outages : list bool
}.

Definition command {A} (op : gmap string entry → outcome A * gmap string entry)
  : M server A :=
  λ s, match outages s with
       | true :: later =>
           (Raises (Exn RedisError "connection error"), Server (keys s) later)
       | false :: later =>
           let (r, ks) := op (keys s) in (r, Server ks later)
       | [] =>
           let (r, ks) := op (keys s) in (r, Server ks [])
       end.

Definition wrong_type : exn :=
  Exn RedisError "WRONGTYPE Operation against a key holding the wrong kind of value".

(** [SET key value] *)
Definition set (key value : string) : M server bool :=
  command (λ ks, (Returns true, <[key := RString value]> ks)).

(** [GET key]: [None] for a missing key. *)
Definition get (key : string) : M server (option string) :=
  command (λ ks, match ks !! key with
                 | None => (Returns None, ks)
                 | Some (RString v) => (Returns (Some v), ks)
                 | Some (RHash _) => (Raises wrong_type, ks)
                 end).

(** [HGETALL key]: a [dict], empty for a missing key. *)
Definition hgetall (key : string) : M server (gmap string string) :=
  command (λ ks, match ks !! key with
                 | None => (Returns ∅, ks)
                 | Some (RHash m) => (Returns m, ks)
                 | Some (RString _) => (Raises wrong_type, ks)
                 end).

(** [DEL key]: how many keys went. *)
Definition delete (key : string) : M server Z :=
  command (λ ks, (Returns (if ks !! key is Some _ then 1 else 0), base.delete key ks)).

(** What [hset] may be handed as its [mapping]: a [dict], or an object
    that is none, such as a [Result] that was not unwrapped. *)
Inductive pymapping : Type :=
  | MappingDict (d : doc)
  | MappingResult (r : Result doc).

(** The fields of a mapping as the client encodes them; only strings are
    modelled, another kind is refused as invalid input. *)
Definition as_str (v : bson) : option string :=
  match v with BStr s => Some s | _ => None end.

Definition encoded (d : doc) : option (gmap string string) :=
  if forallb (λ kv, bool_decide (is_Some (as_str (snd kv)))) (map_to_list d)
  then Some (omap as_str d)
  else None.

(** The client's [hset(name, mapping=mapping)]: it refuses an empty
    mapping, reads the pairs with [mapping.items()], then sends
    [HSET name field value ...], which answers how many fields are new. *)
Definition hset (name : string) (mapping : pymapping) : M server Z :=
  match mapping with
  | MappingDict d =>
      if negb (py_bool d)
      then raise (Exn DataError "'hset' with no key value pairs")
      else match encoded d with
           | None => raise (Exn DataError "Invalid input")
           | Some fields =>
               command (λ ks,
                 match ks !! name with
                 | Some (RString _) => (Raises wrong_type, ks)
                 | Some (RHash old) =>
                     (Returns (Z.of_nat (size (fields ∖ old))),
                      <[name := RHash (fields ∪ old)]> ks)
                 | None =>
                     (Returns (Z.of_nat (size fields)),
                      <[name := RHash fields]> ks)
                 end)
           end
  | MappingResult _ =>
      raise (Exn AttributeError "'Ok' object has no attribute 'items'")
  end.

(** [EXPIRE key time]: answers whether the key exists; a time that is not
    positive deletes the key.  Time does not pass in the model, so a
    deadline ahead is not kept. *)
Definition expire (key : string) (time : Z) : M server bool :=
  command (λ ks, (Returns (bool_decide (is_Some (ks !! key))),
                  if time <=? 0 then base.delete key ks else ks)).

End Redis.

Module QuickStorage.
Import Redis.

Record t : Type := mk { _prefix : string }.

(** Each method is wrapped, from the inside out, by [prefix] (the key is
    prefixed), [_inject_client] (a connection is opened) and
    [as_async_result(RedisError)]. *)
Definition set (self : t) (key value : string) : M server (Result bool) :=
  as_async_result [RedisError] (Redis.set (_prefix self +:+ key) value).

Definition set_map (self : t) (key : string) (mapping : pymapping)
  : M server (Result Z) :=
  as_async_result [RedisError] (hset (_prefix self +:+ key) mapping).

Definition get (self : t) (key : string) : M server (Result (Option string)) :=
  as_async_result [RedisError]
    (found ← Redis.get (_prefix self +:+ key);
     match found with
     | None => mret Nothing
     | Some val => mret (Something val)
     end).

(** [hgetall] answers a [dict] and never [None]: the [case None] of the
    source cannot fire. *)
Definition get_map (self : t) (key : string)
  : M server (Result (Option (gmap string string))) :=
  as_async_result [RedisError]
    (val ← hgetall (_prefix self +:+ key);
     mret (Something val)).

Definition delete (self : t) (key : string) : M server (Result Z) :=
  as_async_result [RedisError] (Redis.delete (_prefix self +:+ key)).

Definition set_expiry (self : t) (key : string) (time : Z)
  : M server (Result bool) :=
  as_async_result [RedisError] (expire (_prefix self +:+ key) time).

End QuickStorage.

(* ===================================================================== *)
(** * The channel registry ([app/watcher.py]) *)
(* ===================================================================== *)

Module ChannelInfo.
Record t : Type := mk {
  id : string;
  user_email : string;
  calendar_id : string
}.

(** The three fields are required, and none has an alias. *)
Definition validate (d : doc) : option t :=
  i ← get_str d "id";
  u ← get_str d "user_email";
  c ← get_str d "calendar_id";
  Some (mk i u c).

Definition dump (c : t) : doc :=
  <["id" := BStr (id c)]>
  (<["user_email" := BStr (user_email c)]>
  (<["calendar_id" := BStr (calendar_id c)]> ∅)).
End ChannelInfo.

#[global] Instance ChannelInfo_model : ResultModel ChannelInfo.t := {
  model_validate := ChannelInfo.validate;
  model_dump exclude c := without exclude (ChannelInfo.dump c)
}.

Module EventChannels.
Import Redis.

Definition _storage : QuickStorage.t := QuickStorage.mk "PREFERENCES:".

(** [mapping=channel_info.to_(dict, exclude={"id"})]: the [Result] that
    [to_] answers is handed over as it is. *)
Definition create (channel_info : ChannelInfo.t) : M server (Result Z) :=
  QuickStorage.set_map _storage (ChannelInfo.id channel_info)
                       (MappingResult (to_dict ["id"] channel_info)).

(** What [get] and [pop] put inside their [Ok]: the record as [from_]
    answers it, or an [Option]. *)
Inductive found : Type :=
  | Bare (info : ChannelInfo.t)
  | Wrapped (o : Option ChannelInfo.t).

(** The hash as the [dict] of strings that [from_] is given. *)
Definition as_dict (obj : gmap string string) : doc := BStr <$> obj.

Definition get (channel_id : string) : M server (Result found) :=
  answer ← QuickStorage.get_map _storage channel_id;
  match answer with
  | Ok obj_result =>
      match obj_result with
      | Something obj =>
          mret (Result.then_ (from_ (as_dict obj)) (λ info, Ok (Bare info)))
      | Nothing => mret (Ok (Wrapped Nothing))
      end
  | Err e => mret (Err e)
  end.

Definition delete (channel_id : string) : M server (Result Z) :=
  QuickStorage.delete _storage channel_id.

(** [pop]: the entry is deleted before the record is read, and what the
    [delete] answers is dropped. *)
Definition pop (channel_id : string) : M server (Result found) :=
  answer ← QuickStorage.get_map _storage channel_id;
  match answer with
  | Ok obj_result =>
      match obj_result with
      | Something obj =>
          _ ← QuickStorage.delete _storage channel_id;
          mret (Result.then_ (from_ (as_dict obj)) (λ info, Ok (Bare info)))
      | Nothing => mret (Ok (Wrapped Nothing))
      end
  | Err e => mret (Err e)
  end.

End EventChannels.

(** [model_validate_json]: pydantic's reading of a JSON text into a model,
    taken as given ([None] when it raises [ValidationError]). *)
Class JsonModel (T : Type) : Type := model_validate_json : string → option T.

(** [ResultModel.from_] on a [str], under its decorator. *)
Definition from_json {T} `{JsonModel T} (obj : string) : Result T :=
  match model_validate_json obj with
  | Some m => Ok m
  | None => Err (Exn ValidationError "validation error")
  end.

Module WatchedCalendars.
Import Redis.

Definition _storage : QuickStorage.t := QuickStorage.mk "CALENDAR:".

Definition create (calendar_id channel_id : string) : M server (Result bool) :=
  QuickStorage.set _storage calendar_id channel_id.

Definition delete (calendar_id : string) : M server (Result Z) :=
  QuickStorage.delete _storage calendar_id.

(** What [get] puts inside its [Ok]: the record [from_] read out of the
    stored text, or the [Option] of the storage. *)
Inductive found : Type :=
  | Bare (info : ChannelInfo.t)
  | Wrapped (o : Option string).

(** [get]: a stored value goes through [ChannelInfo.from_]. *)
Definition get `{JsonModel ChannelInfo.t} (calendar_id : string)
  : M server (Result found) :=
  answer ← QuickStorage.get _storage calendar_id;
  match answer with
  | Ok (Something obj) =>
      mret (Result.then_ (from_json obj) (λ info, Ok (Bare info)))
  | Ok Nothing => mret (Ok (Wrapped Nothing))
  | Err e => mret (Err e)
  end.

End WatchedCalendars.

(* ===================================================================== *)
(** * User preferences ([app/preferences.py]) *)
(* ===================================================================== *)

Module Preferences.
Record t : Type := mk {
  calendars : list string;
  disaster_categories : list string
}.

(** [Preferences()]: the defaults of the two fields. *)
Definition default : t := mk ["primary"] ["all"].
End Preferences.

(** [model_dump_json], taken as given like [model_validate_json]. *)
Class JsonDump (T : Type) : Type := model_dump_json : T → string.

(** [ResultModel.to_(str)] under its decorator. *)
Definition to_json {T} `{JsonDump T} (m : T) : Result string :=
  Ok (model_dump_json m).

Module UserPreferences.
Import Redis.

Definition _storage : QuickStorage.t := QuickStorage.mk "PREFERENCES:".

Section codec.
Context `{JsonModel Preferences.t} `{JsonDump Preferences.t}.

Definition create (email : string) (pref : Preferences.t)
  : M server (Result bool) :=
  Result.then_async (to_json pref)
                    (λ dumped, QuickStorage.set _storage email dumped).

Definition get (email : string) : M server (Result Preferences.t) :=
  answer ← QuickStorage.get _storage email;
  match answer with
  | Ok (Something pref) => mret (from_json pref)
  | Ok Nothing => mret (Ok Preferences.default)
  | Err e => mret (Err e)
  end.

Definition pop (email : string) : M server (Result Preferences.t) :=
  answer ← QuickStorage.get _storage email;
  match answer with
  | Ok (Something pref) =>
      _ ← QuickStorage.delete _storage email;
      mret (from_json pref)
  | Ok Nothing => mret (Ok Preferences.default)
  | Err e => mret (Err e)
  end.
End codec.

End UserPreferences.

(* ===================================================================== *)
(** * Sessions ([app/session.py]) *)
(* ===================================================================== *)

Module ClientSession.
Import Redis.

Definition SESSION_EXP : Z := 3600 * 24 * 182.

Definition _storage : QuickStorage.t := QuickStorage.mk "".

(** [create]; [session_id] is what [str(uuid.uuid4())] produced. *)
Definition create (session_id email : string) : M server (Result string) :=
  saved ← QuickStorage.set _storage session_id email;
  match saved with
  | Ok true =>
      _ ← QuickStorage.set_expiry _storage session_id SESSION_EXP;
      mret (Ok session_id)
  | Ok false => mret (Err (Exn IOError "User session hasn't been saved"))
  | Err e => mret (Err e)
  end.

Definition get (session_id : string) : M server (Result (Option string)) :=
  answer ← QuickStorage.get _storage session_id;
  match answer with
  | Ok (Something user_email) =>
      _ ← QuickStorage.set_expiry _storage session_id SESSION_EXP;
      mret (Ok (Something user_email))
  | Ok Nothing => mret (Ok Nothing)
  | Err e => mret (Err e)
  end.

Definition delete (session_id : string) : M server (Result Z) :=
  QuickStorage.delete _storage session_id.

End ClientSession.

(* ===================================================================== *)
(** * Vocabulary of the properties *)
(* ===================================================================== *)

(** What the first clause, [except exceptions or Exception], catches. *)
Definition declared (exceptions : list exn_class) (e : exn) : Prop :=
  (∃ c, c ∈ exceptions ∧ isinstance e c = true)
  ∨ (exceptions = [] ∧ isinstance e Exception = true).


(** The filter [{"_id": k}]. *)
Definition by_id (k : string) : Mongo.query := [("_id", Mongo.Equals (BStr k))].

(** The document [find_one] answers. *)
Definition first_match (q : Mongo.query) (ds : list doc) : option doc :=
  head (filter (λ d, Mongo.matches q d = true) ds).

(** [updated], with the [tracked] of [existing]. *)
Definition merged (updated existing : CalendarEvent.t) : CalendarEvent.t :=
  CalendarEvent.mk
    (CalendarEvent.id updated) (CalendarEvent.summary updated)
    (CalendarEvent.location updated) (CalendarEvent.coordinates updated)
    (CalendarEvent.creator updated) (CalendarEvent.start updated)
    (CalendarEvent.end_ updated) (CalendarEvent.link updated)
    (CalendarEvent.tracked existing).

(** An event as the store keeps it: [start] and [end] at the precision of
    the millisecond. *)
Definition as_stored (e : CalendarEvent.t) : CalendarEvent.t :=
  CalendarEvent.mk
    (CalendarEvent.id e) (CalendarEvent.summary e)
    (CalendarEvent.location e) (CalendarEvent.coordinates e)
    (CalendarEvent.creator e) (Mongo.millis (CalendarEvent.start e))
    (Mongo.millis (CalendarEvent.end_ e)) (CalendarEvent.link e)
    (CalendarEvent.tracked e).

(** The fields that [update_by_id] sets for an event. *)
Definition set_fields (e : CalendarEvent.t) : doc :=
  delete "_id" (CalendarEvent.dump e).

(** The hazards the bounding-box query finds: the documents of the
    collection that match the filter, read as hazards. *)
Definition hazards_found `{Geodesy} (point : float * float) (ds : list doc)
  : list DisasterEvent.t :=
  match DisasterTracker.bounding_box point with
  | Returns box =>
      omap DisasterTracker.parse_disaster
           (List.filter py_bool
              (filter (λ d, Mongo.selects box d = true) ds))
  | Raises _ => []
  end.

(** The hash that a [create] with an unwrapped dump would write. *)
Definition intended_hash (info : ChannelInfo.t) : gmap string string :=
  {[ "user_email" := ChannelInfo.user_email info;
     "calendar_id" := ChannelInfo.calendar_id info ]}.

(** The filter of the generator at the bottom of a pipeline of events. *)
Definition filter_of {T} (p : AsyncPipeline.t EventStorage.FindGen doc T)
  : Mongo.query :=
  EventStorage.by_ (AsyncPipeline.source (AsyncPipeline._generator p)).

(** The base an upsert writes over: the stored document of the id, or the
    document of the filter alone. *)
Definition upsert_base (k : string) (ds : list doc) : doc :=
  match first_match (by_id k) ds with
  | Some d => d
  | None => {["_id" := BStr k]}
  end.

(** No two documents of a collection share an [_id]. *)
Definition unique_ids (ds : list doc) : Prop :=
  NoDup ((λ d : doc, d !! "_id") <$> ds).

(** What one request of a bulk write leaves in the collection. *)
Definition upserted (r : Mongo.UpdateOne) (ds : list doc) : list doc :=
  match Mongo.replace_first (Mongo.sent_query (Mongo.update_filter r))
                            (λ d, Mongo.sent (Mongo.update_set r) ∪ d) ds with
  | Some ds' => ds'
  | None =>
      ds ++ [Mongo.with_id ds
               (Mongo.sent (Mongo.update_set r)
                ∪ Mongo.seed (Mongo.sent_query (Mongo.update_filter r)))]
  end.

(** The request [update_many] builds for the dump of a hazard. *)
Definition request_for (h : DisasterEvent.t) : Mongo.UpdateOne :=
  {| Mongo.update_filter := by_id (DisasterEvent.id h);
     Mongo.update_set := DisasterEvent.dump h |}.

(** The counts a bulk write starts from. *)
Definition no_counts : Mongo.BulkWriteResult :=
  {| Mongo.nMatched := 0; Mongo.nUpserted := 0 |}.

(** The hash stored under a key, empty when the key is missing. *)
Definition hash_at (k : string) (ks : gmap string Redis.entry)
  : gmap string string :=
  match ks !! k with Some (Redis.RHash m) => m | _ => ∅ end.

(* ===================================================================== *)
(** * Samples *)
(* ===================================================================== *)

(** A stored event that was marked as tracked, and the same event as the
    calendar sends it after it was renamed. *)
Definition stored_trip : CalendarEvent.t :=
  CalendarEvent.mk "evt-1" "Trip" "Lisbon" (38.75%float, (-9.125)%float)
                   "ana@example.org" 1717200000000000 1717286400000000
                   "https://calendar.example/evt-1" true.

Definition renamed_trip : CalendarEvent.t :=
  CalendarEvent.mk "evt-1" "Trip (moved)" "Lisbon" (38.75%float, (-9.125)%float)
                   "ana@example.org" 1717200000000000 1717286400000000
                   "https://calendar.example/evt-1" false.

(** The renamed event with a [start] given to the microsecond. *)
Definition precise_trip : CalendarEvent.t :=
  CalendarEvent.mk "evt-1" "Trip (moved)" "Lisbon" (38.75%float, (-9.125)%float)
                   "ana@example.org" 1717200000123456 1717286400000000
                   "https://calendar.example/evt-1" false.

Definition sample_events : Mongo.collection :=
  Mongo.Store [CalendarEvent.dump stored_trip] [].

(** An event the collection has not seen, as [from_api] builds it
    ([tracked] is [False]). *)
Definition new_meeting : CalendarEvent.t :=
  CalendarEvent.mk "evt-2" "Meeting" "Porto" (41.125%float, (-8.625)%float)
                   "ana@example.org" 1717300000000000 1717303600000000
                   "https://calendar.example/evt-2" false.

(** A stand-in for the trigonometry, for the samples below: the corners
    five degrees away from the point on both axes, and a [ValueError] on an
    infinite latitude. *)
Definition sample_geodesy : Geodesy :=
  λ point _ bearing,
    if PrimFloat.is_infinity (fst point)
    then Raises (Exn ValueError "math domain error")
    else if PrimFloat.ltb bearing 100%float
    then Returns (PrimFloat.add (fst point) 5%float,
                  PrimFloat.add (snd point) 5%float)
    else Returns (PrimFloat.sub (fst point) 5%float,
                  PrimFloat.sub (snd point) 5%float).

Definition wildfires : DisasterCategory.t :=
  DisasterCategory.mk "wildfires" "Wildfires" "Wildfires".

Definition fire_north : DisasterEvent.t :=
  DisasterEvent.mk "EONET_1" "Wildfire north of Lisbon" "" "https://eonet.example/1"
                   [wildfires] true 39.5%float (-8.5)%float
                   1717100000000000 "".

Definition fire_south : DisasterEvent.t :=
  DisasterEvent.mk "EONET_2" "Wildfire south of Lisbon" "" "https://eonet.example/2"
                   [wildfires] true 37.25%float (-10)%float
                   1717100000000000 "120 acres".

Definition fire_far : DisasterEvent.t :=
  DisasterEvent.mk "EONET_3" "Wildfire far away" "" "https://eonet.example/3"
                   [wildfires] true 20%float (-70)%float
                   1717100000000000 "".

(** An event whose latitude is infinite, a value the model of the event
    accepts for a [float]. *)
Definition unbounded_trip : CalendarEvent.t :=
  CalendarEvent.mk "evt-5" "Trip" "Nowhere" (PrimFloat.infinity, 0%float)
                   "ana@example.org" 1717200000000000 1717286400000000
                   "https://calendar.example/evt-5" false.

Definition one_hazard_near : Mongo.collection :=
  Mongo.Store [DisasterEvent.dump fire_far; DisasterEvent.dump fire_north] [].

Definition two_hazards_near : Mongo.collection :=
  Mongo.Store [DisasterEvent.dump fire_north; DisasterEvent.dump fire_far;
               DisasterEvent.dump fire_south] [].

(** A sample record, on an empty server and on a server that holds the hash
    [create] was meant to write. *)
Definition sample_channel : ChannelInfo.t :=
  ChannelInfo.mk "channel-1" "ana@example.org" "primary".

Definition server_with_channel : Redis.server :=
  Redis.Server {[ "PREFERENCES:channel-1" := Redis.RHash (intended_hash sample_channel) ]} [].

(** A clock reading of 2024-06-01T10:00:00, and an untracked event that
    starts at 15:00 on the same day. *)
Definition ten_o_clock : Z := 1717236000000000.

Definition afternoon_call : CalendarEvent.t :=
  CalendarEvent.mk "evt-3" "Call" "Lisbon" (38.75%float, (-9.125)%float)
                   "ana@example.org" 1717254000000000 1717257600000000
                   "https://calendar.example/evt-3" false.

(** An untracked event that starts at 23:59:59.999 of that day. *)
Definition midnight_call : CalendarEvent.t :=
  CalendarEvent.mk "evt-4" "Late call" "Lisbon" (38.75%float, (-9.125)%float)
                   "ana@example.org" 1717286399999000 1717290000000000
                   "https://calendar.example/evt-4" false.

(* ===================================================================== *)
(** * Properties: lifting raises into [Result] *)
(* ===================================================================== *)

Lemma except_matches_spec (classes : list exn_class) (e : exn) :
  except_matches classes e = true ↔ ∃ c, c ∈ classes ∧ isinstance e c = true.
Proof.
  unfold except_matches. rewrite existsb_exists.
  split; intros (c & Hc & He); exists c; split; auto;
    by apply list_elem_of_In.
Qed.

Lemma or_Exception_spec (exceptions : list exn_class) (e : exn) :
  except_matches (or_Exception exceptions) e = true ↔ declared exceptions e.
Proof.
  rewrite except_matches_spec. unfold declared.
  destruct exceptions as [|c0 cs]; simpl.
  - split.
    + intros (c & Hc & He). apply list_elem_of_singleton in Hc as ->. by right.
    + intros [(c & Hc & _) | [_ He]].
      * by apply not_elem_of_nil in Hc.
      * exists Exception. split; [apply list_elem_of_singleton|]; done.
  - split.
    + intros H. by left.
    + intros [H | [H _]]; [done | discriminate].
Qed.

Lemma as_result_Returns {R} exceptions (v : R) :
  as_result exceptions (Returns v) = Returns (Ok v).
Proof. reflexivity. Qed.

(** C6, as the code has it.  The wrapper of [as_result] answers [Err e]
    exactly when the call raises [e] and [e] is an instance of a declared
    class, or no class was declared and [e] is an [Exception], or [e] is an
    [UnwrapError]; every other raise goes on.  The wrapper of
    [as_async_result] does the same without the [UnwrapError] clause. *)
Theorem as_result_boundary {St R : Type} (exceptions : list exn_class) (e : exn) :
  (∀ call : outcome R,
     (as_result exceptions call = Returns (Err e) ↔
        call = Raises e ∧
        (declared exceptions e ∨ isinstance e UnwrapError = true))
     ∧ (as_result exceptions call = Raises e ↔
          call = Raises e ∧
          ¬ (declared exceptions e ∨ isinstance e UnwrapError = true)))
  ∧ (∀ (func : M St R) (s s' : St),
       (as_async_result exceptions func s = (Returns (Err e), s') ↔
          func s = (Raises e, s') ∧ declared exceptions e)
       ∧ (as_async_result exceptions func s = (Raises e, s') ↔
            func s = (Raises e, s') ∧ ¬ declared exceptions e)).
Proof.
  assert (Hu : ∀ x, except_matches [UnwrapError] x = isinstance x UnwrapError).
  { intros x. unfold except_matches. simpl. by rewrite orb_false_r. }
  split.
  - intros [v | x]; unfold as_result.
    + split; (split; [discriminate | intros [? _]; discriminate]).
    + rewrite Hu.
      destruct (except_matches (or_Exception exceptions) x) eqn:Hd.
      * apply or_Exception_spec in Hd.
        split; split.
        -- intros [= ->]. auto.
        -- by intros [[= ->] _].
        -- discriminate.
        -- intros [[= ->] Hn]. destruct Hn. by left.
      * assert (Hnd : ¬ declared exceptions x).
        { intros Hx. apply or_Exception_spec in Hx. congruence. }
        destruct (isinstance x UnwrapError) eqn:Hw; split; split.
        -- intros [= ->]. auto.
        -- by intros [[= ->] _].
        -- discriminate.
        -- intros [[= ->] Hn]. destruct Hn. by right.
        -- discriminate.
        -- intros [[= ->] [Hx | Hx]]; [done | congruence].
        -- intros [= ->]. split; [done |]. intros [Hx | Hx]; [done | congruence].
        -- by intros [[= ->] _].
  - intros func s s'. unfold as_async_result.
    destruct (func s) as [[v | x] s0]; simpl.
    + split; (split; [discriminate | intros [? _]; discriminate]).
    + destruct (except_matches (or_Exception exceptions) x) eqn:Hd.
      * apply or_Exception_spec in Hd.
        split; split.
        -- intros [= -> ->]. auto.
        -- by intros [[= -> ->] _].
        -- discriminate.
        -- intros [[= -> ->] Hn]. done.
      * assert (Hnd : ¬ declared exceptions x).
        { intros Hx. apply or_Exception_spec in Hx. congruence. }
        split; split.
        -- discriminate.
        -- intros [[= -> ->] Hx]. done.
        -- intros [= -> ->]. auto.
        -- by intros [[= -> ->] _].
Qed.

(** [from_] and [to_] are their bodies under [as_result]: validation raises
    [ValidationError] only, which [from_] declares, and a dump returns. *)
Lemma from_under_as_result {T} `{ResultModel T} (obj : doc) :
  as_result [ValidationError; TypeError; ValueError]
            (validated (model_validate (adjusted obj)))
  = Returns (from_ obj).
Proof. unfold from_. by destruct (model_validate (adjusted obj)). Qed.

Lemma to_dict_under_as_result {T} `{ResultModel T} (exclude : list string) (m : T) :
  as_result [PydanticSerializationError; TypeError]
            (Returns (model_dump exclude m))
  = Returns (to_dict exclude m).
Proof. reflexivity. Qed.

(** C6 as stated fails.  With no class declared the wrapper turns a
    [ValueError] into an [Err], although no declared class covers it; and an
    [UnwrapError] is turned into an [Err] under a declaration of [KeyError]
    alone. *)
Lemma as_result_widens :
  as_result (R := Z) [] (Raises (Exn ValueError "boom"))
    = Returns (Err (Exn ValueError "boom"))
  ∧ except_matches [] (Exn ValueError "boom") = false
  ∧ as_result (R := Z) [KeyError] (Raises (UnwrapErr (Exn ValueError "boom")))
    = Returns (Err (UnwrapErr (Exn ValueError "boom")))
  ∧ except_matches [KeyError] (UnwrapErr (Exn ValueError "boom")) = false.
Proof. repeat split; reflexivity. Qed.

(* ===================================================================== *)
(** * Properties: pipelines *)
(* ===================================================================== *)

Section pipeline_facts.
Context {S : Type}.

Lemma remaining_emptied (c : nat) (rest : list S) (h : Iter.heap S) :
  (c < length h)%nat → Iter.remaining c (<[c := rest]> h) = rest.
Proof.
  intros Hc. unfold Iter.remaining, Iter.heap in *.
  by rewrite list_lookup_insert_eq.
Qed.

Lemma remaining_exhausted (c : nat) (h : Iter.heap S) :
  Iter.remaining c (<[c := []]> h) = [].
Proof.
  destruct (decide (c < length h)%nat) as [Hc | Hc].
  - by apply remaining_emptied.
  - unfold Iter.remaining, Iter.heap in *. rewrite list_insert_ge by lia.
    by rewrite lookup_ge_None_2 by lia.
Qed.

(** A stack of one [map] and one [filter] stage lets through the mapped
    items on which the filter is true, in order. *)
Lemma filter_map_stages {T U} (keep : U → bool) (func : T → U)
      (it : Iter.iterator S T) (l : list S) :
  omap (Iter.through (Iter.filter_ keep (Iter.map_ func it))) l
  = List.filter keep (func <$> omap (Iter.through it) l).
Proof.
  induction l as [|x l IH]; [done |].
  cbn. destruct (Iter.through it x) as [y |]; cbn.
  - destruct (keep (func y)); cbn; by rewrite <- IH.
  - by rewrite <- IH.
Qed.

Lemma filter_map_async_stages {G T U} `{PyBool U} (func : T → U)
      (self : AsyncPipeline.t G S T) (l : list S) :
  omap (AsyncPipeline.through
          (AsyncPipeline._generator (AsyncPipeline.filter_map func self))) l
  = List.filter py_bool
      (func <$> omap (AsyncPipeline.through (AsyncPipeline._generator self)) l).
Proof.
  induction l as [|x l IH]; [done |].
  cbn. destruct (AsyncPipeline.through _ x) as [y |]; cbn.
  - destruct (py_bool (func y)); cbn; by rewrite <- IH.
  - by rewrite <- IH.
Qed.

(** [next] and [exhaust] agree: running to the end is pulling until the
    iterator is empty. *)
Lemma exhaust_after_advance {T} (stages : S → option T) (l : list S) :
  omap stages l
  = match Iter.advance stages l with
    | (Some y, rest) => y :: omap stages rest
    | (None, _) => []
    end.
Proof.
  induction l as [|x l IH]; [done |].
  cbn. destruct (stages x); [done | apply IH].
Qed.

(** Driving the pipeline that [filter_map] builds is driving the pipeline it
    was built from, and keeping the true values of [func]. *)
Lemma drain_filter_map {St G T U : Type} `{PyBool U} `{AsyncSource St G S}
      (func : T → U) (self : AsyncPipeline.t G S T) (st : St) :
  AsyncPipeline.drain (AsyncPipeline.filter_map func self) st
  = (outcome_map (λ items, List.filter py_bool (func <$> items))
                 (fst (AsyncPipeline.drain self st)),
     snd (AsyncPipeline.drain self st)).
Proof.
  unfold AsyncPipeline.drain, bind.
  cbn [AsyncPipeline.filter_map AsyncPipeline._generator AsyncPipeline.source].
  destruct (pending (AsyncPipeline.source (AsyncPipeline._generator self)) st)
    as [[items | e] st']; cbn [fst snd outcome_map]; [| done].
  f_equal. f_equal. apply (filter_map_async_stages func self).
Qed.

(** C8, as the code has it.  The elements that [filter_map (func)] produces
    are the values [func x], for the elements [x] of the pipeline in order,
    that are true for [bool]; an element is dropped exactly when [func x] is
    false.  The same holds for the async pipeline over any source. *)
Theorem filter_map_keeps_true {T U : Type} `{PyBool U} (func : T → U) :
  (∀ (self : Pipeline.t S T) (h : Iter.heap S),
     Pipeline.iterate (Pipeline.filter_map func self) h
     = (outcome_map (λ items, List.filter py_bool (func <$> items))
                    (fst (Pipeline.iterate self h)),
        snd (Pipeline.iterate self h)))
  ∧ (∀ (St G : Type) (src : AsyncSource St G S)
       (self : AsyncPipeline.t G S T) (st : St),
       AsyncPipeline.drain (AsyncPipeline.filter_map func self) st
       = (outcome_map (λ items, List.filter py_bool (func <$> items))
                      (fst (AsyncPipeline.drain self st)),
          snd (AsyncPipeline.drain self st))).
Proof.
  split.
  - intros self h. unfold Pipeline.iterate, Pipeline.__iter__, Iter.exhaust.
    cbn [fst snd outcome_map]. f_equal. f_equal.
    apply filter_map_stages.
  - intros St G src self st. apply drain_filter_map.
Qed.

End pipeline_facts.

(** C8 as stated fails.  A transformer that answers [Nothing()] or an [Err]
    has its results kept, the classes define no truth value of their own;
    and a result that is neither, such as [0], is dropped. *)
Lemma filter_map_keeps_Nothing :
  (pl ← Pipeline.new [1; 2];
   Pipeline.iterate (Pipeline.filter_map (λ _ : Z, @Nothing Z) pl)) []
  = (Returns [Nothing; Nothing], [[]])
  ∧ (pl ← Pipeline.new [1; 2];
     Pipeline.iterate
       (Pipeline.filter_map (λ _ : Z, @Err Z (Exn KeyError "id")) pl)) []
    = (Returns [Err (Exn KeyError "id"); Err (Exn KeyError "id")], [[]])
  ∧ (pl ← Pipeline.new [1; 2];
     Pipeline.iterate (Pipeline.filter_map (λ _ : Z, 0) pl)) []
    = (Returns [], [[]]).
Proof. repeat split; reflexivity. Qed.

(** ** Consumption *)

Section consumption.
Context {S : Type}.

(** The pipelines that [map], [filter] and [filter_map] build hold the
    iterator of the pipeline they were built from. *)
Lemma map_shares {T U} (func : T → U) (self : Pipeline.t S T) :
  Iter.cell (Pipeline._iterator (Pipeline.map func self))
  = Iter.cell (Pipeline._iterator self).
Proof. reflexivity. Qed.

Lemma filter_shares {T U} `{PyBool U} (func : T → U) (self : Pipeline.t S T) :
  Iter.cell (Pipeline._iterator (Pipeline.filter func self))
  = Iter.cell (Pipeline._iterator self).
Proof. reflexivity. Qed.

Lemma filter_map_shares {T U} `{PyBool U} (func : T → U) (self : Pipeline.t S T) :
  Iter.cell (Pipeline._iterator (Pipeline.filter_map func self))
  = Iter.cell (Pipeline._iterator self).
Proof. reflexivity. Qed.

Lemma collect_as_leaves_nothing {T} (class_ : CollectionType T)
      (self : Pipeline.t S T) (h : Iter.heap S) :
  Iter.remaining (Iter.cell (Pipeline._iterator self))
                 (snd (Pipeline.collect_as class_ self h)) = [].
Proof. cbn. apply remaining_exhausted. Qed.

Lemma Something_if_any_nil {T} (class_ : CollectionType T) :
  Something_if_any (build class_ []) = Nothing.
Proof. by destruct class_. Qed.

Lemma collect_as_of_nothing {T} (class_ : CollectionType T)
      (self : Pipeline.t S T) (h : Iter.heap S) :
  Iter.remaining (Iter.cell (Pipeline._iterator self)) h = [] →
  fst (Pipeline.collect_as class_ self h) = Returns Nothing
  ∧ fst (Pipeline.iterate self h) = Returns [].
Proof.
  intros Hleft. split.
  - change (fst (Pipeline.collect_as class_ self h))
      with (Returns (Something_if_any
              (build class_ (omap (Iter.through (Pipeline._iterator self))
                 (Iter.remaining (Iter.cell (Pipeline._iterator self)) h))))).
    rewrite Hleft. cbn [omap list_omap]. by rewrite Something_if_any_nil.
  - change (fst (Pipeline.iterate self h))
      with (Returns (omap (Iter.through (Pipeline._iterator self))
              (Iter.remaining (Iter.cell (Pipeline._iterator self)) h))).
    by rewrite Hleft.
Qed.

(** C10.  Once [collect_as] has run on a pipeline, or on a pipeline that
    holds the same iterator, another [collect_as] on the pipeline answers
    [Nothing] and an iteration over it produces no element. *)
Theorem collect_as_exhausts {T U : Type}
        (self : Pipeline.t S T) (derived : Pipeline.t S U)
        (class_ : CollectionType U) (class_' : CollectionType T)
        (h : Iter.heap S) :
  Iter.cell (Pipeline._iterator derived) = Iter.cell (Pipeline._iterator self) →
  fst (Pipeline.collect_as class_' self
         (snd (Pipeline.collect_as class_ derived h))) = Returns Nothing
  ∧ fst (Pipeline.iterate self
           (snd (Pipeline.collect_as class_ derived h))) = Returns [].
Proof.
  intros Hcell.
  pose proof (collect_as_leaves_nothing class_ derived h) as Hleft.
  rewrite Hcell in Hleft.
  by apply collect_as_of_nothing.
Qed.

End consumption.

(** A pipeline over [[1; 2; 3]], collected through a [filter_map] built on
    it, then collected and iterated again. *)
Lemma collect_as_exhausts_witness :
  let h := snd (Pipeline.new [1; 2; 3] []) in
  let self : Pipeline.t Z Z := Pipeline.mk {| Iter.cell := 0; Iter.through := Some |} in
  let derived := Pipeline.filter_map (λ x : Z, x + 1) self in
  fst (Pipeline.collect_as list_ derived h) = Returns (Something (PyList [2; 3; 4]))
  ∧ fst (Pipeline.collect_as tuple_ self
           (snd (Pipeline.collect_as list_ derived h))) = Returns Nothing
  ∧ fst (Pipeline.iterate self
           (snd (Pipeline.collect_as list_ derived h))) = Returns [].
Proof.
  intros h self derived. split; [reflexivity |].
  apply (collect_as_exhausts self derived list_ tuple_ h).
  apply (filter_map_shares (λ x : Z, x + 1) self).
Defined.

(** ** Unwrapping *)

Section unwrapping.
Context {S T : Type}.

Lemma unwrap_each_all_ok (stages : S → option (Result T)) (l : list S)
      (vs : list T) :
  omap stages l = Ok <$> vs →
  AsyncPipeline.unwrap_each stages l = (Returns vs, []).
Proof.
  revert vs. induction l as [|x l IH]; intros vs Hvs.
  - destruct vs; [done | discriminate].
  - cbn in *. destruct (stages x) as [[v | e] |].
    + destruct vs as [|v' vs]; [discriminate |].
      injection Hvs as -> Hvs. cbn. by rewrite (IH vs Hvs).
    + destruct vs; discriminate.
    + by apply IH.
Qed.



End unwrapping.



(* ===================================================================== *)
(** * Properties: the document collection *)
(* ===================================================================== *)

Section collection_facts.
Import Mongo.

Lemma matches_by_id (k : string) (d : doc) :
  matches (by_id k) d = true ↔ d !! "_id" = Some (BStr k).
Proof.
  unfold matches, by_id. cbn. rewrite andb_true_r.
  destruct (d !! "_id") as [[] |]; cbn; try (split; [discriminate | congruence]).
  rewrite String.eqb_eq. split; congruence.
Qed.

Lemma first_match_matches (q : query) (ds : list doc) (d : doc) :
  first_match q ds = Some d → matches q d = true.
Proof.
  intros Hd. apply head_Some_elem_of in Hd.
  by apply list_elem_of_filter in Hd as [? _].
Qed.

Lemma first_match_cons (q : query) (x : doc) (ds : list doc) :
  first_match q (x :: ds) = if matches q x then Some x else first_match q ds.
Proof.
  unfold first_match. rewrite filter_cons.
  destruct (matches q x); by case_decide.
Qed.

Lemma replace_first_none (q : query) (f : doc → doc) (ds : list doc) :
  first_match q ds = None → replace_first q f ds = None.
Proof.
  induction ds as [|x ds IH]; [done |].
  rewrite first_match_cons. cbn. destruct (matches q x); [done |].
  intros Hn. by rewrite (IH Hn).
Qed.

(** Updating the first match: the update lands on that document, it is
    still the first match when it still matches, and nothing moves when the
    update changes nothing. *)
Lemma replace_first_found (q : query) (f : doc → doc) (ds : list doc) (d : doc) :
  first_match q ds = Some d →
  ∃ ds', replace_first q f ds = Some ds'
         ∧ (matches q (f d) = true → first_match q ds' = Some (f d))
         ∧ (f d = d → ds' = ds).
Proof.
  induction ds as [|x ds IH]; [done |].
  rewrite first_match_cons. cbn. destruct (matches q x) eqn:Hx.
  - intros [= ->]. exists (f d :: ds). split; [done |]. split.
    + intros Hm. by rewrite first_match_cons, Hm.
    + by intros ->.
  - intros Hd. destruct (IH Hd) as (ds' & -> & Hfirst & Hsame).
    exists (x :: ds'). split; [done |]. split.
    + intros Hm. rewrite first_match_cons, Hx. by apply Hfirst.
    + intros Hf. by rewrite (Hsame Hf).
Qed.

(** The scalars go as they are, so a filter on an [_id] that is a string is
    sent as it is. *)
Lemma sent_by_id (k : string) : sent_query (by_id k) = by_id k.
Proof. reflexivity. Qed.

(** The methods of [EventStorage] when the server is reached. *)
Lemma get_by_id_reached (v : bson) (ds : list doc) (o : list bool) :
  head o ≠ Some true →
  EventStorage.get_by_id v (Store ds o)
  = (Returns (Ok (match first_match [("_id", Equals (to_bson v))] ds with
                  | Some d => Something d
                  | None => Nothing
                  end)), Store ds (tail o)).
Proof.
  intros Ho.
  unfold EventStorage.get_by_id, as_async_result, find_one, round_trip,
    first_match, mbind, M_bind, bind.
  destruct o as [| [|] later]; [| by destruct Ho |]; clear Ho; cbn;
    by destruct (head _).
Qed.

Lemma get_by_id_healthy (v : bson) (ds : list doc) :
  EventStorage.get_by_id v (Store ds [])
  = (Returns (Ok (match first_match [("_id", Equals (to_bson v))] ds with
                  | Some d => Something d
                  | None => Nothing
                  end)), Store ds []).
Proof. by apply get_by_id_reached. Qed.

Lemma update_by_id_healthy (v : bson) (fields : doc) (ds : list doc) :
  EventStorage.update_by_id v fields (Store ds [])
  = match replace_first [("_id", Equals (to_bson v))]
                        (λ d, sent fields ∪ d) ds with
    | Some ds' => (Returns (Ok 1), Store ds' [])
    | None => (Returns (Ok 0),
               Store (ds ++ [with_id ds (sent fields
                                         ∪ seed [("_id", Equals (to_bson v))])])
                     [])
    end.
Proof.
  unfold EventStorage.update_by_id, as_async_result, update_one_set_upsert,
    round_trip. cbn.
  by destruct (replace_first _ _ ds).
Qed.

(** A server that cannot be reached answers [Err] and keeps its documents. *)
Lemma get_by_id_outage (v : bson) (ds : list doc) (later : list bool) :
  EventStorage.get_by_id v (Store ds (true :: later))
  = (Returns (Err (Exn PyMongoError "server unreachable")), Store ds later).
Proof. reflexivity. Qed.

(** Handing a pydantic model to [insert]: the model is no [dict], its items
    are no documents, and the [TypeError] of the driver is none of the
    declared classes. *)
Lemma insert_model_raises (e : CalendarEvent.t) (c : collection) :
  EventStorage.insert (CalendarEvent_object e) c
  = (Raises (Exn TypeError "document must be an instance of dict"), c).
Proof. reflexivity. Qed.

End collection_facts.

(* ===================================================================== *)
(** * Properties: the event reconciler *)
(* ===================================================================== *)

Section reconciler_facts.
Import Mongo.

Lemma dump_lookup (e : CalendarEvent.t) :
  CalendarEvent.dump e !! "_id" = Some (BStr (CalendarEvent.id e))
  ∧ CalendarEvent.dump e !! "summary" = Some (BStr (CalendarEvent.summary e))
  ∧ CalendarEvent.dump e !! "location" = Some (BStr (CalendarEvent.location e))
  ∧ CalendarEvent.dump e !! "coordinates"
    = Some (BArray [BDouble (fst (CalendarEvent.coordinates e));
                    BDouble (snd (CalendarEvent.coordinates e))])
  ∧ CalendarEvent.dump e !! "creator" = Some (BStr (CalendarEvent.creator e))
  ∧ CalendarEvent.dump e !! "start" = Some (BDate (CalendarEvent.start e))
  ∧ CalendarEvent.dump e !! "end" = Some (BDate (CalendarEvent.end_ e))
  ∧ CalendarEvent.dump e !! "link" = Some (BStr (CalendarEvent.link e))
  ∧ CalendarEvent.dump e !! "tracked" = Some (BBool (CalendarEvent.tracked e))
  ∧ CalendarEvent.dump e !! "id" = None.
Proof. repeat split; reflexivity. Qed.

(** A document that carries an [_id] and, on every other key an event dumps
    to, the value the event dumps to, validates to this event under that
    [_id]. *)
Lemma validate_dumped (e : CalendarEvent.t) (m : doc) (s : string) :
  m !! "_id" = Some (BStr s) →
  (∀ k v, k ≠ "_id" → CalendarEvent.dump e !! k = Some v → m !! k = Some v) →
  CalendarEvent.validate m
  = Some (CalendarEvent.mk s
            (CalendarEvent.summary e) (CalendarEvent.location e)
            (CalendarEvent.coordinates e) (CalendarEvent.creator e)
            (CalendarEvent.start e) (CalendarEvent.end_ e)
            (CalendarEvent.link e) (CalendarEvent.tracked e)).
Proof.
  intros Hid Hm.
  destruct (dump_lookup e) as (_ & H1 & H2 & H3 & H4 & H5 & H6 & H7 & H8 & _).
  apply Hm in H1, H2, H3, H4, H5, H6, H7, H8; try done.
  unfold CalendarEvent.validate, get_str, get_date, get_bool_or.
  rewrite Hid, H1, H2, H3, H4, H5, H6, H7, H8. cbn.
  by destruct e as [? ? ? [? ?] ? ? ? ? ?].
Qed.

Lemma set_fields_lookup (e : CalendarEvent.t) (k : string) :
  set_fields e !! k = if decide (k = "_id") then None
                      else CalendarEvent.dump e !! k.
Proof.
  unfold set_fields. case_decide as Hk.
  - subst. apply lookup_delete_eq.
  - by rewrite lookup_delete_ne.
Qed.

(** What the reconciler writes over a stored document [d]. *)
Lemma written_lookup (e : CalendarEvent.t) (d : doc) (k : string) (v : bson) :
  k ≠ "_id" → CalendarEvent.dump e !! k = Some v →
  (set_fields e ∪ d) !! k = Some v.
Proof.
  intros Hk Hv. apply lookup_union_Some_l.
  rewrite set_fields_lookup. by case_decide.
Qed.

Lemma written_id (e : CalendarEvent.t) (d : doc) :
  (set_fields e ∪ d) !! "_id" = d !! "_id".
Proof.
  apply lookup_union_r. rewrite set_fields_lookup. by case_decide.
Qed.

Lemma written_twice (e : CalendarEvent.t) (d : doc) :
  set_fields e ∪ (set_fields e ∪ d) = set_fields e ∪ d.
Proof. by rewrite (assoc_L (∪)), (idemp_L (∪)). Qed.

(** The dump of an event goes to the server as the dump of the event the
    store keeps. *)
Lemma sent_dump (e : CalendarEvent.t) :
  sent (CalendarEvent.dump e) = CalendarEvent.dump (as_stored e).
Proof.
  unfold sent, CalendarEvent.dump. by rewrite !fmap_insert, fmap_empty.
Qed.

Lemma sent_set_fields (e : CalendarEvent.t) :
  sent (set_fields e) = set_fields (as_stored e).
Proof.
  unfold set_fields. rewrite <- sent_dump. unfold sent. apply fmap_delete.
Qed.

Lemma millis_twice (t : Z) : millis (millis t) = millis t.
Proof. unfold millis. by rewrite Z.div_mul. Qed.

Lemma as_stored_twice (e : CalendarEvent.t) :
  as_stored (as_stored e) = as_stored e.
Proof. unfold as_stored. cbn. by rewrite !millis_twice. Qed.

(** [create_or_update_event] against a healthy server. *)
Lemma create_or_update_event_healthy (e : CalendarEvent.t) (ds : list doc) :
  CalendarTracker.create_or_update_event e (Store ds [])
  = EventStorage.update_by_id (BStr (CalendarEvent.id e)) (set_fields e)
                              (Store ds []).
Proof. reflexivity. Qed.

End reconciler_facts.

Section reconciliation.
Import Mongo.

Lemma get_event_reached (k : string) (ds : list doc) (o : list bool) :
  head o ≠ Some true →
  CalendarTracker.get_event k (Store ds o)
  = (Returns (match first_match (by_id k) ds with
              | Some d => match from_ d with
                          | Ok event => Ok (Something event)
                          | Err e => Err e
                          end
              | None => Ok Nothing
              end), Store ds (tail o)).
Proof.
  intros Ho. unfold CalendarTracker.get_event, mbind, M_bind, bind.
  rewrite (get_by_id_reached _ _ _ Ho). cbn [to_bson]. fold (by_id k).
  destruct (first_match (by_id k) ds) as [d |]; [| done].
  by destruct (from_ d).
Qed.

Lemma get_event_healthy (k : string) (ds : list doc) :
  CalendarTracker.get_event k (Store ds [])
  = (Returns (match first_match (by_id k) ds with
              | Some d => match from_ d with
                          | Ok event => Ok (Something event)
                          | Err e => Err e
                          end
              | None => Ok Nothing
              end), Store ds []).
Proof. by apply get_event_reached. Qed.

(** What the reconciler has written over a document validates to the event
    that was written, under the [_id] of the document. *)
Lemma written_validates (m : CalendarEvent.t) (d : doc) :
  d !! "_id" = Some (BStr (CalendarEvent.id m)) →
  model_validate (set_fields m ∪ d) = Some m.
Proof.
  intros Hid. cbn [model_validate CalendarEvent_model].
  rewrite (validate_dumped m _ (CalendarEvent.id m)).
  - by destruct m.
  - by rewrite written_id.
  - intros k v Hk Hv. by apply written_lookup.
Qed.

(** The update path of [sync_event] against a healthy server: the fields
    of the merged event are written as the store keeps them. *)
Lemma sync_event_present (updated existing : CalendarEvent.t)
      (d : doc) (ds : list doc) :
  first_match (by_id (CalendarEvent.id updated)) ds = Some d →
  from_ d = Ok existing →
  ∃ ds',
    CalendarTracker.sync_event updated (Store ds [])
    = (Returns (Ok (merged updated existing)), Store ds' [])
    ∧ first_match (by_id (CalendarEvent.id updated)) ds'
      = Some (set_fields (as_stored (merged updated existing)) ∪ d)
    ∧ (set_fields (as_stored (merged updated existing)) ∪ d = d → ds' = ds).
Proof.
  intros Hd Hex.
  pose proof (first_match_matches _ _ _ Hd) as Hm.
  apply matches_by_id in Hm.
  destruct (replace_first_found (by_id (CalendarEvent.id updated))
              (λ x, set_fields (as_stored (merged updated existing)) ∪ x) ds d Hd)
    as (ds' & Hrep & Hfirst & Hsame).
  exists ds'. split; [| split].
  - unfold CalendarTracker.sync_event, mbind, M_bind, bind.
    rewrite get_event_healthy, Hd, Hex.
    cbn [CalendarEvent.update_tracked Result.ok].
    fold (merged updated existing).
    rewrite create_or_update_event_healthy, update_by_id_healthy.
    cbn [to_bson]. rewrite sent_set_fields.
    change (CalendarEvent.id (merged updated existing))
      with (CalendarEvent.id updated).
    fold (by_id (CalendarEvent.id updated)).
    by rewrite Hrep.
  - apply Hfirst. apply matches_by_id. by rewrite written_id.
  - done.
Qed.

(** C1, as the code has it.  When the id of the incoming event has a
    stored document that validates to [existing], [sync_event] answers the
    incoming event with the [tracked] of [existing], and the document then
    stored under the id validates to that record as the store keeps it: it
    carries the incoming value on every field the event dumps to, except
    [tracked], with [start] and [end] cut to the millisecond.  So the record
    stored is the record answered whenever the incoming [start] and [end]
    are whole milliseconds. *)
Theorem sync_event_keeps_tracked (updated existing : CalendarEvent.t)
        (d : doc) (ds : list doc) :
  first_match (by_id (CalendarEvent.id updated)) ds = Some d →
  from_ d = Ok existing →
  ∃ (ds' : list doc) (d' : doc),
    CalendarTracker.sync_event updated (Store ds [])
    = (Returns (Ok (merged updated existing)), Store ds' [])
    ∧ first_match (by_id (CalendarEvent.id updated)) ds' = Some d'
    ∧ model_validate d' = Some (as_stored (merged updated existing))
    ∧ d' !! "tracked" = Some (BBool (CalendarEvent.tracked existing))
    ∧ d' !! "summary" = Some (BStr (CalendarEvent.summary updated))
    ∧ (millis (CalendarEvent.start updated) = CalendarEvent.start updated →
       millis (CalendarEvent.end_ updated) = CalendarEvent.end_ updated →
       model_validate d' = Some (merged updated existing)).
Proof.
  intros Hd Hex.
  destruct (sync_event_present updated existing d ds Hd Hex)
    as (ds' & Hrun & Hfirst & _).
  exists ds', (set_fields (as_stored (merged updated existing)) ∪ d).
  pose proof (first_match_matches _ _ _ Hd) as Hm.
  apply matches_by_id in Hm.
  assert (Hvalid : model_validate
                     (set_fields (as_stored (merged updated existing)) ∪ d)
                   = Some (as_stored (merged updated existing)))
    by by apply written_validates.
  split; [done |]. split; [done |]. split; [done |]. split; [| split].
  - by apply written_lookup.
  - by apply written_lookup.
  - intros Hstart Hend. rewrite Hvalid. f_equal.
    unfold as_stored, merged. cbn. by rewrite Hstart, Hend.
Qed.

End reconciliation.

Section idempotence.
Import Mongo.

(** The create path of [sync_event] when the server is reached: the insert
    raises, and nothing is stored. *)
Lemma sync_event_absent (updated : CalendarEvent.t) (ds : list doc)
      (o : list bool) :
  head o ≠ Some true →
  first_match (by_id (CalendarEvent.id updated)) ds = None →
  CalendarTracker.sync_event updated (Store ds o)
  = (Raises (Exn TypeError "document must be an instance of dict"),
     Store ds (tail o)).
Proof.
  intros Ho Hd. unfold CalendarTracker.sync_event, mbind, M_bind, bind.
  rewrite (get_event_reached _ _ _ Ho), Hd.
  unfold CalendarTracker.create_event. by rewrite insert_model_raises.
Qed.

(** A stored document that does not validate: the error is answered, and
    nothing is written. *)
Lemma sync_event_invalid (updated : CalendarEvent.t) (d : doc) (ds : list doc)
      (e : held) :
  first_match (by_id (CalendarEvent.id updated)) ds = Some d →
  from_ (T := CalendarEvent.t) d = Err e →
  CalendarTracker.sync_event updated (Store ds [])
  = (Returns (Err e), Store ds []).
Proof.
  intros Hd He. unfold CalendarTracker.sync_event, mbind, M_bind, bind.
  by rewrite get_event_healthy, Hd, He.
Qed.

(** The document the reconciler has written still validates, to a record
    with the [tracked] that was written. *)
Lemma from_written (m existing : CalendarEvent.t) (d : doc) (k : string) :
  d !! "_id" = Some (BStr k) →
  from_ d = Ok existing →
  ∃ again : CalendarEvent.t,
    from_ (set_fields m ∪ d) = Ok again
    ∧ CalendarEvent.tracked again = CalendarEvent.tracked m.
Proof.
  intros Hid Hex. unfold from_, adjusted in *.
  assert (Hidkey : (set_fields m ∪ d) !! "id" = d !! "id").
  { apply lookup_union_r. rewrite set_fields_lookup. by case_decide. }
  rewrite Hidkey.
  destruct (d !! "id") as [v |] eqn:Hv.
  - assert (∃ s, v = BStr s) as [s ->].
    { cbn in Hex. unfold CalendarEvent.validate, get_str in Hex.
      rewrite lookup_insert_eq in Hex. destruct v; try discriminate. eauto. }
    cbn [model_validate CalendarEvent_model].
    rewrite (validate_dumped m _ s).
    + eexists. split; [reflexivity | done].
    + apply lookup_insert_eq.
    + intros k' v' Hk' Hv'. rewrite lookup_insert_ne by done.
      by apply written_lookup.
  - cbn [model_validate CalendarEvent_model].
    rewrite (validate_dumped m _ k).
    + eexists. split; [reflexivity | done].
    + by rewrite written_id.
    + intros k' v' Hk' Hv'. by apply written_lookup.
Qed.

(** A server that cannot be reached: [sync_event] answers the error of the
    lookup, or of the update, and the documents stay as they were. *)
Lemma sync_event_lookup_outage (updated : CalendarEvent.t) (ds : list doc)
      (later : list bool) :
  CalendarTracker.sync_event updated (Store ds (true :: later))
  = (Returns (Err (Exn PyMongoError "server unreachable")), Store ds later).
Proof. reflexivity. Qed.

Lemma sync_event_update_outage (updated existing : CalendarEvent.t) (d : doc)
      (ds : list doc) (later : list bool) :
  first_match (by_id (CalendarEvent.id updated)) ds = Some d →
  from_ d = Ok existing →
  CalendarTracker.sync_event updated (Store ds (false :: true :: later))
  = (Returns (Err (Exn PyMongoError "server unreachable")), Store ds later).
Proof.
  intros Hd Hex. unfold CalendarTracker.sync_event, mbind, M_bind, bind.
  rewrite (get_event_reached _ _ (false :: true :: later)) by done.
  by rewrite Hd, Hex.
Qed.

(** C3.  Against a healthy server, running [sync_event] on the same event a
    second time answers what the first run answered and leaves the
    collection as the first run left it: the stored record of the id, its
    [tracked] included, is the same after both runs. *)
Theorem sync_event_idempotent (updated : CalendarEvent.t) (c : collection) :
  outages c = [] →
  CalendarTracker.sync_event updated
    (snd (CalendarTracker.sync_event updated c))
  = CalendarTracker.sync_event updated c.
Proof.
  destruct c as [ds o]. cbn. intros ->.
  destruct (first_match (by_id (CalendarEvent.id updated)) ds) as [d |] eqn:Hd.
  - destruct (from_ (T := CalendarEvent.t) d) as [existing | e] eqn:Hex.
    + destruct (sync_event_present updated existing d ds Hd Hex)
        as (ds' & Hrun & Hfirst & _).
      rewrite Hrun. cbn [snd].
      pose proof (first_match_matches _ _ _ Hd) as Hid.
      apply matches_by_id in Hid.
      destruct (from_written (as_stored (merged updated existing)) existing d _
                  Hid Hex)
        as (again & Hagain & Htr).
      destruct (sync_event_present updated again _ ds' Hfirst Hagain)
        as (ds'' & Hrun' & _ & Hsame).
      assert (Hm : merged updated again = merged updated existing).
      { unfold merged. by rewrite Htr. }
      rewrite Hm in Hrun', Hsame.
      rewrite Hrun', (Hsame (written_twice _ _)). done.
    + rewrite (sync_event_invalid updated d ds e Hd Hex). cbn [snd].
      by apply (sync_event_invalid updated d).
  - rewrite (sync_event_absent updated ds [] ltac:(done) Hd). cbn [snd tail].
    by apply (sync_event_absent updated ds []).
Qed.

(** C2, on the code.  When the id of the incoming event has no stored
    document, [sync_event] stores nothing and never answers [Ok]: against a
    healthy server the insert raises [TypeError], because [create_event]
    hands the model itself, not its dump, to [insert]. *)
Theorem sync_event_cannot_create (updated : CalendarEvent.t) (c : collection) :
  first_match (by_id (CalendarEvent.id updated)) (documents c) = None →
  documents (snd (CalendarTracker.sync_event updated c)) = documents c
  ∧ (∀ r, fst (CalendarTracker.sync_event updated c) ≠ Returns (Ok r))
  ∧ (outages c = [] →
     CalendarTracker.sync_event updated c
     = (Raises (Exn TypeError "document must be an instance of dict"), c)).
Proof.
  destruct c as [ds o]. cbn [documents outages]. intros Hd.
  destruct o as [| [|] later].
  - rewrite (sync_event_absent updated ds [] ltac:(done) Hd). by repeat split.
  - repeat split; try done.
  - rewrite (sync_event_absent updated ds (false :: later) ltac:(done) Hd).
    by repeat split.
Qed.

End idempotence.

(** ** The reconciler on a sample collection *)

Lemma sync_event_keeps_tracked_witness :
  first_match (by_id "evt-1") (Mongo.documents sample_events)
  = Some (CalendarEvent.dump stored_trip)
  ∧ from_ (CalendarEvent.dump stored_trip) = Ok stored_trip
  ∧ ∃ (ds' : list doc) (d' : doc),
      CalendarTracker.sync_event renamed_trip sample_events
      = (Returns (Ok (merged renamed_trip stored_trip)), Mongo.Store ds' [])
      ∧ first_match (by_id "evt-1") ds' = Some d'
      ∧ model_validate d' = Some (as_stored (merged renamed_trip stored_trip))
      ∧ d' !! "tracked" = Some (BBool true)
      ∧ d' !! "summary" = Some (BStr "Trip (moved)")
      ∧ (Mongo.millis 1717200000000000 = 1717200000000000 →
         Mongo.millis 1717286400000000 = 1717286400000000 →
         model_validate d' = Some (merged renamed_trip stored_trip)).
Proof.
  split; [reflexivity |]. split; [reflexivity |].
  apply (sync_event_keeps_tracked renamed_trip stored_trip
           (CalendarEvent.dump stored_trip) [CalendarEvent.dump stored_trip]);
    reflexivity.
Defined.

(** C1 as stated fails.  The incoming event starts at a moment given to the
    microsecond: [sync_event] answers the merged record, but the record then
    stored under the id is another one, its [start] cut to the
    millisecond. *)
Lemma sync_event_stores_milliseconds :
  first_match (by_id "evt-1") (Mongo.documents sample_events)
  = Some (CalendarEvent.dump stored_trip)
  ∧ ∃ (ds' : list doc) (d' : doc) (saved : CalendarEvent.t),
      CalendarTracker.sync_event precise_trip sample_events
      = (Returns (Ok (merged precise_trip stored_trip)), Mongo.Store ds' [])
      ∧ first_match (by_id "evt-1") ds' = Some d'
      ∧ model_validate d' = Some saved
      ∧ saved ≠ merged precise_trip stored_trip
      ∧ CalendarEvent.start (merged precise_trip stored_trip) = 1717200000123456
      ∧ CalendarEvent.start saved = 1717200000123000.
Proof.
  assert (Hd : first_match (by_id "evt-1") (Mongo.documents sample_events)
               = Some (CalendarEvent.dump stored_trip)) by reflexivity.
  split; [exact Hd |].
  destruct (sync_event_present precise_trip stored_trip
              (CalendarEvent.dump stored_trip) _ Hd eq_refl)
    as (ds' & Hrun & Hfirst & _).
  exists ds', (set_fields (as_stored (merged precise_trip stored_trip))
               ∪ CalendarEvent.dump stored_trip),
    (as_stored (merged precise_trip stored_trip)).
  split; [exact Hrun |]. split; [exact Hfirst |].
  split; [by apply written_validates |].
  split; [discriminate |]. split; reflexivity.
Qed.

Lemma sync_event_idempotent_witness :
  Mongo.outages sample_events = []
  ∧ CalendarTracker.sync_event renamed_trip
      (snd (CalendarTracker.sync_event renamed_trip sample_events))
    = CalendarTracker.sync_event renamed_trip sample_events
  ∧ fst (CalendarTracker.sync_event renamed_trip sample_events)
    = Returns (Ok (merged renamed_trip stored_trip)).
Proof.
  split; [reflexivity |]. split; [| reflexivity].
  apply (sync_event_idempotent renamed_trip sample_events). reflexivity.
Defined.

Lemma sync_event_update_outage_witness :
  first_match (by_id "evt-1") [CalendarEvent.dump stored_trip]
  = Some (CalendarEvent.dump stored_trip)
  ∧ from_ (CalendarEvent.dump stored_trip) = Ok stored_trip
  ∧ CalendarTracker.sync_event renamed_trip
      (Mongo.Store [CalendarEvent.dump stored_trip] [false; true])
    = (Returns (Err (Exn PyMongoError "server unreachable")),
       Mongo.Store [CalendarEvent.dump stored_trip] []).
Proof.
  split; [reflexivity |]. split; [reflexivity |].
  apply (sync_event_update_outage renamed_trip stored_trip
           (CalendarEvent.dump stored_trip));
    reflexivity.
Defined.

Lemma sync_event_cannot_create_witness :
  first_match (by_id "evt-2") (Mongo.documents sample_events) = None
  ∧ CalendarTracker.sync_event new_meeting sample_events
    = (Raises (Exn TypeError "document must be an instance of dict"),
       sample_events).
Proof.
  split; [reflexivity |].
  apply (sync_event_cannot_create new_meeting sample_events);
    reflexivity.
Defined.

(* ===================================================================== *)
(** * Properties: the hazard correlator *)
(* ===================================================================== *)

Section correlation.
Import Mongo.
Context `{Geodesy}.

Lemma models_of_parsed {A B} `{PyBool B} (f : A → option B) (l : list A) :
  (∀ b : B, py_bool b = true) →
  omap id (List.filter py_bool (f <$> l)) = omap f l.
Proof.
  intros Htrue. induction l as [|x l IH]; [done |].
  rewrite fmap_cons. cbn [List.filter omap list_omap].
  destruct (f x) as [b |] eqn:Hx.
  - change (py_bool (Some b)) with (py_bool b). rewrite Htrue.
    cbn. by rewrite IH.
  - apply IH.
Qed.

Lemma omap_Some {A} (l : list A) : omap Some l = l.
Proof. induction l as [|x l IH]; [done |]. cbn. by rewrite IH. Qed.

Lemma parsed_nil {A B} `{PyBool B} (f : A → option B) (l : list A) :
  (∀ b : B, py_bool b = true) →
  List.filter py_bool (f <$> l) = [] ↔ omap f l = [].
Proof.
  intros Htrue. induction l as [|x l IH]; [done |].
  rewrite fmap_cons. cbn [List.filter omap list_omap].
  destruct (f x) as [b |] eqn:Hx.
  - change (py_bool (Some b)) with (py_bool b). rewrite Htrue. done.
  - apply IH.
Qed.

(** Driving a pipeline over a generator of [find] that has not run: the
    query goes to the server, and the generator has ended afterwards. *)
Lemma drain_find_fresh (g : EventStorage.FindGen) (c : collection)
      (gens : list (option (list doc))) :
  gens !! EventStorage.cell g = Some None →
  AsyncPipeline.drain (AsyncPipeline.new g) (EventStorage.Session c gens)
  = (outcome_map (List.filter py_bool) (fst (Mongo.find (EventStorage.by_ g) c)),
     EventStorage.Session (snd (Mongo.find (EventStorage.by_ g) c))
       (<[EventStorage.cell g := Some []]> gens)).
Proof.
  intros Hcell. unfold AsyncPipeline.drain, bind.
  cbn [AsyncPipeline.new AsyncPipeline._generator AsyncPipeline.source
       AsyncPipeline.through pending leave find_source
       EventStorage.generators EventStorage.db].
  rewrite Hcell.
  destruct (Mongo.find (EventStorage.by_ g) c) as [[found | e] c'];
    cbn [fst snd outcome_map EventStorage.generators EventStorage.db];
    [rewrite omap_Some, list_insert_insert_eq |]; reflexivity.
Qed.

(** Driving one that was started: what it has left, and nothing more. *)
Lemma drain_find_started (g : EventStorage.FindGen) (c : collection)
      (gens : list (option (list doc))) (rest : list doc) :
  gens !! EventStorage.cell g = Some (Some rest) →
  AsyncPipeline.drain (AsyncPipeline.new g) (EventStorage.Session c gens)
  = (Returns rest,
     EventStorage.Session c (<[EventStorage.cell g := Some []]> gens)).
Proof.
  intros Hcell. unfold AsyncPipeline.drain, bind.
  cbn [AsyncPipeline.new AsyncPipeline._generator AsyncPipeline.source
       AsyncPipeline.through pending leave find_source
       EventStorage.generators EventStorage.db].
  rewrite Hcell. cbn [EventStorage.generators EventStorage.db].
  by rewrite omap_Some.
Qed.

Lemma find_healthy (q : query) (ds : list doc) :
  Mongo.find q (Store ds [])
  = (Returns (filter (λ d, selects q d = true) ds), Store ds []).
Proof. reflexivity. Qed.

(** The generator that [find] makes has not run. *)
Lemma find_makes_fresh (q : query) (s : EventStorage.session) :
  EventStorage.find q s
  = (Returns (Ok {| EventStorage.by_ := q;
                    EventStorage.cell := length (EventStorage.generators s) |}),
     EventStorage.Session (EventStorage.db s)
                          (EventStorage.generators s ++ [None]))
  ∧ (EventStorage.generators s ++ [None]) !! length (EventStorage.generators s)
    = Some None.
Proof. split; [reflexivity |]. by rewrite list_lookup_middle. Qed.

Lemma scan_active_disasters_healthy (point : float * float) (ds : list doc) :
  DisasterTracker.scan_active_disasters point (Store ds [])
  = (match DisasterTracker.bounding_box point with
     | Raises e => Raises e
     | Returns box =>
         Returns (Something_if_any
           (PyTuple (List.filter py_bool
              (DisasterTracker.parse_disaster
                 <$> List.filter py_bool
                       (filter (λ d, selects box d = true) ds)))))
     end,
     Store ds []).
Proof.
  unfold DisasterTracker.scan_active_disasters.
  destruct (DisasterTracker.bounding_box point) as [box | e]; [| reflexivity].
  unfold EventStorage.with_own_generators, mbind, M_bind, bind.
  rewrite (proj1 (find_makes_fresh box _)).
  unfold AsyncPipeline.collect_as, mbind, M_bind, bind.
  rewrite drain_filter_map, drain_find_fresh by reflexivity.
  cbn [EventStorage.by_ EventStorage.db]. rewrite find_healthy. reflexivity.
Qed.

(** C4, on the code.  Against a healthy server, when the corners of the box
    are computed, [check_calendar_event] answers [Nothing] when the query
    finds no hazard, and the alert for the creator of the event, about the
    event, marked dangerous, when it finds exactly one; when it finds two
    hazards or more, building the alert raises [ValidationError], because
    [disasters] is declared as a tuple of one.  When computing a corner
    raises, the method raises the same and the storage is not asked. *)
Theorem check_calendar_event_shape (event : CalendarEvent.t) (ds : list doc) :
  DisasterTracker.check_calendar_event event (Store ds [])
  = (match DisasterTracker.bounding_box (CalendarEvent.coordinates event) with
     | Raises e => Raises e
     | Returns _ =>
         match hazards_found (CalendarEvent.coordinates event) ds with
         | [] => Returns Nothing
         | [hazard] =>
             Returns (Something (DisasterAlert.mk (CalendarEvent.creator event)
                                                  event [hazard] true))
         | _ :: _ :: _ =>
             Raises (Exn ValidationError "disasters: wrong tuple length")
         end
     end, Store ds []).
Proof.
  unfold DisasterTracker.check_calendar_event, mbind, M_bind, bind.
  rewrite scan_active_disasters_healthy.
  unfold hazards_found.
  destruct (DisasterTracker.bounding_box (CalendarEvent.coordinates event))
    as [box | e]; [| reflexivity].
  set (docs := List.filter py_bool (filter _ ds)).
  assert (Htrue : ∀ b : DisasterEvent.t, py_bool b = true) by done.
  pose proof (models_of_parsed DisasterTracker.parse_disaster docs Htrue) as Hmodels.
  pose proof (parsed_nil DisasterTracker.parse_disaster docs Htrue) as Hnil.
  destruct (List.filter py_bool (DisasterTracker.parse_disaster <$> docs))
    as [|x xs] eqn:Hxs.
  - rewrite (proj1 Hnil eq_refl). reflexivity.
  - assert (Hany : Something_if_any (PyTuple (x :: xs))
                   = Something (PyTuple (x :: xs))) by done.
    rewrite Hany.
    unfold DisasterTracker.models. cbn [elements_of]. rewrite Hmodels.
    destruct (omap DisasterTracker.parse_disaster docs) as [|h1 [|h2 hs]] eqn:Ho.
    + pose proof (proj2 Hnil eq_refl) as Hno. discriminate Hno.
    + reflexivity.
    + reflexivity.
Qed.

End correlation.

(** ** The correlator on a sample collection *)

(** With one hazard in the box the alert is answered; with two, building it
    raises. *)
Lemma check_calendar_event_samples :
  @DisasterTracker.check_calendar_event sample_geodesy stored_trip one_hazard_near
  = (Returns (Something (DisasterAlert.mk "ana@example.org" stored_trip
                                          [fire_north] true)),
     one_hazard_near)
  ∧ @hazards_found sample_geodesy (CalendarEvent.coordinates stored_trip)
                   (Mongo.documents two_hazards_near)
    = [fire_north; fire_south]
  ∧ @DisasterTracker.check_calendar_event sample_geodesy stored_trip two_hazards_near
    = (Raises (Exn ValidationError "disasters: wrong tuple length"),
       two_hazards_near).
Proof. repeat split; vm_compute; reflexivity. Qed.

(* ===================================================================== *)
(** * Properties: the channel registry *)
(* ===================================================================== *)

Section registry.
Import Redis.

(** [get] puts the record it read inside [Ok] as it is, and wraps only
    [Nothing]: it has no answer of the shape [Ok(Something(record))]. *)
Lemma get_never_Something (channel_id : string) (s : server)
      (record : ChannelInfo.t) :
  fst (EventChannels.get channel_id s) ≠ Returns (Ok (EventChannels.Wrapped (Something record))).
Proof.
  unfold EventChannels.get, mbind, M_bind, bind.
  destruct (QuickStorage.get_map EventChannels._storage channel_id s)
    as [[[[obj |] | e] | e] s']; cbn; try discriminate.
  destruct (from_ (EventChannels.as_dict obj)); cbn; discriminate.
Qed.

Lemma intended_hash_encodes (info : ChannelInfo.t) :
  encoded (model_dump ["id"] info) = Some (intended_hash info).
Proof. reflexivity. Qed.

(** Reading back a hash without [id]: the three fields of [ChannelInfo] are
    required, so the record does not validate. *)
Lemma get_without_id (channel_id : string) (mapping : gmap string string)
      (ks : gmap string entry) :
  ks !! ("PREFERENCES:" +:+ channel_id) = Some (RHash mapping) →
  mapping !! "id" = None →
  EventChannels.get channel_id (Server ks [])
  = (Returns (Err (Exn ValidationError "validation error")), Server ks []).
Proof.
  intros Hk Hid.
  unfold EventChannels.get, QuickStorage.get_map, as_async_result, hgetall,
    command, mbind, M_bind, bind.
  cbn [outages keys EventChannels._storage QuickStorage._prefix].
  rewrite Hk. cbn.
  unfold from_, adjusted, EventChannels.as_dict.
  rewrite !lookup_fmap, Hid. cbn.
  assert (Hval : ChannelInfo.validate (BStr <$> mapping) = None).
  { unfold ChannelInfo.validate, get_str. by rewrite (lookup_fmap _ _ "id"), Hid. }
  by rewrite Hval.
Qed.

(** C5, on the code.  [create] raises [AttributeError] whatever the record
    and the server, and writes nothing: the [Result] of [to_] goes to [hset]
    as the mapping.  And [get] never answers a present record. *)
Theorem channel_create_never_succeeds (info : ChannelInfo.t) (s : server) :
  EventChannels.create info s
  = (Raises (Exn AttributeError "'Ok' object has no attribute 'items'"), s)
  ∧ ∀ (channel_id : string) (record : ChannelInfo.t),
      fst (EventChannels.get channel_id s)
      ≠ Returns (Ok (EventChannels.Wrapped (Something record))).
Proof.
  split; [reflexivity |]. intros channel_id record. apply get_never_Something.
Qed.

End registry.

Lemma get_without_id_witness :
  Redis.keys server_with_channel !! ("PREFERENCES:" +:+ "channel-1")
  = Some (Redis.RHash (intended_hash sample_channel))
  ∧ intended_hash sample_channel !! "id" = None
  ∧ EventChannels.get "channel-1" server_with_channel
    = (Returns (Err (Exn ValidationError "validation error")),
       server_with_channel).
Proof.
  split; [reflexivity |]. split; [reflexivity |].
  apply (get_without_id "channel-1" (intended_hash sample_channel));
    reflexivity.
Defined.

Lemma channel_round_trip_samples :
  EventChannels.create sample_channel (Redis.Server ∅ [])
  = (Raises (Exn AttributeError "'Ok' object has no attribute 'items'"),
     Redis.Server ∅ [])
  ∧ EventChannels.get "channel-1" (Redis.Server ∅ [])
    = (Returns (Err (Exn ValidationError "validation error")), Redis.Server ∅ [])
  ∧ QuickStorage.set_map EventChannels._storage "channel-1"
      (Redis.MappingDict (model_dump ["id"] sample_channel)) (Redis.Server ∅ [])
    = (Returns (Ok 2), server_with_channel)
  ∧ EventChannels.get "channel-1" server_with_channel
    = (Returns (Err (Exn ValidationError "validation error")), server_with_channel).
Proof. repeat split; vm_compute; reflexivity. Qed.

(* ===================================================================== *)
(** * Properties: the scheduled window *)
(* ===================================================================== *)

Section scheduled_window.
Import Mongo.

(** The lower bound is the last microsecond of the day of the clock
    reading: it is not before the reading and less than a day after it. *)
Lemma combine_time_max_spec (utcnow : Z) :
  utcnow ≤ Datetime.combine_time_max utcnow
  ∧ Datetime.combine_time_max utcnow < utcnow + Datetime.day
  ∧ (Datetime.combine_time_max utcnow + 1) `mod` Datetime.day = 0.
Proof.
  unfold Datetime.combine_time_max, Datetime.day.
  pose proof (Z.div_mod utcnow 86400000000 ltac:(lia)) as Hdm.
  pose proof (Z.mod_pos_bound utcnow 86400000000 ltac:(lia)) as Hb.
  repeat split; try lia.
  replace (utcnow `div` 86400000000 * 86400000000 + (86400000000 - 1) + 1)
    with ((utcnow `div` 86400000000 + 1) * 86400000000) by lia.
  apply Z.mod_mul. lia.
Qed.

Lemma satisfies_between_dates (lo hi : Z) (field : option bson) :
  satisfies (Between (BDate lo) (BDate hi)) field = true
  ↔ ∃ t, field = Some (BDate t) ∧ lo ≤ t ≤ hi.
Proof.
  destruct field as [[] |]; cbn;
    try (split; [discriminate | by intros (? & [=] & _)]).
  rewrite andb_true_iff, !Z.leb_le. split.
  - intros Hr. eauto.
  - by intros (? & [= <-] & Hr).
Qed.

Lemma satisfies_equals_bool (b : bool) (field : option bson) :
  satisfies (Equals (BBool b)) field = true ↔ field = Some (BBool b).
Proof.
  destruct field as [[] |]; cbn; try (split; [discriminate | congruence]).
  rewrite Bool.eqb_true_iff. split; congruence.
Qed.

(** The driver sends a datetime cut to the millisecond: the lower bound
    goes out as 23:59:59.999, and whole days keep the cut. *)
Lemma millis_combine_time_max (utcnow : Z) :
  millis (Datetime.combine_time_max utcnow)
  = Datetime.combine_time_max utcnow - 999.
Proof.
  unfold millis, Datetime.combine_time_max, Datetime.day.
  set (q := utcnow `div` 86400000000).
  replace (q * 86400000000 + (86400000000 - 1))
    with ((q * 86400000 + 86399999) * 1000 + 999) by lia.
  rewrite Z.div_add_l by lia.
  replace (999 `div` 1000) with 0 by reflexivity. lia.
Qed.

Lemma millis_plus_days (t days : Z) :
  millis (t + days * Datetime.day) = millis t + days * Datetime.day.
Proof.
  unfold millis, Datetime.day.
  replace (days * 86400000000) with (days * 86400000 * 1000) by lia.
  rewrite Z.div_add by lia. lia.
Qed.

(** C9, as the code has it.  As long as the upper bound is a datetime,
    [list_events_scheduled_in] answers a pipeline over a generator that has
    not run; the query it sends selects the documents whose [start] lies
    between the end of the current day as the driver sends it (23:59:59.999
    of the day of the clock reading) and that moment [days] days later, both
    included, and whose [tracked] equals the argument; and driving the
    pipeline against a healthy server yields the events of the selected
    documents, in stored order. *)
Theorem scheduled_window_bounds (utcnow days : Z) (tracked : bool)
        (s : EventStorage.session) :
  Datetime.min ≤ Datetime.combine_time_max utcnow + days * Datetime.day
               ≤ Datetime.max →
  ∃ p,
    CalendarTracker.list_events_scheduled_in utcnow days tracked s
    = (Returns (Ok p),
       EventStorage.Session (EventStorage.db s)
                            (EventStorage.generators s ++ [None]))
    ∧ (∀ d : doc,
         selects (filter_of p) d = true
         ↔ (∃ t, d !! "start" = Some (BDate t)
                 ∧ Datetime.combine_time_max utcnow - 999 ≤ t
                   ≤ Datetime.combine_time_max utcnow - 999
                     + days * Datetime.day)
           ∧ d !! "tracked" = Some (BBool tracked))
    ∧ ∀ ds : list doc,
        EventStorage.db s = Store ds [] →
        fst (AsyncPipeline.drain p
               (EventStorage.Session (EventStorage.db s)
                                     (EventStorage.generators s ++ [None])))
        = Returns (List.filter py_bool
                     (CalendarTracker.parse_event
                        <$> List.filter py_bool
                              (filter (λ d, selects (filter_of p) d = true) ds))).
Proof.
  intros Hrange.
  unfold CalendarTracker.list_events_scheduled_in, call_as_result, as_result,
    Datetime.plus_days, lift, mbind, M_bind, bind.
  cbv zeta.
  destruct ((Datetime.min <=? _) && (_ <=? Datetime.max)) eqn:Hin.
  - rewrite (proj1 (find_makes_fresh _ s)).
    eexists. split; [reflexivity |]. split.
    + intros d. unfold filter_of, selects, matches. cbn [forallb fst snd
        AsyncPipeline.filter_map AsyncPipeline.new AsyncPipeline._generator
        AsyncPipeline.source EventStorage.by_ sent_query sent_cond to_bson
        fmap list_fmap].
      rewrite andb_true_r, andb_true_iff.
      rewrite satisfies_between_dates, satisfies_equals_bool.
      by rewrite millis_plus_days, millis_combine_time_max.
    + intros ds Hds.
      rewrite drain_filter_map, drain_find_fresh
        by apply (proj2 (find_makes_fresh [] s)).
      rewrite Hds, find_healthy. reflexivity.
  - apply andb_false_iff in Hin. rewrite !Z.leb_gt in Hin. lia.
Qed.

End scheduled_window.

Lemma scheduled_window_bounds_witness :
  Datetime.min ≤ Datetime.combine_time_max ten_o_clock + 14 * Datetime.day
               ≤ Datetime.max
  ∧ ∃ p,
      CalendarTracker.list_events_scheduled_in ten_o_clock 14 false
        (EventStorage.Session sample_events [])
      = (Returns (Ok p), EventStorage.Session sample_events [None])
      ∧ (∀ d : doc,
           Mongo.selects (filter_of p) d = true
           ↔ (∃ t, d !! "start" = Some (BDate t)
                   ∧ Datetime.combine_time_max ten_o_clock - 999 ≤ t
                     ≤ Datetime.combine_time_max ten_o_clock - 999
                       + 14 * Datetime.day)
             ∧ d !! "tracked" = Some (BBool false))
      ∧ ∀ ds : list doc,
          sample_events = Mongo.Store ds [] →
          fst (AsyncPipeline.drain p
                 (EventStorage.Session sample_events [None]))
          = Returns (List.filter py_bool
                       (CalendarTracker.parse_event
                          <$> List.filter py_bool
                                (filter (λ d, Mongo.selects (filter_of p) d = true)
                                        ds))).
Proof.
  split; [vm_compute; split; discriminate |].
  apply (scheduled_window_bounds ten_o_clock 14 false
           (EventStorage.Session sample_events [])).
  vm_compute; split; discriminate.
Defined.

(** C9 as stated fails.  The first event starts within fourteen days of the
    clock reading, yet the query of [list_events_scheduled_in] does not
    select its document and driving the pipeline does not yield it: the
    window opens at the end of the day.  The bounds go to the server cut to
    the millisecond, so the second event, which starts at 23:59:59.999 of
    the day of the reading, is selected and yielded. *)
Lemma scheduled_window_opens_at_day_end :
  ten_o_clock ≤ CalendarEvent.start afternoon_call
              ≤ ten_o_clock + 14 * Datetime.day
  ∧ ∃ p,
      CalendarTracker.list_events_scheduled_in ten_o_clock 14 false
        (EventStorage.Session
           (Mongo.Store [CalendarEvent.dump afternoon_call;
                         CalendarEvent.dump midnight_call] []) [])
      = (Returns (Ok p),
         EventStorage.Session
           (Mongo.Store [CalendarEvent.dump afternoon_call;
                         CalendarEvent.dump midnight_call] []) [None])
      ∧ Mongo.selects (filter_of p) (CalendarEvent.dump afternoon_call) = false
      ∧ Mongo.selects (filter_of p) (CalendarEvent.dump midnight_call) = true
      ∧ Mongo.sent_query (filter_of p)
        = [("start", Mongo.Between (BDate 1717286399999000)
                                   (BDate 1718495999999000));
           ("tracked", Mongo.Equals (BBool false))]
      ∧ fst (AsyncPipeline.drain p
               (EventStorage.Session
                  (Mongo.Store [CalendarEvent.dump afternoon_call;
                                CalendarEvent.dump midnight_call] []) [None]))
        = Returns [Some midnight_call].
Proof.
  split; [vm_compute; split; discriminate |].
  eexists. split; [reflexivity |]. repeat split; vm_compute; reflexivity.
Qed.

(* ===================================================================== *)
(** * More properties: the effect algebra *)
(* ===================================================================== *)

(** [then] chains compose: [Ok] and [Something] are units, the chain is
    associative, and an [Err] or a [Nothing] ends it; [then_async] on an
    [Err] answers the [Err] and leaves the store alone. *)
Theorem then_chains {St T U V : Type} :
  (∀ (v : T) (f : T → Result U), Result.then_ (Ok v) f = f v)
  ∧ (∀ r : Result T, Result.then_ r Ok = r)
  ∧ (∀ (r : Result T) (f : T → Result U) (g : U → Result V),
       Result.then_ (Result.then_ r f) g
       = Result.then_ r (λ x, Result.then_ (f x) g))
  ∧ (∀ (e : held) (f : T → Result U) (g : U → Result V),
       Result.then_ (Result.then_ (Err e) f) g = Err e)
  ∧ (∀ (e : held) (func : T → M St (Result U)) (s : St),
       Result.then_async (Err e) func s = (Returns (Err e), s))
  ∧ (∀ (v : T) (f : T → Option U), Option.then_ (Something v) f = f v)
  ∧ (∀ o : Option T, Option.then_ o Something = o)
  ∧ (∀ (o : Option T) (f : T → Option U) (g : U → Option V),
       Option.then_ (Option.then_ o f) g
       = Option.then_ o (λ x, Option.then_ (f x) g)).
Proof.
  repeat split; try done.
  - by intros [].
  - by intros [] f g.
  - by intros [].
  - by intros [] f g.
Qed.

(* ===================================================================== *)
(** * More properties: pipelines *)
(* ===================================================================== *)

Section more_pipeline_facts.
Context {S : Type}.

Lemma build_nil_iff {T} (class_ : CollectionType T) (l : list T) :
  elements_of (build class_ l) = [] ↔ l = [].
Proof.
  destruct class_ as [| | eq_dec]; cbn; try done.
  split; [| by intros ->].
  destruct l as [|x l]; [done |]. intros Hnil.
  assert (Hx : x ∈ @remove_dups T eq_dec (x :: l)).
  { apply elem_of_remove_dups. by left. }
  rewrite Hnil in Hx. by apply not_elem_of_nil in Hx.
Qed.

Lemma Something_if_any_spec {T} (c : Collection T) :
  Something_if_any c = match elements_of c with
                       | [] => Nothing
                       | _ :: _ => Something c
                       end.
Proof.
  unfold Something_if_any, len, py_bool, PyBool_Collection, PyBool_list.
  destruct (elements_of c); [done |]. cbn. done.
Qed.

(** [collect_as] answers [Nothing] exactly when the pipeline produces no
    element, and otherwise [Something] of the collection built from the
    elements, which is never empty. *)
Theorem collect_as_never_empty {T : Type} (class_ : CollectionType T)
        (self : Pipeline.t S T) (h : Iter.heap S) :
  (fst (Pipeline.collect_as class_ self h) = Returns Nothing
   ↔ fst (Pipeline.iterate self h) = Returns [])
  ∧ ∀ c : Collection T,
      fst (Pipeline.collect_as class_ self h) = Returns (Something c) →
      elements_of c ≠ []
      ∧ ∃ items, fst (Pipeline.iterate self h) = Returns items
                 ∧ c = build class_ items.
Proof.
  change (fst (Pipeline.collect_as class_ self h))
    with (Returns (Something_if_any
            (build class_ (omap (Iter.through (Pipeline._iterator self))
               (Iter.remaining (Iter.cell (Pipeline._iterator self)) h))))).
  change (fst (Pipeline.iterate self h))
    with (Returns (omap (Iter.through (Pipeline._iterator self))
            (Iter.remaining (Iter.cell (Pipeline._iterator self)) h))).
  set (items := omap _ _).
  rewrite Something_if_any_spec.
  pose proof (build_nil_iff class_ items) as Hnil.
  destruct (elements_of (build class_ items)) as [|x xs] eqn:Hel.
  - split.
    + split; [intros _ | done]. f_equal. by apply Hnil.
    + intros c [=].
  - split.
    + split; [intros [=] |]. intros [= Hi]. apply Hnil in Hi. discriminate.
    + intros c [= <-]. split; [by rewrite Hel | by exists items].
Qed.

Lemma omap_ext_eq {A B} (f g : A → option B) (l : list A) :
  (∀ x, f x = g x) → omap f l = omap g l.
Proof.
  intros Hfg. induction l as [|x l IH]; [done |].
  cbn. rewrite Hfg, IH. done.
Qed.

Lemma omap_fmap_stage {A B C} (t : A → option B) (f : B → C) (l : list A) :
  omap (λ x, f <$> t x) l = f <$> omap t l.
Proof.
  induction l as [|x l IH]; [done |].
  cbn. destruct (t x); cbn; by rewrite IH.
Qed.

Lemma omap_filter_stage {A B} (t : A → option B) (keep : B → bool) (l : list A) :
  omap (λ x, y ← t x; if keep y then Some y else None) l
  = List.filter keep (omap t l).
Proof.
  induction l as [|x l IH]; [done |].
  cbn. destruct (t x) as [y |]; cbn; [| done].
  destruct (keep y); cbn; by rewrite IH.
Qed.

(** [map] applies the function to every element, in order; [filter] keeps
    the elements on which the function is true, in order; and two [map]s in
    a row produce what one [map] of the composed function produces.  Each
    leaves the source as driving the pipeline itself leaves it. *)
Theorem map_and_filter_elements {T U V : Type} `{PyBool V}
        (self : Pipeline.t S T) (h : Iter.heap S) :
  (∀ func : T → U,
     Pipeline.iterate (Pipeline.map func self) h
     = (outcome_map (fmap func) (fst (Pipeline.iterate self h)),
        snd (Pipeline.iterate self h)))
  ∧ (∀ func : T → V,
       Pipeline.iterate (Pipeline.filter func self) h
       = (outcome_map (List.filter (λ x, py_bool (func x)))
                      (fst (Pipeline.iterate self h)),
          snd (Pipeline.iterate self h)))
  ∧ (∀ (f : T → U) (g : U → V),
       Pipeline.iterate (Pipeline.map g (Pipeline.map f self)) h
       = Pipeline.iterate (Pipeline.map (g ∘ f) self) h).
Proof.
  split; [| split].
  - intros func. unfold Pipeline.iterate, Pipeline.__iter__, Iter.exhaust.
    cbn [fst snd outcome_map]. f_equal. f_equal. apply omap_fmap_stage.
  - intros func. unfold Pipeline.iterate, Pipeline.__iter__, Iter.exhaust.
    cbn [fst snd outcome_map]. f_equal. f_equal. apply omap_filter_stage.
  - intros f g. unfold Pipeline.iterate, Pipeline.__iter__, Iter.exhaust.
    f_equal. f_equal. apply omap_ext_eq. intros x. cbn.
    by destruct (Iter.through (Pipeline._iterator self) x).
Qed.

(** The iterator is single-pass and loses nothing: what it yields first,
    followed by what it yields when it is then run to its end, is what it
    yields when it is run to its end at once. *)
Theorem next_then_the_rest {T : Type} (it : Iter.iterator S T) (h : Iter.heap S) :
  fst (Iter.exhaust it h)
  = Returns (match fst (Iter.next it h) with
             | Returns (Some y) =>
                 match fst (Iter.exhaust it (snd (Iter.next it h))) with
                 | Returns rest => y :: rest
                 | Raises _ => []
                 end
             | _ => []
             end).
Proof.
  unfold Iter.exhaust, Iter.next. cbn [fst].
  rewrite (exhaust_after_advance (Iter.through it)
             (Iter.remaining (Iter.cell it) h)).
  destruct (decide (Iter.cell it < length h)%nat) as [Hc | Hc].
  - destruct (Iter.advance (Iter.through it) (Iter.remaining (Iter.cell it) h))
      as [[y |] rest] eqn:Hadv; cbn [fst snd]; [| done].
    by rewrite (remaining_emptied _ rest h Hc).
  - assert (Hempty : Iter.remaining (Iter.cell it) h = []).
    { unfold Iter.remaining, Iter.heap in *. by rewrite lookup_ge_None_2 by lia. }
    rewrite Hempty. done.
Qed.

End more_pipeline_facts.

Section more_async_facts.
Context {S : Type}.

(** On a pipeline that produces no element [unwrap_as] answers [Ok] of the
    empty collection, where [collect_as] answers [Nothing]. *)
Theorem unwrap_as_of_nothing {T : Type}
        (self : AsyncPipeline.t nat S (Result T))
        (class_ : CollectionType T) (class_' : CollectionType (Result T))
        (h : Iter.heap S) :
  omap (AsyncPipeline.through (AsyncPipeline._generator self))
       (Iter.remaining (AsyncPipeline.source (AsyncPipeline._generator self)) h)
  = [] →
  fst (AsyncPipeline.unwrap_as class_ self h) = Returns (Ok (build class_ []))
  ∧ fst (AsyncPipeline.collect_as class_' self h) = Returns Nothing.
Proof.
  intros Hnone. split.
  - unfold AsyncPipeline.unwrap_as, as_async_result, bind. cbn.
    by rewrite (unwrap_each_all_ok _ _ [] Hnone).
  - unfold AsyncPipeline.collect_as, mbind, M_bind, bind, AsyncPipeline.drain,
      bind. cbn. rewrite Hnone. by rewrite Something_if_any_nil.
Qed.

(** A generator of [find] that was driven has ended: started again, it has
    nothing left. *)
Lemma find_source_ends {T : Type}
      (self : AsyncPipeline.t EventStorage.FindGen doc T)
      (s : EventStorage.session) :
  pending (AsyncPipeline.source (AsyncPipeline._generator self))
          (snd (AsyncPipeline.drain self s))
  = (Returns [], snd (AsyncPipeline.drain self s)).
Proof.
  unfold AsyncPipeline.drain, bind.
  set (g := AsyncPipeline.source (AsyncPipeline._generator self)).
  destruct s as [c gens]. cbn [pending leave find_source
    EventStorage.generators EventStorage.db].
  destruct (gens !! EventStorage.cell g) as [[rest |] |] eqn:Hcell.
  - cbn [snd EventStorage.generators EventStorage.db].
    rewrite list_lookup_insert_eq by (by eapply lookup_lt_Some).
    reflexivity.
  - destruct (Mongo.find (EventStorage.by_ g) c) as [[found | e] c'];
      cbn [snd EventStorage.generators EventStorage.db];
      rewrite list_lookup_insert_eq; try reflexivity;
      rewrite ?length_insert; by eapply lookup_lt_Some.
  - cbn [snd EventStorage.generators EventStorage.db].
    apply lookup_ge_None in Hcell.
    rewrite list_insert_ge, (proj2 (lookup_ge_None _ _)) by done.
    reflexivity.
Qed.

Lemma drain_find_twice {T : Type}
      (self : AsyncPipeline.t EventStorage.FindGen doc T)
      (s : EventStorage.session) :
  fst (AsyncPipeline.drain self (snd (AsyncPipeline.drain self s)))
  = Returns [].
Proof.
  unfold AsyncPipeline.drain at 1, bind. by rewrite find_source_ends.
Qed.

(** The async pipeline is single-pass as well, over an iterator and over a
    generator of [find] alike: once [collect_as] has run on a pipeline over
    the same source, another [collect_as] answers [Nothing], and asks the
    server nothing. *)
Theorem async_collect_as_exhausts {T U : Type} :
  (∀ (self : AsyncPipeline.t nat S T) (derived : AsyncPipeline.t nat S U)
     (class_ : CollectionType U) (class_' : CollectionType T)
     (h : Iter.heap S),
     AsyncPipeline.source (AsyncPipeline._generator derived)
     = AsyncPipeline.source (AsyncPipeline._generator self) →
     fst (AsyncPipeline.collect_as class_' self
            (snd (AsyncPipeline.collect_as class_ derived h)))
     = Returns Nothing)
  ∧ (∀ (self : AsyncPipeline.t EventStorage.FindGen doc T)
       (derived : AsyncPipeline.t EventStorage.FindGen doc U)
       (class_ : CollectionType U) (class_' : CollectionType T)
       (s : EventStorage.session),
       AsyncPipeline.source (AsyncPipeline._generator derived)
       = AsyncPipeline.source (AsyncPipeline._generator self) →
       fst (AsyncPipeline.collect_as class_' self
              (snd (AsyncPipeline.collect_as class_ derived s)))
       = Returns Nothing
       ∧ EventStorage.db
           (snd (AsyncPipeline.collect_as class_' self
                   (snd (AsyncPipeline.collect_as class_ derived s))))
         = EventStorage.db (snd (AsyncPipeline.collect_as class_ derived s))).
Proof.
  split.
  - intros self derived class_ class_' h Hsrc.
    unfold AsyncPipeline.collect_as, mbind, M_bind, bind, AsyncPipeline.drain,
      bind. cbn. rewrite Hsrc, remaining_exhausted. cbn.
    by rewrite Something_if_any_nil.
  - intros self derived class_ class_' s Hsrc.
    assert (Hafter : ∀ st, snd (AsyncPipeline.collect_as class_ derived st)
                           = snd (AsyncPipeline.drain derived st)).
    { intros st. unfold AsyncPipeline.collect_as, mbind, M_bind, bind.
      by destruct (AsyncPipeline.drain derived st) as [[items | e] st']. }
    rewrite Hafter.
    pose proof (find_source_ends derived s) as Hended. rewrite Hsrc in Hended.
    unfold AsyncPipeline.collect_as at 1 2, mbind, M_bind, bind.
    unfold AsyncPipeline.drain at 1 3, bind. rewrite Hended.
    cbn [fst snd omap list_omap leave find_source EventStorage.db].
    by rewrite Something_if_any_nil.
Qed.

End more_async_facts.

Lemma unwrap_as_of_nothing_witness :
  let self : AsyncPipeline.t nat (Result Z) (Result Z) := AsyncPipeline.new 0%nat in
  omap (AsyncPipeline.through (AsyncPipeline._generator self))
       (Iter.remaining 0%nat [[]]) = []
  ∧ fst (AsyncPipeline.unwrap_as list_ self [[]]) = Returns (Ok (PyList []))
  ∧ fst (AsyncPipeline.collect_as list_ self [[]]) = Returns Nothing.
Proof.
  intros self. split; [reflexivity |].
  apply (unwrap_as_of_nothing self list_ list_ [[]]). reflexivity.
Defined.

Lemma async_collect_as_exhausts_witness :
  let self : AsyncPipeline.t nat Z Z := AsyncPipeline.new 0%nat in
  let derived := AsyncPipeline.map (λ x : Z, x * 2) self in
  let events : AsyncPipeline.t EventStorage.FindGen doc doc :=
    AsyncPipeline.new {| EventStorage.by_ := by_id "evt-1";
                         EventStorage.cell := 0 |} in
  let parsed := AsyncPipeline.filter_map CalendarTracker.parse_event events in
  fst (AsyncPipeline.collect_as list_ derived [[1; 2; 3]])
  = Returns (Something (PyList [2; 4; 6]))
  ∧ fst (AsyncPipeline.collect_as list_ self
           (snd (AsyncPipeline.collect_as list_ derived [[1; 2; 3]])))
    = Returns Nothing
  ∧ fst (AsyncPipeline.collect_as list_ parsed
           (EventStorage.Session sample_events [None]))
    = Returns (Something (PyList [Some stored_trip]))
  ∧ fst (AsyncPipeline.collect_as list_ events
           (snd (AsyncPipeline.collect_as list_ parsed
                   (EventStorage.Session sample_events [None]))))
    = Returns Nothing.
Proof.
  intros self derived events parsed. split; [reflexivity |].
  split; [| split; [reflexivity |]].
  - apply (proj1 (@async_collect_as_exhausts Z Z Z)
             self derived list_ list_ [[1; 2; 3]]).
    reflexivity.
  - apply (proj2 (@async_collect_as_exhausts Z doc (option CalendarEvent.t))
             events parsed list_ list_
             (EventStorage.Session sample_events [None])).
    reflexivity.
Defined.

(* ===================================================================== *)
(** * More properties: event storage and the tracker *)
(* ===================================================================== *)

Section more_storage_facts.
Import Mongo.

Lemma first_match_app_none (q : query) (ds : list doc) (x : doc) :
  first_match q ds = None →
  first_match q (ds ++ [x]) = if matches q x then Some x else None.
Proof.
  induction ds as [|d ds IH]; cbn.
  - intros _. by rewrite first_match_cons.
  - rewrite !first_match_cons. destruct (matches q d); [done | apply IH].
Qed.

Lemma first_match_app_some (q : query) (ds : list doc) (x d : doc) :
  first_match q ds = Some d → first_match q (ds ++ [x]) = Some d.
Proof.
  induction ds as [|y ds IH]; cbn; [done |].
  rewrite !first_match_cons. destruct (matches q y); [done | apply IH].
Qed.

Lemma has_id_by_id (k : string) (d : doc) :
  has_id (BStr k) d = matches (by_id k) d.
Proof.
  unfold has_id, matches, by_id. cbn. rewrite andb_true_r.
  by destruct (d !! "_id").
Qed.

Lemma existsb_has_id (k : string) (ds : list doc) :
  existsb (has_id (BStr k)) ds
  = if first_match (by_id k) ds is Some _ then true else false.
Proof.
  induction ds as [|d ds IH]; [done |].
  cbn. rewrite first_match_cons, has_id_by_id.
  destruct (matches (by_id k) d); [done | apply IH].
Qed.

Lemma upsert_base_id (k : string) (ds : list doc) :
  upsert_base k ds !! "_id" = Some (BStr k).
Proof.
  unfold upsert_base.
  destruct (first_match (by_id k) ds) as [d |] eqn:Hd.
  - apply matches_by_id. by apply (first_match_matches _ ds).
  - apply lookup_singleton_eq.
Qed.

Lemma update_by_id_found (k : string) (fields : doc) (ds : list doc) :
  fields !! "_id" = None →
  ∃ ds',
    EventStorage.update_by_id (BStr k) fields (Store ds [])
    = (Returns (Ok (if first_match (by_id k) ds is Some _ then 1 else 0)), Store ds' [])
    ∧ first_match (by_id k) ds' = Some (sent fields ∪ upsert_base k ds).
Proof.
  intros Hid. rewrite update_by_id_healthy. cbn [to_bson]. fold (by_id k).
  assert (Hsid : sent fields !! "_id" = None).
  { unfold sent. by rewrite lookup_fmap, Hid. }
  assert (Hm : matches (by_id k) (sent fields ∪ upsert_base k ds) = true).
  { apply matches_by_id. rewrite lookup_union_r by done. apply upsert_base_id. }
  unfold upsert_base in *.
  destruct (first_match (by_id k) ds) as [d |] eqn:Hd.
  - destruct (replace_first_found (by_id k) (λ x, sent fields ∪ x) ds d Hd)
      as (ds' & -> & Hfirst & _).
    exists ds'. split; [done |]. by apply Hfirst.
  - rewrite (replace_first_none _ _ _ Hd).
    assert (Hseed : seed (by_id k) = {["_id" := BStr k]}) by done.
    rewrite Hseed.
    assert (Hwith : with_id ds (sent fields ∪ {["_id" := BStr k]})
                    = sent fields ∪ {["_id" := BStr k]}).
    { unfold with_id. rewrite lookup_union_r by done.
      by rewrite lookup_singleton_eq. }
    rewrite Hwith. eexists. split; [done |].
    by rewrite (first_match_app_none _ _ _ Hd), Hm.
Qed.

(** [update_by_id] upserts.  The fields are keywords that the call can
    pass (none is [_id] or [self]); they are some (an empty [$set] is the
    server's to accept or refuse), and their keys, at every depth, are names
    of fields.  Against a healthy server, whether or
    not the id was stored, the document found under the id afterwards
    carries the id and every field that was set, as the driver encodes its
    value (a datetime cut to the millisecond); the count answered is 1 when
    the id was stored and 0 when the document was created. *)
Theorem update_by_id_upserts (k : string) (fields : doc) (ds : list doc) :
  fields !! "_id" = None →
  fields !! "self" = None →
  fields ≠ ∅ →
  plain (BDocument fields) = true →
  ∃ (ds' : list doc) (d' : doc),
    EventStorage.update_by_id (BStr k) fields (Store ds [])
    = (Returns (Ok (if first_match (by_id k) ds is Some _ then 1 else 0)), Store ds' [])
    ∧ EventStorage.get_by_id (BStr k) (Store ds' [])
      = (Returns (Ok (Something d')), Store ds' [])
    ∧ d' !! "_id" = Some (BStr k)
    ∧ ∀ f v, fields !! f = Some v → d' !! f = Some (to_bson v).
Proof.
  intros Hid _ _ _.
  destruct (update_by_id_found k fields ds Hid) as (ds' & Hrun & Hfirst).
  assert (Hsid : sent fields !! "_id" = None).
  { unfold sent. by rewrite lookup_fmap, Hid. }
  exists ds', (sent fields ∪ upsert_base k ds). split; [done |]. split; [| split].
  - rewrite get_by_id_healthy. cbn [to_bson]. fold (by_id k). by rewrite Hfirst.
  - rewrite lookup_union_r by done. apply upsert_base_id.
  - intros f v Hf. apply lookup_union_Some_l.
    unfold sent. by rewrite lookup_fmap, Hf.
Qed.

(** Saving an event and reading it back. *)
Lemma create_or_update_then_get (e : CalendarEvent.t) (ds : list doc) :
  (∀ d, first_match (by_id (CalendarEvent.id e)) ds = Some d → d !! "id" = None) →
  ∃ ds',
    CalendarTracker.create_or_update_event e (Store ds [])
    = (Returns (Ok (if first_match (by_id (CalendarEvent.id e)) ds is Some _ then 1 else 0)),
       Store ds' [])
    ∧ CalendarTracker.get_event (CalendarEvent.id e) (Store ds' [])
      = (Returns (Ok (Something (as_stored e))), Store ds' []).
Proof.
  intros Hstray.
  assert (Hsetid : set_fields e !! "_id" = None).
  { rewrite set_fields_lookup. by case_decide. }
  destruct (update_by_id_found (CalendarEvent.id e) (set_fields e) ds Hsetid)
    as (ds' & Hrun & Hfirst).
  exists ds'. split.
  - by rewrite create_or_update_event_healthy.
  - rewrite get_event_healthy, Hfirst, sent_set_fields.
    set (d' := set_fields (as_stored e) ∪ upsert_base (CalendarEvent.id e) ds).
    assert (Hnoid : d' !! "id" = None).
    { unfold d'. rewrite lookup_union_r.
      - unfold upsert_base.
        destruct (first_match (by_id (CalendarEvent.id e)) ds) as [d |] eqn:Hd.
        + by apply Hstray.
        + by apply lookup_singleton_ne.
      - rewrite set_fields_lookup. by case_decide. }
    unfold from_, adjusted. rewrite Hnoid.
    unfold d'. rewrite written_validates; [done |].
    apply upsert_base_id.
Qed.

(** [create_or_update_event] and [get_event] round-trip, up to the
    precision of the store.  Against a healthy server, and as long as the
    document stored under the id (if there is one) has no key [id] of its
    own, the event read back after the save is the event that was saved with
    [start] and [end] cut to the millisecond, whether the id was stored
    before or not; an event whose [start] and [end] are whole milliseconds
    is read back as it was saved. *)
Theorem create_or_update_event_round_trip (e : CalendarEvent.t) (ds : list doc) :
  (∀ d, first_match (by_id (CalendarEvent.id e)) ds = Some d → d !! "id" = None) →
  ∃ (ds' : list doc) (n : Z),
    CalendarTracker.create_or_update_event e (Store ds [])
    = (Returns (Ok n), Store ds' [])
    ∧ CalendarTracker.get_event (CalendarEvent.id e) (Store ds' [])
      = (Returns (Ok (Something (as_stored e))), Store ds' [])
    ∧ (millis (CalendarEvent.start e) = CalendarEvent.start e →
       millis (CalendarEvent.end_ e) = CalendarEvent.end_ e →
       as_stored e = e).
Proof.
  intros Hstray.
  destruct (create_or_update_then_get e ds Hstray) as (ds' & Hrun & Hget).
  exists ds', (if first_match (by_id (CalendarEvent.id e)) ds is Some _ then 1 else 0).
  split; [done |]. split; [done |].
  intros Hs He. unfold as_stored. rewrite Hs, He. by destruct e.
Qed.


End more_storage_facts.

Lemma update_by_id_upserts_witness :
  let fields : doc := {["start" := BDate 1717200000123456]} in
  fields !! "_id" = None
  ∧ fields !! "self" = None
  ∧ fields ≠ ∅
  ∧ Mongo.plain (BDocument fields) = true
  ∧ ∃ (ds' : list doc) (d' : doc),
      EventStorage.update_by_id (BStr "evt-9") fields (Mongo.Store [] [])
      = (Returns (Ok (if first_match (by_id "evt-9") [] is Some _ then 1 else 0)),
         Mongo.Store ds' [])
      ∧ EventStorage.get_by_id (BStr "evt-9") (Mongo.Store ds' [])
        = (Returns (Ok (Something d')), Mongo.Store ds' [])
      ∧ d' !! "_id" = Some (BStr "evt-9")
      ∧ ∀ f v, fields !! f = Some v → d' !! f = Some (Mongo.to_bson v).
Proof.
  intros fields.
  assert (Hsome : fields ≠ ∅) by apply insert_non_empty.
  split; [reflexivity |]. split; [reflexivity |]. split; [exact Hsome |].
  split; [reflexivity |].
  apply (update_by_id_upserts "evt-9" fields []);
    [reflexivity | reflexivity | exact Hsome | reflexivity].
Defined.

Lemma create_or_update_event_round_trip_witness :
  (∀ d, first_match (by_id (CalendarEvent.id new_meeting))
                    (Mongo.documents sample_events) = Some d → d !! "id" = None)
  ∧ ∃ (ds' : list doc) (n : Z),
      CalendarTracker.create_or_update_event new_meeting sample_events
      = (Returns (Ok n), Mongo.Store ds' [])
      ∧ CalendarTracker.get_event (CalendarEvent.id new_meeting)
                                  (Mongo.Store ds' [])
        = (Returns (Ok (Something (as_stored new_meeting))), Mongo.Store ds' [])
      ∧ (Mongo.millis (CalendarEvent.start new_meeting)
         = CalendarEvent.start new_meeting →
         Mongo.millis (CalendarEvent.end_ new_meeting)
         = CalendarEvent.end_ new_meeting →
         as_stored new_meeting = new_meeting).
Proof.
  assert (Hnone : ∀ d, first_match (by_id (CalendarEvent.id new_meeting))
                         (Mongo.documents sample_events) = Some d →
                       d !! "id" = None).
  { intros d Hd. discriminate Hd. }
  split; [exact Hnone |].
  exact (create_or_update_event_round_trip new_meeting
           (Mongo.documents sample_events) Hnone).
Defined.


Section more_tracker_facts.
Import Mongo.

Lemma first_match_elem (q : query) (ds : list doc) (d : doc) :
  first_match q ds = Some d → d ∈ ds ∧ matches q d = true.
Proof.
  intros Hd. apply head_Some_elem_of in Hd.
  apply list_elem_of_filter in Hd. tauto.
Qed.

Lemma remove_first_gone (k : string) (ds : list doc) :
  unique_ids ds → first_match (by_id k) (remove_first (by_id k) ds) = None.
Proof.
  unfold unique_ids. induction ds as [|x ds IH]; [intros _; reflexivity |].
  rewrite fmap_cons, NoDup_cons. intros [Hx Hnd]. cbn [remove_first].
  destruct (matches (by_id k) x) eqn:Hm.
  - destruct (first_match (by_id k) ds) as [d |] eqn:Hd; [| done].
    apply first_match_elem in Hd as [Hin Hmd].
    apply matches_by_id in Hm, Hmd. destruct Hx.
    rewrite Hm, <- Hmd. by apply list_elem_of_fmap_2.
  - rewrite first_match_cons, Hm. by apply IH.
Qed.

Lemma remove_first_others (k k' : string) (ds : list doc) :
  k' ≠ k →
  first_match (by_id k') (remove_first (by_id k) ds) = first_match (by_id k') ds.
Proof.
  intros Hne. induction ds as [|x ds IH]; [reflexivity |].
  cbn [remove_first]. destruct (matches (by_id k) x) eqn:Hm.
  - rewrite first_match_cons.
    destruct (matches (by_id k') x) eqn:Hm'; [| done].
    apply matches_by_id in Hm, Hm'. congruence.
  - by rewrite !first_match_cons, IH.
Qed.

(** [delete_event] against a healthy server: afterwards [get_event] finds
    nothing under the id, and the documents of the other ids are found as
    before. *)
Theorem delete_event_removes (k : string) (ds : list doc) :
  unique_ids ds →
  ∃ ds' : list doc,
    CalendarTracker.delete_event k (Store ds []) = (Returns (Ok true), Store ds' [])
    ∧ CalendarTracker.get_event k (Store ds' [])
      = (Returns (Ok Nothing), Store ds' [])
    ∧ ∀ k', k' ≠ k → first_match (by_id k') ds' = first_match (by_id k') ds.
Proof.
  intros Hu. exists (remove_first (by_id k) ds). split; [done |]. split.
  - by rewrite get_event_healthy, (remove_first_gone k ds Hu).
  - intros k' Hne. by apply remove_first_others.
Qed.

(** [insert] of a [dict] whose keys, at every depth, are names of fields,
    against a healthy server: with a new [_id] the document is stored as the
    driver encodes it (its datetimes cut to the millisecond) and found under
    the id; with an [_id] that is taken the answer is the [Err] of a
    [DuplicateKeyError] and nothing changes. *)
Theorem insert_dict_once (k : string) (d : doc) (ds : list doc) :
  d !! "_id" = Some (BStr k) →
  plain (BDocument d) = true →
  (first_match (by_id k) ds = None →
   EventStorage.insert (ObjDict d) (Store ds [])
   = (Returns (Ok true), Store (ds ++ [sent d]) [])
   ∧ EventStorage.get_by_id (BStr k) (Store (ds ++ [sent d]) [])
     = (Returns (Ok (Something (sent d))), Store (ds ++ [sent d]) []))
  ∧ (is_Some (first_match (by_id k) ds) →
     EventStorage.insert (ObjDict d) (Store ds [])
     = (Returns (Err (Exn DuplicateKeyError "E11000")), Store ds [])).
Proof.
  intros Hid _.
  assert (Hsid : sent d !! "_id" = Some (BStr k)).
  { unfold sent. by rewrite lookup_fmap, Hid. }
  split.
  - intros Hnew. split.
    + unfold EventStorage.insert, as_async_result, insert_one, round_trip, append.
      cbn [outages documents]. by rewrite Hsid, existsb_has_id, Hnew.
    + rewrite get_by_id_healthy. cbn [to_bson]. fold (by_id k).
      rewrite (first_match_app_none _ _ _ Hnew).
      by rewrite (proj2 (matches_by_id k (sent d)) Hsid).
  - intros [old Hold].
    unfold EventStorage.insert, as_async_result, insert_one, round_trip, append.
    cbn [outages documents]. by rewrite Hsid, existsb_has_id, Hold.
Qed.

(** What [model_dump] writes, [from_] reads back: for every calendar event,
    [to_(dict)] followed by [from_] answers [Ok] of the event. *)
Theorem calendar_event_dump_round_trip (e : CalendarEvent.t) :
  Result.then_ (to_dict [] e) from_ = Ok e.
Proof.
  cbn [to_dict Result.then_ model_dump CalendarEvent_model without foldr fmap
       list_fmap].
  unfold from_, adjusted.
  destruct (dump_lookup e) as (Hid & _ & _ & _ & _ & _ & _ & _ & _ & Hno).
  rewrite Hno. cbn [model_validate CalendarEvent_model].
  rewrite (validate_dumped e _ (CalendarEvent.id e) Hid).
  - by destruct e.
  - done.
Qed.

(** A hazard with its one category survives the dump and [from_]:
    [to_(dict)] followed by [from_] answers [Ok] of the hazard. *)
Theorem disaster_event_dump_round_trip (e : DisasterEvent.t)
        (c : DisasterCategory.t) :
  DisasterEvent.categories e = [c] →
  Result.then_ (to_dict [] e) from_ = Ok e.
Proof.
  destruct e as [i na de li cats ac la lo da ma].
  cbn [DisasterEvent.categories]. intros ->. by destruct c.
Qed.

(** [create_or_update_event], [get_event] and [delete_event] never raise:
    whatever the server does, they answer an [Ok] or an [Err]. *)
Theorem tracker_methods_never_raise (e : CalendarEvent.t) (k : string)
        (c : collection) :
  (∃ r c', CalendarTracker.create_or_update_event e c = (Returns r, c'))
  ∧ (∃ r c', CalendarTracker.get_event k c = (Returns r, c'))
  ∧ (∃ r c', CalendarTracker.delete_event k c = (Returns r, c')).
Proof.
  destruct c as [ds [| [|] later]].
  - split; [| split].
    + rewrite create_or_update_event_healthy, update_by_id_healthy.
      destruct (replace_first _ _ ds); eauto.
    + rewrite get_event_healthy. eauto.
    + eauto.
  - split; [| split]; eauto.
  - split; [| split].
    + unfold CalendarTracker.create_or_update_event. cbn [to_dict Result.ok].
      unfold EventStorage.update_by_id_kwargs.
      destruct (dump_lookup e) as (Hid & _).
      cbn [model_dump CalendarEvent_model without foldr fmap list_fmap].
      assert (Hself : CalendarEvent.dump e !! "self" = None) by reflexivity.
      rewrite Hself, Hid.
      unfold EventStorage.update_by_id, as_async_result, update_one_set_upsert,
        round_trip. cbn [outages documents].
      destruct (replace_first _ _ ds); eauto.
    + rewrite (get_event_reached k ds (false :: later)) by done. eauto.
    + eauto.
Qed.

End more_tracker_facts.

(* ===================================================================== *)
(** * More properties: bulk writes *)
(* ===================================================================== *)

Section more_bulk_facts.
Import Mongo.

Lemma apply_updates_cons (r : UpdateOne) (later : list UpdateOne)
      (ds : list doc) (s : BulkWriteResult) :
  ∃ s', apply_updates (r :: later) ds s = apply_updates later (upserted r ds) s'.
Proof.
  cbn [apply_updates]. unfold upserted.
  destruct (replace_first _ _ ds); eauto.
Qed.

Lemma apply_updates_counts (requests : list UpdateOne) (ds : list doc)
      (s : BulkWriteResult) :
  nMatched (fst (apply_updates requests ds s))
  + nUpserted (fst (apply_updates requests ds s))
  = nMatched s + nUpserted s + Z.of_nat (length requests).
Proof.
  revert ds s. induction requests as [|r later IH]; intros ds s.
  - cbn. lia.
  - cbn [apply_updates length].
    destruct (replace_first _ _ ds); rewrite IH; cbn [nMatched nUpserted]; lia.
Qed.

Lemma upserted_same_id (k : string) (obj : doc) (ds : list doc) :
  obj !! "_id" = Some (BStr k) →
  ∃ base, first_match (by_id k)
            (upserted {| update_filter := by_id k; update_set := obj |} ds)
          = Some (sent obj ∪ base).
Proof.
  intros Hid0.
  assert (Hid : sent obj !! "_id" = Some (BStr k)).
  { unfold sent. by rewrite lookup_fmap, Hid0. }
  unfold upserted. cbn [update_filter update_set]. rewrite sent_by_id.
  assert (Hm : ∀ base, matches (by_id k) (sent obj ∪ base) = true).
  { intros base. apply matches_by_id. by apply lookup_union_Some_l. }
  destruct (first_match (by_id k) ds) as [d |] eqn:Hd.
  - destruct (replace_first_found (by_id k) (λ x, sent obj ∪ x) ds d Hd)
      as (ds' & -> & Hfirst & _).
    exists d. apply Hfirst, Hm.
  - rewrite (replace_first_none _ _ _ Hd).
    assert (Hwith : with_id ds (sent obj ∪ seed (by_id k))
                    = sent obj ∪ seed (by_id k)).
    { unfold with_id. by rewrite (lookup_union_Some_l _ _ _ _ Hid). }
    rewrite Hwith. exists (seed (by_id k)).
    by rewrite (first_match_app_none _ _ _ Hd), Hm.
Qed.

Lemma replace_first_other_id (k k' : string) (f : doc → doc) (ds ds' : list doc) :
  k' ≠ k →
  (∀ d, matches (by_id k) d = true → matches (by_id k) (f d) = true) →
  replace_first (by_id k) f ds = Some ds' →
  first_match (by_id k') ds' = first_match (by_id k') ds.
Proof.
  intros Hne Hkeeps. revert ds'.
  assert (Hother : ∀ d, matches (by_id k) d = true → matches (by_id k') d = false).
  { intros d Hd. destruct (matches (by_id k') d) eqn:Hd'; [| done].
    apply matches_by_id in Hd, Hd'. congruence. }
  induction ds as [|x ds IH]; intros ds'; [done |].
  cbn [replace_first]. destruct (matches (by_id k) x) eqn:Hx.
  - intros [= <-]. rewrite !first_match_cons.
    by rewrite (Hother x Hx), (Hother (f x) (Hkeeps x Hx)).
  - destruct (replace_first (by_id k) f ds) as [ds'' |]; [| done].
    intros [= <-]. rewrite !first_match_cons. by rewrite (IH ds'').
Qed.

Lemma upserted_other_id (k k' : string) (obj : doc) (ds : list doc) :
  obj !! "_id" = Some (BStr k) → k' ≠ k →
  first_match (by_id k')
    (upserted {| update_filter := by_id k; update_set := obj |} ds)
  = first_match (by_id k') ds.
Proof.
  intros Hid0 Hne.
  assert (Hid : sent obj !! "_id" = Some (BStr k)).
  { unfold sent. by rewrite lookup_fmap, Hid0. }
  unfold upserted. cbn [update_filter update_set]. rewrite sent_by_id.
  assert (Hm : ∀ base, matches (by_id k) (sent obj ∪ base) = true).
  { intros base. apply matches_by_id. by apply lookup_union_Some_l. }
  destruct (replace_first (by_id k) (λ d, sent obj ∪ d) ds) as [ds' |] eqn:Hr.
  - apply (replace_first_other_id k k' (λ d, sent obj ∪ d)); [done | | done].
    intros d _. apply Hm.
  - set (new := with_id ds _).
    assert (Hnew : matches (by_id k') new = false).
    { destruct (matches (by_id k') new) eqn:Hk'; [| done].
      apply matches_by_id in Hk'. unfold new, with_id in Hk'.
      rewrite (lookup_union_Some_l _ _ _ _ Hid) in Hk'.
      rewrite (lookup_union_Some_l _ _ _ _ Hid) in Hk'. congruence. }
    destruct (first_match (by_id k') ds) as [d |] eqn:Hd.
    + by apply first_match_app_some.
    + by rewrite (first_match_app_none _ _ _ Hd), Hnew.
Qed.

Lemma disaster_dump_id (h : DisasterEvent.t) :
  DisasterEvent.dump h !! "_id" = Some (BStr (DisasterEvent.id h)).
Proof. unfold DisasterEvent.dump. apply lookup_insert_eq. Qed.

Lemma apply_updates_other_ids (k : string) (hs : list DisasterEvent.t)
      (ds : list doc) (s : BulkWriteResult) :
  Forall (λ h, DisasterEvent.id h ≠ k) hs →
  first_match (by_id k) (snd (apply_updates (request_for <$> hs) ds s))
  = first_match (by_id k) ds.
Proof.
  intros Hall. revert ds s.
  induction Hall as [|h hs Hh Hall IH]; intros ds s; [done |].
  rewrite fmap_cons.
  destruct (apply_updates_cons (request_for h) (request_for <$> hs) ds s)
    as [s' ->].
  rewrite IH. apply upserted_other_id; [apply disaster_dump_id | done].
Qed.

Lemma apply_updates_stores (hs : list DisasterEvent.t) (h : DisasterEvent.t)
      (ds : list doc) (s : BulkWriteResult) :
  NoDup (DisasterEvent.id <$> hs) → h ∈ hs →
  ∃ base, first_match (by_id (DisasterEvent.id h))
            (snd (apply_updates (request_for <$> hs) ds s))
          = Some (sent (DisasterEvent.dump h) ∪ base).
Proof.
  revert ds s. induction hs as [|h0 hs IH]; intros ds s Hnd Hin.
  - by apply elem_of_nil in Hin.
  - rewrite fmap_cons. apply NoDup_cons in Hnd as [Hfresh Hnd].
    destruct (apply_updates_cons (request_for h0) (request_for <$> hs) ds s)
      as [s' ->].
    apply elem_of_cons in Hin as [-> | Hin].
    + rewrite apply_updates_other_ids.
      * apply upserted_same_id, disaster_dump_id.
      * apply Forall_forall. intros h Hh Heq. apply Hfresh.
        rewrite <- Heq. by apply list_elem_of_fmap_2.
    + by apply IH.
Qed.

Lemma collect_map_own {A B} (f : A → B) (l : list A) :
  on_own_heap (pl ← Pipeline.new l; Pipeline.collect_as list_ (Pipeline.map f pl))
  = Returns (Something_if_any (PyList (f <$> l))).
Proof.
  unfold on_own_heap, Pipeline.new, Pipeline.collect_as, Pipeline.map, mbind,
    M_bind, bind, Iter.iter, Iter.exhaust, mret, M_ret. cbn.
  assert (Hmap : omap (λ x : A, Some (f x)) l = f <$> l).
  { induction l as [|x l IH]; [done |]. cbn. by rewrite IH. }
  by rewrite Hmap.
Qed.

Lemma collect_filter_map_own {A B} `{PyBool B} (f : A → B) (l : list A) :
  on_own_heap (pl ← Pipeline.new l;
               Pipeline.collect_as list_ (Pipeline.filter_map f pl))
  = Returns (Something_if_any (PyList (List.filter py_bool (f <$> l)))).
Proof.
  unfold on_own_heap, Pipeline.new, Pipeline.collect_as, Pipeline.filter_map,
    mbind, M_bind, bind, Iter.iter, Iter.exhaust, mret, M_ret. cbn.
  assert (Hkept : omap (λ x : A, if py_bool (f x) then Some (f x) else None) l
                  = List.filter py_bool (f <$> l)).
  { induction l as [|x l IH]; [done |].
    cbn. destruct (py_bool (f x)); by rewrite IH. }
  by rewrite Hkept.
Qed.

Lemma update_for_dump (h : DisasterEvent.t) :
  EventStorage.update_for (DisasterEvent.dump h) = Returns (request_for h).
Proof. unfold EventStorage.update_for. by rewrite disaster_dump_id. Qed.

Lemma all_returned_requests (hs : list DisasterEvent.t) :
  all_returned (EventStorage.update_for <$> (DisasterEvent.dump <$> hs))
  = Returns (request_for <$> hs).
Proof.
  induction hs as [|h hs IH]; [done |].
  rewrite !fmap_cons. cbn [all_returned]. by rewrite update_for_dump, IH.
Qed.

Lemma dumps_collected (hs : list DisasterEvent.t) :
  List.filter py_bool ((λ d : DisasterEvent.t, Result.ok (to_dict [] d)) <$> hs)
  = (λ d, Some (DisasterEvent.dump d)) <$> hs.
Proof.
  induction hs as [|h hs IH]; [done |].
  rewrite !fmap_cons. cbn [List.filter].
  assert (Hfull : py_bool (Result.ok (to_dict [] h)) = true).
  { cbn. apply bool_decide_eq_true. intros Hempty.
    pose proof (disaster_dump_id h) as Hid.
    unfold DisasterEvent.dump in *. rewrite Hempty in Hid. done. }
  rewrite Hfull, IH. done.
Qed.

Lemma models_of_dumps (hs : list DisasterEvent.t) :
  DisasterTracker.models
    (PyList ((λ d : DisasterEvent.t, Some (DisasterEvent.dump d)) <$> hs))
  = DisasterEvent.dump <$> hs.
Proof.
  unfold DisasterTracker.models. cbn [elements_of].
  induction hs as [|h hs IH]; [done |]. cbn. by rewrite IH.
Qed.

Lemma all_returned_length {A} (items : list (outcome A)) (values : list A) :
  all_returned items = Returns values → length values = length items.
Proof.
  revert values. induction items as [|[a | e] items IH]; intros values.
  - by intros [= <-].
  - cbn. destruct (all_returned items) as [rest | e]; [| done].
    intros [= <-]. cbn. by rewrite (IH rest).
  - done.
Qed.

Lemma update_many_requests (obj : doc) (objs : list doc)
      (requests : list UpdateOne) (ds : list doc) :
  all_returned (EventStorage.update_for <$> obj :: objs) = Returns requests →
  EventStorage.update_many (obj :: objs) (Store ds [])
  = (Returns (Ok (Some (fst (apply_updates requests ds no_counts)))),
     Store (snd (apply_updates requests ds no_counts)) []).
Proof.
  intros Hall. unfold EventStorage.update_many.
  rewrite collect_map_own, Something_if_any_spec.
  rewrite fmap_cons. cbn [elements_of]. rewrite <- fmap_cons, Hall.
  apply all_returned_length in Hall.
  destruct requests as [|r requests]; [done |].
  unfold as_async_result, lift, mbind, M_bind, bind, bulk_write, round_trip.
  cbn [outages documents]. fold no_counts.
  by destruct (apply_updates (r :: requests) ds no_counts).
Qed.

Lemma save_many_healthy (h : DisasterEvent.t) (hs : list DisasterEvent.t)
      (ds : list doc) :
  DisasterTracker.save_many (h :: hs) (Store ds [])
  = (Returns (Ok (Some (fst (apply_updates (request_for <$> h :: hs) ds no_counts)))),
     Store (snd (apply_updates (request_for <$> h :: hs) ds no_counts)) []).
Proof.
  unfold DisasterTracker.save_many.
  rewrite collect_filter_map_own, dumps_collected, Something_if_any_spec.
  rewrite fmap_cons. cbn [elements_of].
  change (DisasterTracker.models _)
    with (DisasterTracker.models
            (PyList ((λ d, Some (DisasterEvent.dump d)) <$> h :: hs))).
  rewrite models_of_dumps, fmap_cons.
  apply update_many_requests. rewrite <- fmap_cons.
  apply all_returned_requests.
Qed.

(** [save_many] of hazards with distinct ids, against a healthy server:
    every hazard is matched or upserted, and afterwards the document found
    under the id of each hazard carries every field of its dump, as the
    driver encodes its value (a datetime cut to the millisecond). *)
Theorem save_many_upserts (hs : list DisasterEvent.t) (ds : list doc) :
  hs ≠ [] → NoDup (DisasterEvent.id <$> hs) →
  ∃ (reply : BulkWriteResult) (ds' : list doc),
    DisasterTracker.save_many hs (Store ds [])
    = (Returns (Ok (Some reply)), Store ds' [])
    ∧ nMatched reply + nUpserted reply = Z.of_nat (length hs)
    ∧ ∀ h, h ∈ hs →
        ∃ d, EventStorage.get_by_id (BStr (DisasterEvent.id h)) (Store ds' [])
             = (Returns (Ok (Something d)), Store ds' [])
             ∧ ∀ f v, DisasterEvent.dump h !! f = Some v
                      → d !! f = Some (to_bson v).
Proof.
  intros Hsome Hnd. destruct hs as [|h0 hs]; [done |].
  eexists _, _. split; [apply save_many_healthy |]. split.
  - rewrite apply_updates_counts, length_fmap. cbn. lia.
  - intros h Hin.
    destruct (apply_updates_stores (h0 :: hs) h ds no_counts Hnd Hin)
      as [base Hfirst].
    exists (sent (DisasterEvent.dump h) ∪ base). split.
    + rewrite get_by_id_healthy. cbn [to_bson].
      fold (by_id (DisasterEvent.id h)). by rewrite Hfirst.
    + intros f v Hf. apply lookup_union_Some_l.
      unfold sent. by rewrite lookup_fmap, Hf.
Qed.

(** When [update_many] sends nothing.  With no object it answers [Ok] of
    an empty [dict], and so does [save_many] with no hazard; with an object
    that has no [_id] it raises the [KeyError] of [obj["_id"]], which its
    decorator does not declare.  In each case the server is not asked and
    nothing is written, whatever the server would have done. *)
Theorem update_many_sends_nothing (objs : list doc) (c : collection) :
  EventStorage.update_many [] c = (Returns (Ok None), c)
  ∧ DisasterTracker.save_many [] c = (Returns (Ok None), c)
  ∧ (Exists (λ obj : doc, obj !! "_id" = None) objs →
     EventStorage.update_many objs c = (Raises (Exn KeyError "_id"), c)).
Proof.
  split; [done |]. split; [done |]. intros Hmissing.
  unfold EventStorage.update_many.
  rewrite collect_map_own, Something_if_any_spec.
  destruct objs as [|obj objs]; [by apply Exists_nil in Hmissing |].
  rewrite fmap_cons. cbn [elements_of]. rewrite <- fmap_cons.
  assert (Hraise : all_returned (EventStorage.update_for <$> obj :: objs)
                   = Raises (Exn KeyError "_id")).
  { induction Hmissing as [o os Ho | o os Hos IH].
    - rewrite fmap_cons. unfold EventStorage.update_for at 1. by rewrite Ho.
    - rewrite fmap_cons. cbn [all_returned]. rewrite IH.
      unfold EventStorage.update_for. by destruct (o !! "_id"). }
  by rewrite Hraise.
Qed.

End more_bulk_facts.

Lemma save_many_upserts_witness :
  [fire_north; fire_south] ≠ []
  ∧ NoDup (DisasterEvent.id <$> [fire_north; fire_south])
  ∧ ∃ (reply : Mongo.BulkWriteResult) (ds' : list doc),
      DisasterTracker.save_many [fire_north; fire_south] one_hazard_near
      = (Returns (Ok (Some reply)), Mongo.Store ds' [])
      ∧ Mongo.nMatched reply + Mongo.nUpserted reply = 2
      ∧ ∀ h, h ∈ [fire_north; fire_south] →
          ∃ d, EventStorage.get_by_id (BStr (DisasterEvent.id h)) (Mongo.Store ds' [])
               = (Returns (Ok (Something d)), Mongo.Store ds' [])
               ∧ ∀ f v, DisasterEvent.dump h !! f = Some v
                        → d !! f = Some (Mongo.to_bson v).
Proof.
  assert (Hsome : [fire_north; fire_south] ≠ []) by discriminate.
  assert (Hnd : NoDup (DisasterEvent.id <$> [fire_north; fire_south])).
  { apply (bool_decide_unpack _). vm_compute. exact I. }
  split; [exact Hsome |]. split; [exact Hnd |].
  exact (save_many_upserts [fire_north; fire_south]
           [DisasterEvent.dump fire_far; DisasterEvent.dump fire_north] Hsome Hnd).
Defined.

(* ===================================================================== *)
(** * More properties: the key-value store *)
(* ===================================================================== *)

Section more_quick_storage_facts.
Import Redis.

Lemma set_healthy (self : QuickStorage.t) (key value : string)
      (ks : gmap string entry) :
  QuickStorage.set self key value (Server ks [])
  = (Returns (Ok true),
     Server (<[QuickStorage._prefix self +:+ key := RString value]> ks) []).
Proof. reflexivity. Qed.

Lemma get_healthy (self : QuickStorage.t) (key : string) (ks : gmap string entry) :
  QuickStorage.get self key (Server ks [])
  = (Returns (match ks !! (QuickStorage._prefix self +:+ key) with
              | None => Ok Nothing
              | Some (RString v) => Ok (Something v)
              | Some (RHash _) => Err wrong_type
              end), Server ks []).
Proof.
  unfold QuickStorage.get, as_async_result, Redis.get, command, mbind, M_bind,
    bind. cbn [outages keys].
  by destruct (ks !! (QuickStorage._prefix self +:+ key)) as [[v | m] |].
Qed.

Lemma delete_healthy (self : QuickStorage.t) (key : string)
      (ks : gmap string entry) :
  QuickStorage.delete self key (Server ks [])
  = (Returns (Ok (if ks !! (QuickStorage._prefix self +:+ key) is Some _
                  then 1 else 0)),
     Server (base.delete (QuickStorage._prefix self +:+ key) ks) []).
Proof. reflexivity. Qed.

Lemma set_expiry_healthy (self : QuickStorage.t) (key : string) (time : Z)
      (ks : gmap string entry) :
  0 < time →
  QuickStorage.set_expiry self key time (Server ks [])
  = (Returns (Ok (bool_decide (is_Some (ks !! (QuickStorage._prefix self +:+ key))))),
     Server ks []).
Proof.
  intros Htime.
  unfold QuickStorage.set_expiry, as_async_result, expire, command.
  cbn [outages keys]. by rewrite (proj2 (Z.leb_gt time 0) Htime).
Qed.

(** [set], [get] and [delete] of a [QuickStorage] against a healthy server.
    What was set under a key is what [get] answers, whatever the key held
    before; the answers under every other full key (prefix and key) stay as
    they were; and after [delete], which counts the one key it removed,
    [get] answers [Nothing]. *)
Theorem quick_storage_set_get_delete (self : QuickStorage.t) (key value : string)
        (ks : gmap string entry) :
  ∃ ks' ks'' : gmap string entry,
    QuickStorage.set self key value (Server ks []) = (Returns (Ok true), Server ks' [])
    ∧ QuickStorage.get self key (Server ks' [])
      = (Returns (Ok (Something value)), Server ks' [])
    ∧ (∀ (other : QuickStorage.t) (key' : string),
         QuickStorage._prefix other +:+ key' ≠ QuickStorage._prefix self +:+ key →
         fst (QuickStorage.get other key' (Server ks' []))
         = fst (QuickStorage.get other key' (Server ks [])))
    ∧ QuickStorage.delete self key (Server ks' []) = (Returns (Ok 1), Server ks'' [])
    ∧ QuickStorage.get self key (Server ks'' [])
      = (Returns (Ok Nothing), Server ks'' []).
Proof.
  eexists _, _. split; [apply set_healthy |]. split; [| split; [| split]].
  - by rewrite get_healthy, lookup_insert_eq.
  - intros other key' Hne. rewrite !get_healthy. cbn [fst].
    by rewrite lookup_insert_ne.
  - by rewrite delete_healthy, lookup_insert_eq.
  - by rewrite get_healthy, lookup_delete_eq.
Qed.


(** [set_map] and [get_map] against a healthy server.  Setting a mapping of
    strings that is not empty, under a key that holds no string, adds its
    fields to the hash of the key: the count answered is that of the new
    fields, and [get_map] then answers the fields that were set over the
    fields that were there. *)
Theorem set_map_get_map (self : QuickStorage.t) (key : string) (d : doc)
        (fields : gmap string string) (ks : gmap string entry) :
  d ≠ ∅ → encoded d = Some fields →
  (∀ v, ks !! (QuickStorage._prefix self +:+ key) ≠ Some (RString v)) →
  ∃ ks' : gmap string entry,
    QuickStorage.set_map self key (MappingDict d) (Server ks [])
    = (Returns (Ok (Z.of_nat
         (size (fields ∖ hash_at (QuickStorage._prefix self +:+ key) ks)))),
       Server ks' [])
    ∧ QuickStorage.get_map self key (Server ks' [])
      = (Returns (Ok (Something
           (fields ∪ hash_at (QuickStorage._prefix self +:+ key) ks))),
         Server ks' []).
Proof.
  intros Hfull Henc Hkind.
  unfold QuickStorage.set_map, QuickStorage.get_map, as_async_result, hset,
    hgetall, command, mbind, M_bind, bind, hash_at.
  assert (Htrue : py_bool d = true) by by apply bool_decide_eq_true.
  rewrite Htrue, Henc. cbn [negb outages keys].
  destruct (ks !! (QuickStorage._prefix self +:+ key)) as [[v | old] |] eqn:Hk.
  - by destruct (Hkind v).
  - eexists. split; [done |]. cbn [outages keys]. by rewrite lookup_insert_eq.
  - eexists. split.
    + by rewrite map_difference_empty.
    + cbn [outages keys]. by rewrite lookup_insert_eq, map_union_empty.
Qed.

(** [get_map] has no [Nothing]: a key that is missing reads as the empty
    mapping, and the answer is [Something] of it. *)
Theorem get_map_no_Nothing (self : QuickStorage.t) (key : string) (s : server) :
  fst (QuickStorage.get_map self key s) ≠ Returns (Ok Nothing)
  ∧ (keys s !! (QuickStorage._prefix self +:+ key) = None →
     head (outages s) ≠ Some true →
     fst (QuickStorage.get_map self key s) = Returns (Ok (Something ∅))).
Proof.
  unfold QuickStorage.get_map, as_async_result, hgetall, command, mbind,
    M_bind, bind.
  destruct s as [ks [| [|] later]]; cbn [outages keys head]; split;
    try (intros Hk Ho; try (by destruct Ho); by rewrite Hk);
    try (by destruct (ks !! (QuickStorage._prefix self +:+ key)) as [[v | m] |]).
Qed.

End more_quick_storage_facts.

Lemma set_map_get_map_witness :
  model_dump ["id"] sample_channel ≠ ∅
  ∧ Redis.encoded (model_dump ["id"] sample_channel)
    = Some (intended_hash sample_channel)
  ∧ (∀ v, (∅ : gmap string Redis.entry) !! ("PREFERENCES:" +:+ "channel-1")
          ≠ Some (Redis.RString v))
  ∧ ∃ ks' : gmap string Redis.entry,
      QuickStorage.set_map EventChannels._storage "channel-1"
        (Redis.MappingDict (model_dump ["id"] sample_channel)) (Redis.Server ∅ [])
      = (Returns (Ok (Z.of_nat (size (intended_hash sample_channel
                                        ∖ hash_at ("PREFERENCES:" +:+ "channel-1") ∅)))),
         Redis.Server ks' [])
      ∧ QuickStorage.get_map EventChannels._storage "channel-1" (Redis.Server ks' [])
        = (Returns (Ok (Something (intended_hash sample_channel
                                     ∪ hash_at ("PREFERENCES:" +:+ "channel-1") ∅))),
           Redis.Server ks' []).
Proof.
  assert (Hfull : model_dump ["id"] sample_channel ≠ ∅).
  { apply (bool_decide_unpack _). vm_compute. exact I. }
  assert (Hkind : ∀ v, (∅ : gmap string Redis.entry)
                         !! ("PREFERENCES:" +:+ "channel-1")
                       ≠ Some (Redis.RString v)).
  { intros v Hv. vm_compute in Hv. discriminate Hv. }
  split; [exact Hfull |]. split; [reflexivity |]. split; [exact Hkind |].
  exact (set_map_get_map EventChannels._storage "channel-1"
           (model_dump ["id"] sample_channel) (intended_hash sample_channel) ∅
           Hfull eq_refl Hkind).
Defined.

(* ===================================================================== *)
(** * More properties: the registries and the sessions *)
(* ===================================================================== *)

Section more_registry_facts.
Import Redis.

Lemma registries_apart (calendar_id channel_id : string) :
  QuickStorage._prefix EventChannels._storage +:+ channel_id
  ≠ QuickStorage._prefix WatchedCalendars._storage +:+ calendar_id.
Proof. cbn. discriminate. Qed.

(** [EventChannels.get] reads a complete hash: when the hash under the
    channel id holds the three fields, the answer is [Ok] of the record
    itself, with no [Something] around it. *)
Theorem channel_get_reads (channel_id i u c : string)
        (mapping : gmap string string) (ks : gmap string entry) :
  ks !! ("PREFERENCES:" +:+ channel_id) = Some (RHash mapping) →
  mapping !! "id" = Some i → mapping !! "user_email" = Some u →
  mapping !! "calendar_id" = Some c →
  EventChannels.get channel_id (Server ks [])
  = (Returns (Ok (EventChannels.Bare (ChannelInfo.mk i u c))), Server ks []).
Proof.
  intros Hk Hi Hu Hc.
  unfold EventChannels.get, QuickStorage.get_map, as_async_result, hgetall,
    command, mbind, M_bind, bind.
  cbn [outages keys EventChannels._storage QuickStorage._prefix].
  rewrite Hk. cbn.
  unfold from_, adjusted, EventChannels.as_dict.
  rewrite (lookup_fmap _ _ "id"), Hi. cbn [fmap option_fmap option_map].
  assert (Hval : ChannelInfo.validate (<["_id" := BStr i]> (BStr <$> mapping))
                 = Some (ChannelInfo.mk i u c)).
  { unfold ChannelInfo.validate, get_str.
    rewrite !lookup_insert_ne by done.
    rewrite (lookup_fmap _ _ "id"), (lookup_fmap _ _ "user_email"),
      (lookup_fmap _ _ "calendar_id"), Hi, Hu, Hc. done. }
  cbn [model_validate ChannelInfo_model]. by rewrite Hval.
Qed.

(** The two registries keep apart: their prefixes differ, so creating or
    deleting the entry of a calendar leaves what [EventChannels.get]
    answers for every channel as it was. *)
Theorem registries_keep_apart (calendar_id channel_id watched : string)
        (ks : gmap string entry) :
  fst (EventChannels.get watched
         (snd (WatchedCalendars.create calendar_id channel_id (Server ks []))))
  = fst (EventChannels.get watched (Server ks []))
  ∧ fst (EventChannels.get watched
           (snd (WatchedCalendars.delete calendar_id (Server ks []))))
    = fst (EventChannels.get watched (Server ks [])).
Proof.
  pose proof (registries_apart calendar_id watched) as Hne.
  unfold WatchedCalendars.create, WatchedCalendars.delete.
  rewrite set_healthy, delete_healthy. cbn [snd].
  unfold EventChannels.get, QuickStorage.get_map, as_async_result, hgetall,
    command, mbind, M_bind, bind. cbn [outages keys].
  apply not_eq_sym in Hne. split.
  - rewrite lookup_insert_ne by done.
    by destruct (ks !! _) as [[v | m] |].
  - rewrite lookup_delete_ne by done.
    by destruct (ks !! _) as [[v | m] |].
Qed.

Section watched.
Context `{JsonModel ChannelInfo.t}.

(** [WatchedCalendars]: after [create] stored a channel id, [get] answers
    what [ChannelInfo.from_] makes of that text, a record or the [Err] of a
    failed validation; and [get] never answers [Ok(Something(channel id))],
    whatever the store holds. *)
Theorem watched_calendar_get (calendar_id channel_id : string)
        (ks : gmap string entry) :
  (∃ ks' : gmap string entry,
     WatchedCalendars.create calendar_id channel_id (Server ks [])
     = (Returns (Ok true), Server ks' [])
     ∧ WatchedCalendars.get calendar_id (Server ks' [])
       = (Returns (match model_validate_json channel_id with
                   | Some info => Ok (WatchedCalendars.Bare info)
                   | None => Err (Exn ValidationError "validation error")
                   end), Server ks' []))
  ∧ ∀ (s : server) (stored : string),
      fst (WatchedCalendars.get calendar_id s)
      ≠ Returns (Ok (WatchedCalendars.Wrapped (Something stored))).
Proof.
  split.
  - eexists. split; [apply set_healthy |].
    unfold WatchedCalendars.get, mbind, M_bind, bind.
    rewrite get_healthy, lookup_insert_eq. unfold from_json.
    by destruct (model_validate_json channel_id).
  - intros s stored. unfold WatchedCalendars.get, mbind, M_bind, bind.
    destruct (QuickStorage.get WatchedCalendars._storage calendar_id s)
      as [[[[obj |] | e] | e] s']; cbn; try discriminate.
    unfold from_json. destruct (model_validate_json obj); cbn; discriminate.
Qed.

End watched.

(** A session, against a healthy server: [create] answers the session id,
    [get] then answers the email stored under it, and after [delete] it
    answers [Nothing]. *)
Theorem session_round_trip (session_id email : string) (ks : gmap string entry) :
  ∃ ks' ks'' : gmap string entry,
    ClientSession.create session_id email (Server ks [])
    = (Returns (Ok session_id), Server ks' [])
    ∧ ClientSession.get session_id (Server ks' [])
      = (Returns (Ok (Something email)), Server ks' [])
    ∧ ClientSession.delete session_id (Server ks' [])
      = (Returns (Ok 1), Server ks'' [])
    ∧ ClientSession.get session_id (Server ks'' [])
      = (Returns (Ok Nothing), Server ks'' []).
Proof.
  exists (<[session_id := RString email]> ks),
    (base.delete session_id (<[session_id := RString email]> ks)).
  unfold ClientSession.create, ClientSession.get, ClientSession.delete, mbind,
    M_bind, bind.
  rewrite set_healthy, delete_healthy, !get_healthy.
  cbn [ClientSession._storage QuickStorage._prefix String.append].
  rewrite lookup_insert_eq, lookup_delete_eq.
  rewrite !set_expiry_healthy by done.
  done.
Qed.

(** [create] of a session under any run of failures.  When the [set] does
    not reach the server, [create] answers the [Err], stores nothing and
    does not try to set the expiry; when the [set] reaches it, the email is
    stored and [create] answers the session id whatever becomes of the
    expiry: what [set_expiry] answers is dropped. *)
Theorem session_create_outages (session_id email : string)
        (ks : gmap string entry) (o : list bool) :
  (head o = Some true →
   ClientSession.create session_id email (Server ks o)
   = (Returns (Err (Exn RedisError "connection error")), Server ks (tail o)))
  ∧ (head o ≠ Some true →
     ClientSession.create session_id email (Server ks o)
     = (Returns (Ok session_id),
        Server (<[session_id := RString email]> ks) (tail (tail o)))).
Proof.
  destruct o as [| [|] [| [|] later]]; split; intros Ho;
    try discriminate Ho; try (by destruct Ho); try reflexivity.
Qed.

End more_registry_facts.

Lemma channel_get_reads_witness :
  let stored : gmap string string :=
    {["id" := "channel-1"; "user_email" := "ana@example.org";
      "calendar_id" := "primary"]} in
  let ks : gmap string Redis.entry :=
    {["PREFERENCES:channel-1" := Redis.RHash stored]} in
  ks !! ("PREFERENCES:" +:+ "channel-1") = Some (Redis.RHash stored)
  ∧ stored !! "id" = Some "channel-1"
  ∧ stored !! "user_email" = Some "ana@example.org"
  ∧ stored !! "calendar_id" = Some "primary"
  ∧ EventChannels.get "channel-1" (Redis.Server ks [])
    = (Returns (Ok (EventChannels.Bare
                      (ChannelInfo.mk "channel-1" "ana@example.org" "primary"))),
       Redis.Server ks []).
Proof.
  intros stored ks.
  split; [reflexivity |]. split; [reflexivity |]. split; [reflexivity |].
  split; [reflexivity |].
  apply (channel_get_reads "channel-1" "channel-1" "ana@example.org" "primary"
           stored ks); reflexivity.
Defined.

(* ===================================================================== *)
(** * More properties: listing the stored events *)
(* ===================================================================== *)

Section more_listing_facts.
Import Mongo.

Lemma kept_of_parsed {A B} `{PyBool B} (f : A → option B) (l : list A) :
  (∀ b : B, py_bool b = true) →
  List.filter py_bool (f <$> l) = Some <$> omap f l.
Proof.
  intros Htrue. induction l as [|x l IH]; [done |].
  rewrite fmap_cons. cbn [List.filter omap list_omap].
  destruct (f x) as [b |] eqn:Hx.
  - change (py_bool (Some b)) with (py_bool b). rewrite Htrue.
    cbn. by rewrite IH.
  - apply IH.
Qed.

Lemma filter_all_true {A} (p : A → bool) (l : list A) :
  Forall (λ x, p x = true) l → List.filter p l = l.
Proof.
  induction 1 as [|x l Hx Hl IH]; [done |]. cbn. by rewrite Hx, IH.
Qed.

Lemma matches_tracked (b : bool) (d : doc) :
  matches [("tracked", Equals (BBool b))] d = true
  ↔ d !! "tracked" = Some (BBool b).
Proof.
  unfold matches. cbn [forallb fst snd]. rewrite andb_true_r.
  apply satisfies_equals_bool.
Qed.

Lemma validate_tracked (d : doc) (e : CalendarEvent.t) (b : bool) :
  CalendarEvent.validate d = Some e → d !! "tracked" = Some (BBool b) →
  CalendarEvent.tracked e = b.
Proof.
  unfold CalendarEvent.validate. intros Hv Ht.
  do 8 (apply bind_Some in Hv as (? & _ & Hv)).
  apply bind_Some in Hv as (tr & Htr & Hv).
  unfold get_bool_or in Htr. rewrite Ht in Htr.
  injection Htr as <-. by injection Hv as <-.
Qed.

Lemma parse_event_tracked (d : doc) (e : CalendarEvent.t) (b : bool) :
  CalendarTracker.parse_event d = Some e → d !! "tracked" = Some (BBool b) →
  CalendarEvent.tracked e = b.
Proof.
  unfold CalendarTracker.parse_event, from_. intros Hp Ht.
  destruct (model_validate (adjusted d)) as [m |] eqn:Hv; [| done].
  injection Hp as ->. apply (validate_tracked (adjusted d)); [done |].
  unfold adjusted. destruct (d !! "id"); [| done].
  by rewrite lookup_insert_ne.
Qed.

(** [list_all_events (tracked)] always answers [Ok] of a pipeline over a
    generator that has not run: the query is not run until the pipeline is
    driven.  Driven against a healthy server, the pipeline produces the
    stored documents whose [tracked] is the argument, in stored order, each
    as the event it validates to and without those that do not validate;
    the [tracked] of every event produced is the argument.  Driven when the
    server cannot be reached, the pipeline raises the storage error.  Either
    way the generator has ended: driven again, the pipeline produces
    nothing. *)
Theorem list_all_events_elements (tracked : bool) (s : EventStorage.session) :
  ∃ p,
    CalendarTracker.list_all_events tracked s
    = (Returns (Ok p),
       EventStorage.Session (EventStorage.db s)
                            (EventStorage.generators s ++ [None]))
    ∧ (∀ ds : list doc,
         ∃ events : list CalendarEvent.t,
           AsyncPipeline.drain p
             (EventStorage.Session (Store ds [])
                                   (EventStorage.generators s ++ [None]))
           = (Returns (Some <$> events),
              EventStorage.Session (Store ds [])
                (<[length (EventStorage.generators s) := Some []]>
                   (EventStorage.generators s ++ [None])))
           ∧ events
             = omap CalendarTracker.parse_event
                 (filter (λ d, matches (filter_of p) d = true) ds)
           ∧ ∀ e, e ∈ events → CalendarEvent.tracked e = tracked)
    ∧ (∀ (ds : list doc) (later : list bool),
         AsyncPipeline.drain p
           (EventStorage.Session (Store ds (true :: later))
                                 (EventStorage.generators s ++ [None]))
         = (Raises (Exn PyMongoError "server unreachable"),
            EventStorage.Session (Store ds later)
              (<[length (EventStorage.generators s) := Some []]>
                 (EventStorage.generators s ++ [None]))))
    ∧ ∀ s' : EventStorage.session,
        fst (AsyncPipeline.drain p (snd (AsyncPipeline.drain p s')))
        = Returns [].
Proof.
  unfold CalendarTracker.list_all_events, mbind, M_bind, bind.
  rewrite (proj1 (find_makes_fresh _ s)).
  eexists. split; [reflexivity |]. split; [| split].
  - intros ds. eexists. split; [| split; [reflexivity |]].
    + rewrite drain_filter_map, drain_find_fresh
        by apply (proj2 (find_makes_fresh [] s)).
      cbn [EventStorage.by_ EventStorage.cell]. rewrite find_healthy.
      cbn [fst snd outcome_map]. rewrite kept_of_parsed by done.
      rewrite filter_all_true; [done |].
      apply Forall_forall. intros d Hd.
      apply list_elem_of_filter in Hd as [Hd _].
      apply matches_tracked in Hd. apply bool_decide_eq_true.
      intros ->. by rewrite lookup_empty in Hd.
    + intros e He. apply list_elem_of_omap in He as (d & Hd & Hp).
      apply list_elem_of_filter in Hd as [Hd _].
      apply matches_tracked in Hd. by apply (parse_event_tracked d).
  - intros ds later.
    rewrite drain_filter_map, drain_find_fresh
      by apply (proj2 (find_makes_fresh [] s)).
    reflexivity.
  - intros s'. apply drain_find_twice.
Qed.

End more_listing_facts.

(* ===================================================================== *)
(** * More properties: the hazards of the bounding box *)
(* ===================================================================== *)

Section more_correlation_facts.
Import Mongo.
Context `{Geodesy}.

Lemma satisfies_between_doubles (lo hi : float) (field : option bson) :
  satisfies (Between (BDouble lo) (BDouble hi)) field = true →
  ∃ x, field = Some (BDouble x)
       ∧ PrimFloat.leb lo x = true ∧ PrimFloat.leb x hi = true.
Proof.
  destruct field as [[] |]; cbn; try discriminate.
  intros Hx. apply andb_true_iff in Hx. eauto.
Qed.

Lemma validate_hazard_fields (d : doc) (h : DisasterEvent.t) :
  DisasterEvent.validate d = Some h →
  d !! "active" = Some (BBool (DisasterEvent.active h))
  ∧ d !! "lat" = Some (BDouble (DisasterEvent.lat h))
  ∧ d !! "lon" = Some (BDouble (DisasterEvent.lon h)).
Proof.
  unfold DisasterEvent.validate. intros Hv.
  do 5 (apply bind_Some in Hv as (? & _ & Hv)).
  apply bind_Some in Hv as (ac & Hac & Hv).
  apply bind_Some in Hv as (la & Hla & Hv).
  apply bind_Some in Hv as (lo & Hlo & Hv).
  do 2 (apply bind_Some in Hv as (? & _ & Hv)).
  injection Hv as <-. cbn.
  unfold get_bool, get_double in *.
  destruct (d !! "active") as [[] |]; try discriminate.
  destruct (d !! "lat") as [[] |]; try discriminate.
  destruct (d !! "lon") as [[] |]; try discriminate.
  by injection Hac as ->; injection Hla as ->; injection Hlo as ->.
Qed.

(** What the bounding-box query lets through: when it finds a hazard, the
    two corners were computed, the hazard is active, and its latitude and
    longitude lie between those of the south-west and the north-east corner,
    the corners included. *)
Theorem hazards_found_in_box (point : float * float) (ds : list doc)
        (h : DisasterEvent.t) :
  h ∈ hazards_found point ds →
  ∃ northeast southwest : float * float,
    calc_destination_point_by
      point DisasterTracker._DISASTER_DISTANCE_THRESHOLD_KM 45%float
    = Returns northeast
    ∧ calc_destination_point_by
        point DisasterTracker._DISASTER_DISTANCE_THRESHOLD_KM 225%float
      = Returns southwest
    ∧ DisasterEvent.active h = true
    ∧ PrimFloat.leb (fst southwest) (DisasterEvent.lat h) = true
    ∧ PrimFloat.leb (DisasterEvent.lat h) (fst northeast) = true
    ∧ PrimFloat.leb (snd southwest) (DisasterEvent.lon h) = true
    ∧ PrimFloat.leb (DisasterEvent.lon h) (snd northeast) = true.
Proof.
  intros Hin. unfold hazards_found, DisasterTracker.bounding_box in Hin.
  destruct (calc_destination_point_by point _ 45%float)
    as [[max_lat max_lon] | e1]; [| by apply elem_of_nil in Hin].
  destruct (calc_destination_point_by point _ 225%float)
    as [[min_lat min_lon] | e2]; [| by apply elem_of_nil in Hin].
  exists (max_lat, max_lon), (min_lat, min_lon).
  split; [done |]. split; [done |].
  apply list_elem_of_omap in Hin as (d & Hd & Hp).
  apply list_elem_of_In, filter_In in Hd as [Hd _].
  apply list_elem_of_In, list_elem_of_filter in Hd as [Hd _].
  unfold selects, matches in Hd.
  cbn [forallb fst snd sent_query sent_cond to_bson fmap list_fmap] in Hd.
  rewrite andb_true_r in Hd.
  apply andb_true_iff in Hd as [Hlat Hd].
  apply andb_true_iff in Hd as [Hlon Hact].
  apply satisfies_between_doubles in Hlat as (la & Hla & Hla1 & Hla2).
  apply satisfies_between_doubles in Hlon as (lo & Hlo & Hlo1 & Hlo2).
  apply satisfies_equals_bool in Hact.
  unfold DisasterTracker.parse_disaster, from_ in Hp.
  destruct (model_validate (adjusted d)) as [m |] eqn:Hv; [| done].
  injection Hp as ->.
  apply validate_hazard_fields in Hv as (Hac & Hlat & Hlon).
  assert (Hsame : ∀ f, f ≠ "_id" → adjusted d !! f = d !! f).
  { intros f Hf. unfold adjusted. destruct (d !! "id"); [| done].
    by rewrite lookup_insert_ne. }
  rewrite Hsame in Hac, Hlat, Hlon by done.
  rewrite Hact in Hac. rewrite Hla in Hlat. rewrite Hlo in Hlon.
  injection Hac as <-. injection Hlat as <-. injection Hlon as <-.
  cbn [fst snd]. done.
Qed.

Lemma find_reached (q : query) (ds : list doc) (o : list bool) :
  head o ≠ Some true →
  Mongo.find q (Store ds o)
  = (Returns (filter (λ d, selects q d = true) ds), Store ds (tail o)).
Proof.
  intros Ho. unfold Mongo.find, round_trip. cbn [outages documents].
  by destruct o as [| [|] later]; [| destruct Ho |].
Qed.

(** When computing a corner raises, the correlator raises the same and asks
    the server nothing. *)
Lemma check_calendar_event_unbounded (event : CalendarEvent.t) (c : collection)
      (e : exn) :
  DisasterTracker.bounding_box (CalendarEvent.coordinates event) = Raises e →
  DisasterTracker.check_calendar_event event c = (Raises e, c).
Proof.
  intros Hbox.
  unfold DisasterTracker.check_calendar_event,
    DisasterTracker.scan_active_disasters, mbind, M_bind, bind.
  by rewrite Hbox.
Qed.

Lemma check_calendar_event_reached (event : CalendarEvent.t) (ds : list doc)
      (o : list bool) (box : query) :
  DisasterTracker.bounding_box (CalendarEvent.coordinates event) = Returns box →
  head o ≠ Some true →
  DisasterTracker.check_calendar_event event (Store ds o)
  = (match hazards_found (CalendarEvent.coordinates event) ds with
     | [] => Returns Nothing
     | [hazard] =>
         Returns (Something (DisasterAlert.mk (CalendarEvent.creator event)
                                              event [hazard] true))
     | _ :: _ :: _ => Raises (Exn ValidationError "disasters: wrong tuple length")
     end, Store ds (tail o)).
Proof.
  intros Hbox Ho.
  unfold DisasterTracker.check_calendar_event,
    DisasterTracker.scan_active_disasters, hazards_found.
  rewrite Hbox.
  unfold EventStorage.with_own_generators, mbind, M_bind, bind.
  rewrite (proj1 (find_makes_fresh box _)).
  unfold AsyncPipeline.collect_as, mbind, M_bind, bind.
  rewrite drain_filter_map, drain_find_fresh by reflexivity.
  cbn [EventStorage.by_ EventStorage.db]. rewrite (find_reached _ ds o Ho).
  cbn [fst snd outcome_map EventStorage.db].
  set (docs := List.filter py_bool (filter _ ds)).
  assert (Htrue : ∀ b : DisasterEvent.t, py_bool b = true) by done.
  rewrite (kept_of_parsed DisasterTracker.parse_disaster docs Htrue).
  rewrite Something_if_any_spec. cbn [build elements_of].
  destruct (omap DisasterTracker.parse_disaster docs) as [|h1 [|h2 hs]] eqn:Ho';
    cbn [fmap list_fmap mret M_ret ret]; unfold DisasterTracker.models;
    cbn [elements_of omap list_omap id]; reflexivity.
Qed.

Lemma check_calendar_event_outage (event : CalendarEvent.t) (ds : list doc)
      (later : list bool) (box : query) :
  DisasterTracker.bounding_box (CalendarEvent.coordinates event) = Returns box →
  DisasterTracker.check_calendar_event event (Store ds (true :: later))
  = (Raises (Exn PyMongoError "server unreachable"), Store ds later).
Proof.
  intros Hbox.
  unfold DisasterTracker.check_calendar_event,
    DisasterTracker.scan_active_disasters.
  rewrite Hbox.
  unfold EventStorage.with_own_generators, mbind, M_bind, bind.
  rewrite (proj1 (find_makes_fresh box _)).
  unfold AsyncPipeline.collect_as, mbind, M_bind, bind.
  rewrite drain_filter_map, drain_find_fresh by reflexivity.
  reflexivity.
Qed.

(** When [check_calendar_event] raises.  If computing a corner of the box
    raises (the trigonometry raises [ValueError] on an infinite latitude),
    it raises the same and the server is not asked.  Otherwise, if the
    server cannot be reached it raises the storage error: the query of
    [find] runs only when the pipeline is collected, past the decorator of
    [find], and nothing on the way catches it; and if the server is reached
    it raises exactly when the query finds two hazards or more. *)
Theorem check_calendar_event_raises (event : CalendarEvent.t) (ds : list doc)
        (o : list bool) :
  (∀ e, DisasterTracker.bounding_box (CalendarEvent.coordinates event) = Raises e →
        DisasterTracker.check_calendar_event event (Store ds o)
        = (Raises e, Store ds o))
  ∧ (∀ box,
       DisasterTracker.bounding_box (CalendarEvent.coordinates event)
       = Returns box →
       (head o = Some true →
        DisasterTracker.check_calendar_event event (Store ds o)
        = (Raises (Exn PyMongoError "server unreachable"), Store ds (tail o)))
       ∧ (head o ≠ Some true →
          (∃ e c', DisasterTracker.check_calendar_event event (Store ds o)
                   = (Raises e, c'))
          ↔ (2 ≤ length (hazards_found (CalendarEvent.coordinates event) ds))%nat)).
Proof.
  split; [intros e Hbox; by apply check_calendar_event_unbounded |].
  intros box Hbox. split.
  - destruct o as [| [|] later]; intros Ho; try discriminate Ho.
    by apply (check_calendar_event_outage event ds later box).
  - intros Ho. rewrite (check_calendar_event_reached event ds o box Hbox Ho).
    destruct (hazards_found (CalendarEvent.coordinates event) ds)
      as [|h1 [|h2 hs]]; cbn [length].
    + split; [by intros (e & c' & [=]) | lia].
    + split; [by intros (e & c' & [=]) | lia].
    + split; [lia | eauto].
Qed.

End more_correlation_facts.

Lemma check_calendar_event_raises_witness :
  @DisasterTracker.bounding_box sample_geodesy
     (CalendarEvent.coordinates unbounded_trip)
  = Raises (Exn ValueError "math domain error")
  ∧ @DisasterTracker.check_calendar_event sample_geodesy unbounded_trip
      two_hazards_near
    = (Raises (Exn ValueError "math domain error"), two_hazards_near)
  ∧ @DisasterTracker.check_calendar_event sample_geodesy stored_trip
      (Mongo.Store (Mongo.documents two_hazards_near) [true])
    = (Raises (Exn PyMongoError "server unreachable"),
       Mongo.Store (Mongo.documents two_hazards_near) [])
  ∧ ((∃ e c', @DisasterTracker.check_calendar_event sample_geodesy stored_trip
                (Mongo.Store (Mongo.documents two_hazards_near) [])
              = (Raises e, c'))
     ↔ (2 ≤ length (@hazards_found sample_geodesy
                       (CalendarEvent.coordinates stored_trip)
                       (Mongo.documents two_hazards_near)))%nat).
Proof.
  assert (Hraise : @DisasterTracker.bounding_box sample_geodesy
                     (CalendarEvent.coordinates unbounded_trip)
                   = Raises (Exn ValueError "math domain error"))
    by (vm_compute; reflexivity).
  assert (Hbox : ∃ box, @DisasterTracker.bounding_box sample_geodesy
                          (CalendarEvent.coordinates stored_trip)
                        = Returns box)
    by (eexists; vm_compute; reflexivity).
  destruct Hbox as [box Hbox].
  split; [exact Hraise |]. split; [| split].
  - exact (proj1 (@check_calendar_event_raises sample_geodesy unbounded_trip
                    (Mongo.documents two_hazards_near) []) _ Hraise).
  - exact (proj1 (proj2 (@check_calendar_event_raises sample_geodesy stored_trip
                           (Mongo.documents two_hazards_near) [true]) box Hbox)
             eq_refl).
  - apply (proj2 (proj2 (@check_calendar_event_raises sample_geodesy stored_trip
                           (Mongo.documents two_hazards_near) []) box Hbox)).
    discriminate.
Defined.

Lemma hazards_found_in_box_witness :
  fire_north ∈ @hazards_found sample_geodesy (CalendarEvent.coordinates stored_trip)
                              (Mongo.documents one_hazard_near)
  ∧ ∃ northeast southwest : float * float,
      sample_geodesy (CalendarEvent.coordinates stored_trip)
                     DisasterTracker._DISASTER_DISTANCE_THRESHOLD_KM 45%float
      = Returns northeast
      ∧ sample_geodesy (CalendarEvent.coordinates stored_trip)
                       DisasterTracker._DISASTER_DISTANCE_THRESHOLD_KM 225%float
        = Returns southwest
      ∧ DisasterEvent.active fire_north = true
      ∧ PrimFloat.leb (fst southwest) (DisasterEvent.lat fire_north) = true
      ∧ PrimFloat.leb (DisasterEvent.lat fire_north) (fst northeast) = true
      ∧ PrimFloat.leb (snd southwest) (DisasterEvent.lon fire_north) = true
      ∧ PrimFloat.leb (DisasterEvent.lon fire_north) (snd northeast) = true.
Proof.
  assert (Hfound : @hazards_found sample_geodesy
                     (CalendarEvent.coordinates stored_trip)
                     (Mongo.documents one_hazard_near) = [fire_north])
    by (vm_compute; reflexivity).
  assert (Hin : fire_north ∈ @hazards_found sample_geodesy
                  (CalendarEvent.coordinates stored_trip)
                  (Mongo.documents one_hazard_near)).
  { rewrite Hfound. apply list_elem_of_here. }
  split; [exact Hin |].
  exact (@hazards_found_in_box sample_geodesy
           (CalendarEvent.coordinates stored_trip)
           (Mongo.documents one_hazard_near) fire_north Hin).
Defined.

Lemma delete_event_removes_witness :
  unique_ids (Mongo.documents sample_events)
  ∧ ∃ ds' : list doc,
      CalendarTracker.delete_event "evt-1" sample_events
      = (Returns (Ok true), Mongo.Store ds' [])
      ∧ CalendarTracker.get_event "evt-1" (Mongo.Store ds' [])
        = (Returns (Ok Nothing), Mongo.Store ds' [])
      ∧ ∀ k', k' ≠ "evt-1" →
          first_match (by_id k') ds'
          = first_match (by_id k') (Mongo.documents sample_events).
Proof.
  assert (Hu : unique_ids (Mongo.documents sample_events)).
  { unfold unique_ids. cbn. apply NoDup_singleton. }
  split; [exact Hu |].
  exact (delete_event_removes "evt-1" (Mongo.documents sample_events) Hu).
Defined.

Lemma insert_dict_once_witness :
  let d := CalendarEvent.dump precise_trip in
  d !! "_id" = Some (BStr "evt-1")
  ∧ Mongo.plain (BDocument d) = true
  ∧ (first_match (by_id "evt-1") [] = None →
     EventStorage.insert (ObjDict d) (Mongo.Store [] [])
     = (Returns (Ok true), Mongo.Store ([] ++ [Mongo.sent d]) [])
     ∧ EventStorage.get_by_id (BStr "evt-1") (Mongo.Store ([] ++ [Mongo.sent d]) [])
       = (Returns (Ok (Something (Mongo.sent d))),
          Mongo.Store ([] ++ [Mongo.sent d]) []))
  ∧ (is_Some (first_match (by_id "evt-1") []) →
     EventStorage.insert (ObjDict d) (Mongo.Store [] [])
     = (Returns (Err (Exn DuplicateKeyError "E11000")), Mongo.Store [] []))
  ∧ Mongo.sent d !! "start" = Some (BDate 1717200000123000).
Proof.
  intros d. split; [reflexivity |]. split; [reflexivity |].
  pose proof (insert_dict_once "evt-1" d [] eq_refl eq_refl) as [Hnew Htaken].
  split; [exact Hnew |]. split; [exact Htaken |]. reflexivity.
Defined.

Lemma disaster_event_dump_round_trip_witness :
  DisasterEvent.categories fire_north = [wildfires]
  ∧ Result.then_ (to_dict [] fire_north) from_ = Ok fire_north.
Proof.
  split; [reflexivity |].
  apply (disaster_event_dump_round_trip fire_north wildfires). reflexivity.
Defined.

(* ===================================================================== *)
(** * More properties: [pop] and the user preferences *)
(* ===================================================================== *)

Section more_pop_facts.
Import Redis.

(** [EventChannels.pop] answers what [get] answers and removes the entry:
    against a healthy server the key of the channel is gone afterwards,
    also when the record did not validate; a key that holds a string is
    left, with the error as the answer.  When only the [delete] fails to
    reach the server, the answer is still that of [get] and the entry
    stays. *)
Theorem channel_pop_removes (channel_id : string) (ks : gmap string entry) :
  EventChannels.pop channel_id (Server ks [])
  = (fst (EventChannels.get channel_id (Server ks [])),
     Server (match ks !! ("PREFERENCES:" +:+ channel_id) with
             | Some (RString _) => ks
             | _ => base.delete ("PREFERENCES:" +:+ channel_id) ks
             end) [])
  ∧ ∀ later,
      (∀ v, ks !! ("PREFERENCES:" +:+ channel_id) ≠ Some (RString v)) →
      EventChannels.pop channel_id (Server ks (false :: true :: later))
      = (fst (EventChannels.get channel_id (Server ks [])), Server ks later).
Proof.
  unfold EventChannels.pop, EventChannels.get, QuickStorage.get_map,
    QuickStorage.delete, as_async_result, hgetall, Redis.delete, command,
    mbind, M_bind, bind.
  cbn [outages keys EventChannels._storage QuickStorage._prefix].
  split.
  - by destruct (ks !! ("PREFERENCES:" +:+ channel_id)) as [[v | m] |].
  - intros later Hkind.
    destruct (ks !! ("PREFERENCES:" +:+ channel_id)) as [[v | m] |];
      [by destruct (Hkind v) | done | done].
Qed.

Section codec.
Context `{JsonModel Preferences.t} `{JsonDump Preferences.t}.

(** The preferences of a user, against a healthy server.  A user with
    nothing stored reads as the default preferences, from [get] and from
    [pop]; after [create], [get] answers what [from_] reads out of the
    dumped text; and [pop] answers what [get] answers and removes the
    entry. *)
Theorem user_preferences_get_pop (email : string) (pref : Preferences.t)
        (ks : gmap string entry) :
  (ks !! ("PREFERENCES:" +:+ email) = None →
   UserPreferences.get email (Server ks [])
   = (Returns (Ok Preferences.default), Server ks [])
   ∧ UserPreferences.pop email (Server ks [])
     = (Returns (Ok Preferences.default), Server ks []))
  ∧ (∃ ks' : gmap string entry,
       UserPreferences.create email pref (Server ks [])
       = (Returns (Ok true), Server ks' [])
       ∧ UserPreferences.get email (Server ks' [])
         = (Returns (from_json (model_dump_json pref)), Server ks' [])
       ∧ UserPreferences.pop email (Server ks' [])
         = (Returns (from_json (model_dump_json pref)),
            Server (base.delete ("PREFERENCES:" +:+ email) ks') [])
       ∧ UserPreferences.get email
           (Server (base.delete ("PREFERENCES:" +:+ email) ks') [])
         = (Returns (Ok Preferences.default),
            Server (base.delete ("PREFERENCES:" +:+ email) ks') [])).
Proof.
  split.
  - intros Hk. unfold UserPreferences.get, UserPreferences.pop, mbind, M_bind,
      bind. rewrite get_healthy.
    cbn [UserPreferences._storage QuickStorage._prefix]. by rewrite Hk.
  - exists (<["PREFERENCES:" +:+ email := RString (model_dump_json pref)]> ks).
    unfold UserPreferences.create, UserPreferences.get, UserPreferences.pop,
      to_json, Result.then_async, mbind, M_bind, bind.
    rewrite set_healthy, !get_healthy.
    cbn [UserPreferences._storage QuickStorage._prefix].
    rewrite lookup_insert_eq, lookup_delete_eq, delete_healthy.
    done.
Qed.

End codec.

End more_pop_facts.
